(** * arduino-mass-builder: the report engine and the build command

    A shallow embedding of the reporting half of [arduino-mass-builder.py]
    ([find_builds], [add_extra_info], [create_report_data],
    [add_delta_info], [build_report_row], [report]) with the properties of
    it that the specification states, and of the building half
    ([build], [do_compile], [run_command]) with properties of its own.

    Conventions.
    - A Python exception is a value of [exn]; a function that may raise
      returns a [result].
    - A build (the Python dict loaded from [build.json] and mutated in
      place) is the record [build]; a key that may be missing from the dict
      is an [option] field.
    - The dataset [data] (a Python dict keyed by a tuple, iterated in
      insertion order) is an association list with unique keys.
    - The results directory is a finite tree [dir]; the size tool and the
      JSON and SHA-1 libraries are variables of the section. *)

From Stdlib Require Import ZArith String Ascii OrderedTypeEx DecimalString.
From stdpp Require Import base option list strings gmap sorting.

Local Open Scope Z_scope.

(** ** Exceptions and results *)

Inductive exn : Type :=
  | JSONDecodeError      (* json.load on a malformed marker *)
  | CalledProcessError   (* subprocess.check_output: non-zero exit status *)
  | OSError              (* a program or a file that cannot be opened *)
  | ValueError           (* int() of a text that is not a number *)
  | KeyError.            (* d[k] for a missing k *)

Inductive result (A : Type) : Type :=
  | Ok (a : A)
  | Raise (e : exn).
Arguments Ok {A} a.
Arguments Raise {A} e.

#[global] Instance exn_eq_dec : EqDecision exn.
Proof. solve_decision. Defined.

#[global] Instance result_ret : MRet result := fun _ a => Ok a.
#[global] Instance result_bind : MBind result := fun _ _ f m =>
  match m with
  | Ok a => f a
  | Raise e => Raise e
  end.

(** A generator: what it yields, in order, and the exception that ends it,
    if one does. *)
Definition gen (A : Type) : Type := (list A * option exn)%type.

Definition gen_app {A} (g1 g2 : gen A) : gen A :=
  match g1 with
  | (l1, Some e) => (l1, Some e)
  | (l1, None) => (l1 ++ g2.1, g2.2)
  end.

(** ** Builds *)

(** The object [do_compile] dumps into [build.json]: these five keys and no
    other, an integer and four texts. *)
Record marker : Type := Marker {
  m_exit_code : Z;
  m_sketch_dir : string;
  m_sketch_name : string;
  m_board : string;
  m_buildset : string
}.

(** The dict [build]: the five keys of the marker, then the keys the report
    adds. *)
Record build : Type := Build {
  exit_code : Z;
  sketch_dir : string;
  sketch_name : string;
  board : string;
  buildset : string;
  status : option string;
  program_size : option Z;
  data_size : option Z;
  hash : option string;
  is_base : option string;
  delta_status : option string;
  delta_program_size : option Z;
  delta_data_size : option Z
}.

Definition build_of_marker (m : marker) : build :=
  {| exit_code := m_exit_code m; sketch_dir := m_sketch_dir m;
     sketch_name := m_sketch_name m; board := m_board m;
     buildset := m_buildset m;
     status := None; program_size := None; data_size := None; hash := None;
     is_base := None; delta_status := None;
     delta_program_size := None; delta_data_size := None |}.

(** [build[k] = v], one per key that is assigned. *)
Definition set_status (b : build) (v : string) : build :=
  {| exit_code := exit_code b; sketch_dir := sketch_dir b;
     sketch_name := sketch_name b; board := board b; buildset := buildset b;
     status := Some v; program_size := program_size b;
     data_size := data_size b; hash := hash b; is_base := is_base b;
     delta_status := delta_status b;
     delta_program_size := delta_program_size b;
     delta_data_size := delta_data_size b |}.

Definition set_program_size (b : build) (v : Z) : build :=
  {| exit_code := exit_code b; sketch_dir := sketch_dir b;
     sketch_name := sketch_name b; board := board b; buildset := buildset b;
     status := status b; program_size := Some v;
     data_size := data_size b; hash := hash b; is_base := is_base b;
     delta_status := delta_status b;
     delta_program_size := delta_program_size b;
     delta_data_size := delta_data_size b |}.

Definition set_data_size (b : build) (v : Z) : build :=
  {| exit_code := exit_code b; sketch_dir := sketch_dir b;
     sketch_name := sketch_name b; board := board b; buildset := buildset b;
     status := status b; program_size := program_size b;
     data_size := Some v; hash := hash b; is_base := is_base b;
     delta_status := delta_status b;
     delta_program_size := delta_program_size b;
     delta_data_size := delta_data_size b |}.

Definition set_hash (b : build) (v : string) : build :=
  {| exit_code := exit_code b; sketch_dir := sketch_dir b;
     sketch_name := sketch_name b; board := board b; buildset := buildset b;
     status := status b; program_size := program_size b;
     data_size := data_size b; hash := Some v; is_base := is_base b;
     delta_status := delta_status b;
     delta_program_size := delta_program_size b;
     delta_data_size := delta_data_size b |}.

Definition set_is_base (b : build) (v : string) : build :=
  {| exit_code := exit_code b; sketch_dir := sketch_dir b;
     sketch_name := sketch_name b; board := board b; buildset := buildset b;
     status := status b; program_size := program_size b;
     data_size := data_size b; hash := hash b; is_base := Some v;
     delta_status := delta_status b;
     delta_program_size := delta_program_size b;
     delta_data_size := delta_data_size b |}.

Definition set_delta_status (b : build) (v : string) : build :=
  {| exit_code := exit_code b; sketch_dir := sketch_dir b;
     sketch_name := sketch_name b; board := board b; buildset := buildset b;
     status := status b; program_size := program_size b;
     data_size := data_size b; hash := hash b; is_base := is_base b;
     delta_status := Some v;
     delta_program_size := delta_program_size b;
     delta_data_size := delta_data_size b |}.

Definition set_delta_program_size (b : build) (v : Z) : build :=
  {| exit_code := exit_code b; sketch_dir := sketch_dir b;
     sketch_name := sketch_name b; board := board b; buildset := buildset b;
     status := status b; program_size := program_size b;
     data_size := data_size b; hash := hash b; is_base := is_base b;
     delta_status := delta_status b;
     delta_program_size := Some v;
     delta_data_size := delta_data_size b |}.

Definition set_delta_data_size (b : build) (v : Z) : build :=
  {| exit_code := exit_code b; sketch_dir := sketch_dir b;
     sketch_name := sketch_name b; board := board b; buildset := buildset b;
     status := status b; program_size := program_size b;
     data_size := data_size b; hash := hash b; is_base := is_base b;
     delta_status := delta_status b;
     delta_program_size := delta_program_size b;
     delta_data_size := Some v |}.

(** [d[k]], which raises [KeyError] when [k] is missing. *)
Definition item {A} (o : option A) : result A :=
  match o with
  | Some a => Ok a
  | None => Raise KeyError
  end.

(** ** The dataset *)

(** [(build['buildset'], build['sketch_dir'], build['board'])] *)
Definition key : Type := (string * string * string)%type.

Definition key_of (b : build) : key := (buildset b, sketch_dir b, board b).

(** A dict, its items in the order [items()] gives them: the order of
    insertion. *)
Definition dict : Type := list (key * build).

Fixpoint dict_get (d : dict) (k : key) : option build :=
  match d with
  | [] => None
  | (k', b) :: d' => if decide (k' = k) then Some b else dict_get d' k
  end.

(** [d[k] = v]: a key that is there keeps its place, a new one goes last. *)
Fixpoint dict_set (d : dict) (k : key) (v : build) : dict :=
  match d with
  | [] => [(k, v)]
  | (k', b) :: d' =>
      if decide (k' = k) then (k', v) :: d' else (k', b) :: dict_set d' k v
  end.

(** ** The results directory *)

Definition path : Type := list string.

(** A directory: its files (name and content) and its subdirectories, in the
    order the operating system lists them. *)
#[warnings="-register-all"]
Inductive dir : Type :=
  | Dir (files : list (string * string)) (subdirs : list (string * dir)).

Definition dir_files (d : dir) : list (string * string) :=
  match d with Dir files _ => files end.

Definition dir_subdirs (d : dir) : list (string * dir) :=
  match d with Dir _ subdirs => subdirs end.

Fixpoint assoc {A} (name : string) (l : list (string * A)) : option A :=
  match l with
  | [] => None
  | (n, a) :: l' => if decide (n = name) then Some a else assoc name l'
  end.

(** [open(p, 'rb').read()], [None] when the file cannot be opened. *)
Fixpoint read_file (d : dir) (p : path) : option string :=
  match p with
  | [] => None
  | [name] => assoc name (dir_files d)
  | name :: p' =>
      match d with
      | Dir _ subdirs =>
          (fix find (l : list (string * dir)) : option string :=
             match l with
             | [] => None
             | (n, d') :: l' =>
                 if decide (n = name) then read_file d' p' else find l'
             end) subdirs
      end
  end.

(** ** Text of the size tool *)

Definition LF : ascii := ascii_of_nat 10.
Definition CR : ascii := ascii_of_nat 13.

(** [bytes.splitlines()]: lines end at LF, CR or CR LF; the line breaks are
    dropped and no empty last line is produced. [cur] is the line being
    read, its characters in reverse. *)
Fixpoint splitlines_from (cur : list ascii) (s : string) : list string :=
  let line := string_of_list_ascii (rev cur) in
  match s with
  | EmptyString => match cur with [] => [] | _ => [line] end
  | String c s' =>
      if decide (c = LF) then line :: splitlines_from [] s'
      else if decide (c = CR) then
        match s' with
        | String c' s'' =>
            if decide (c' = LF) then line :: splitlines_from [] s''
            else line :: splitlines_from [] s'
        | EmptyString => [line]
        end
      else splitlines_from (c :: cur) s'
  end.

Definition splitlines (s : string) : list string := splitlines_from [] s.

Fixpoint strip_prefix (p s : string) : option string :=
  match p, s with
  | EmptyString, _ => Some s
  | String a p', String b s' =>
      if decide (a = b) then strip_prefix p' s' else None
  | String _ _, EmptyString => None
  end.

(** The longest run of characters satisfying [f] at the start of [s], and
    what follows it. *)
Fixpoint span (f : ascii -> bool) (s : string) : string * string :=
  match s with
  | EmptyString => (EmptyString, EmptyString)
  | String c s' =>
      if f c then let '(run, rest) := span f s' in (String c run, rest)
      else (EmptyString, s)
  end.

Definition is_space (c : ascii) : bool := bool_decide (c = " "%char).

Definition is_digit (c : ascii) : bool :=
  let n := N_of_ascii c in ((48 <=? n) && (n <=? 57))%N.

(** [re.match] of a line against the two patterns of [add_extra_info]: the
    [label] ([Program:] or [Data:]) at the start of the line, any number of
    spaces, a group of any number of digits, the text [" bytes"] and the end
    of the line. The result is the group. The spaces and then the digits
    are matched greedily. With one digit or more the text [" bytes"] has to
    follow; with none the engine gives one space back, which then serves as
    the space of [" bytes"]. *)
Definition re_match_size (label line : string) : option string :=
  rest ← strip_prefix label line;
  let '(spaces, rest) := span is_space rest in
  let '(digits, rest) := span is_digit rest in
  match digits with
  | String _ _ => if decide (rest = " bytes") then Some digits else None
  | EmptyString =>
      match spaces with
      | String _ _ => if decide (rest = "bytes") then Some digits else None
      | EmptyString => None
      end
  end.

(** [int(text)] for a text of decimal digits; the empty text is a
    [ValueError]. The limit that later versions of Python put on the number
    of digits of such a text (4300 unless it is set otherwise, and 640 at
    the least) is not part of the model, which is the [int] of the code on
    the texts below that limit. *)
Definition int_digits (digits : string) : Z :=
  fold_left (fun n c => 10 * n + (Z.of_N (N_of_ascii c) - 48))
            (list_ascii_of_string digits) 0.

Definition int (text : string) : result Z :=
  match text with
  | EmptyString => Raise ValueError
  | _ => Ok (int_digits text)
  end.

(** The body of the loop over the lines of the tool's output. *)
Definition scan_line (b : build) (line : string) : result build :=
  b ← match re_match_size "Program:" line with
      | Some g => n ← int g; Ok (set_program_size b n)
      | None => Ok b
      end;
  match re_match_size "Data:" line with
  | Some g => n ← int g; Ok (set_data_size b n)
  | None => Ok b
  end.

Fixpoint scan_lines (b : build) (lines : list string) : result build :=
  match lines with
  | [] => Ok b
  | line :: lines' => b' ← scan_line b line; scan_lines b' lines'
  end.

(** What [subprocess.check_output] does with the size tool. *)
Inductive tool_result : Type :=
  | ToolOutput (out : string)   (* exit status 0, and its standard output *)
  | ToolFailed                  (* non-zero exit status: CalledProcessError *)
  | ToolNotRun.                 (* the program cannot be started: OSError *)

Section Report.

(** [json.load] of the text of a marker, [None] for a text that is not the
    object [do_compile] writes (the report ends with an exception on
    it). *)
Variable json_load : string -> option marker.

(** [size_command -C elffile], by the path of the ELF file. *)
Variable avr_size : path -> tool_result.

(** [hashlib.sha1], from the bytes to the hex digest. *)
Variable sha1_hexdigest : string -> string.

(** ** find_builds *)

(** [os.walk] is top-down: it yields a directory, then walks the
    subdirectories left in the list it yielded. [find_builds] empties that
    list for a directory that has [build.json] among its files, so nothing
    below such a directory is visited. [dirname] is relative to the results
    directory. *)
Fixpoint walk_builds (d : dir) (dirname : path) : gen (path * marker) :=
  match d with
  | Dir files subdirs =>
      match assoc "build.json" files with
      | Some text =>
          match json_load text with
          | Some m => ([(dirname, m)], None)
          | None => ([], Some JSONDecodeError)
          end
      | None =>
          (fix walk_subdirs (l : list (string * dir)) : gen (path * marker) :=
             match l with
             | [] => ([], None)
             | (name, d') :: l' =>
                 gen_app (walk_builds d' (dirname ++ [name])) (walk_subdirs l')
             end) subdirs
      end
  end.

Definition find_builds (result_dir : dir) : gen (path * marker) :=
  walk_builds result_dir [].

(** ** add_extra_info *)

(** [root] is the results directory, [path] the directory of the build
    inside it. The call of the size tool comes before every assignment, so
    a [CalledProcessError] leaves [build] as it was. *)
Definition add_extra_info (root : dir) (path : path) (b : build)
  : result build :=
  let elffile := path ++ ["build"; sketch_name b +:+ ".cpp.elf"] in
  let hexfile := path ++ ["build"; sketch_name b +:+ ".cpp.hex"] in
  match avr_size elffile with
  | ToolFailed => Raise CalledProcessError
  | ToolNotRun => Raise OSError
  | ToolOutput out =>
      b ← scan_lines b (splitlines out);
      match read_file root hexfile with
      | None => Raise OSError
      | Some bytes => Ok (set_hash b (sha1_hexdigest bytes))
      end
  end.

(** ** create_report_data *)

(** The body of the loop: from a pair the scanner yields to the build that
    is stored. *)
Definition measure (root : dir) (path : path) (m : marker) : result build :=
  let b := build_of_marker m in
  let b := if decide (exit_code b ≠ 0)
           then set_status b "Failed to compile" else b in
  b ← match status b with
      | None =>
          match add_extra_info root path b with
          | Ok b' => Ok b'
          | Raise CalledProcessError => Ok (set_status b "Failed to get size")
          | Raise e => Raise e
          end
      | Some _ => Ok b
      end;
  Ok (match status b with
      | None => set_status b "OK"
      | Some _ => b
      end).

Fixpoint collect (root : dir) (builds : list (path * marker))
    (data : dict) (buildsets : gset string) : result (dict * gset string) :=
  match builds with
  | [] => Ok (data, buildsets)
  | (path, m) :: builds' =>
      b ← measure root path m;
      collect root builds' (dict_set data (key_of b) b)
              ({[buildset b]} ∪ buildsets)
  end.

(** The loop runs over what the scanner yields; the exception that ends the
    scanner, if any, is raised once the builds before it are processed. *)
Definition create_report_data (results_dir : dir)
  : result (dict * gset string) :=
  let '(builds, stop) := find_builds results_dir in
  r ← collect results_dir builds [] ∅;
  match stop with
  | Some e => Raise e
  | None => Ok r
  end.

End Report.

(** ** add_delta_info *)

(** [build['status'] == 'OK'] *)
Definition status_ok (b : build) : result bool :=
  st ← item (status b); Ok (bool_decide (st = "OK")).

(** [x and y] evaluates [y] only when [x] holds. *)
Definition and_then (x y : result bool) : result bool :=
  c ← x; if c : bool then y else Ok false.

Definition no_base_warning (b : build) : string :=
  buildset b +:+ " / " +:+ sketch_dir b +:+ " / " +:+ board b +:+
  ": No corresponding build in base buildset found, cannot compare" +:+
  String LF EmptyString.

(** The body of the loop after [is_base] is assigned: the build as it is at
    the end of the iteration and what is written to [sys.stderr]. [data] is
    the dict as it is then, so [base_build] is the object stored there. *)
Definition delta_body (data : dict) (base : string) (b : build)
  : result (build * list string) :=
  if decide (buildset b = base) then
    let b := set_delta_status b "Is base" in
    ok ← status_ok b;
    if ok : bool
    then Ok (set_delta_data_size (set_delta_program_size b 0) 0, [])
    else Ok (b, [])
  else
    match dict_get data (base, sketch_dir b, board b) with
    | None => Ok (set_delta_status b "No base", [no_base_warning b])
    | Some base_build =>
        both ← and_then (status_ok b) (status_ok base_build);
        b ← (if both : bool then
               h ← item (hash b);
               base_h ← item (hash base_build);
               if decide (h = base_h)
               then Ok (set_delta_status b "Identical")
               else Ok (set_delta_status b "Modified")
             else
               ok ← status_ok b;
               if ok : bool then Ok (set_delta_status b "Fixed")
               else
                 base_ok ← status_ok base_build;
                 if base_ok : bool then Ok (set_delta_status b "Broken")
                 else Ok (set_delta_status b "Still broken"));
        both ← and_then (status_ok b) (status_ok base_build);
        if both : bool then
          p ← item (program_size b);
          base_p ← item (program_size base_build);
          let b := set_delta_program_size b (p - base_p) in
          d ← item (data_size b);
          base_d ← item (data_size base_build);
          Ok (set_delta_data_size b (d - base_d), [])
        else Ok (b, [])
    end.

(** The loop over [data.items()]. The builds are mutated in place: [done]
    holds the items already visited, as they are now, [todo] the items still
    to visit, and the dict at any moment is [done] followed by [todo]. *)
Fixpoint add_delta_loop (done todo : dict) (base : string)
    (stderr : list string) : result (dict * list string) :=
  match todo with
  | [] => Ok (done, stderr)
  | (k, b) :: todo' =>
      let b := if decide (buildset b = base)
               then set_is_base b "Yes" else set_is_base b "No" in
      '(b', written) ← delta_body (done ++ (k, b) :: todo') base b;
      add_delta_loop (done ++ [(k, b')]) todo' base (stderr ++ written)
  end.

Definition add_delta_info (data : dict) (base : string)
  : result (dict * list string) :=
  add_delta_loop [] data base [].

(** ** The report *)

(** A cell handed to [csv.writer]: a text or a number. *)
Inductive value : Type :=
  | VStr (s : string)
  | VInt (n : Z).

#[global] Instance value_eq_dec : EqDecision value.
Proof. solve_decision. Defined.

Definition report_attrs : list string :=
  ["buildset"; "sketch_dir"; "board"; "status"; "program_size"; "data_size"].

Definition delta_attrs : list string :=
  ["delta_status"; "delta_program_size"; "delta_data_size"; "is_base"].

Definition report_headers : list (string * value) :=
  [("buildset", VStr "Buildset");
   ("sketch_dir", VStr "Sketch");
   ("board", VStr "Board");
   ("status", VStr "Status");
   ("program_size", VStr "Program size");
   ("data_size", VStr "Data size");
   ("delta_status", VStr "Δ status");
   ("delta_program_size", VStr "Δ program size");
   ("delta_data_size", VStr "Δ data size");
   ("is_base", VStr "In base buildset")].

(** The items of the dict [build]. *)
Definition build_items (b : build) : list (string * option value) :=
  [("exit_code", Some (VInt (exit_code b)));
   ("sketch_dir", Some (VStr (sketch_dir b)));
   ("sketch_name", Some (VStr (sketch_name b)));
   ("board", Some (VStr (board b)));
   ("buildset", Some (VStr (buildset b)));
   ("status", VStr <$> status b);
   ("program_size", VInt <$> program_size b);
   ("data_size", VInt <$> data_size b);
   ("hash", VStr <$> hash b);
   ("is_base", VStr <$> is_base b);
   ("delta_status", VStr <$> delta_status b);
   ("delta_program_size", VInt <$> delta_program_size b);
   ("delta_data_size", VInt <$> delta_data_size b)].

(** [build.get(attr)] and [report_headers.get(attr)] *)
Definition build_get (b : build) (attr : string) : option value :=
  mjoin (assoc attr (build_items b)).

Definition headers_get (attr : string) : option value :=
  assoc attr report_headers.

(** The truth value of [opts.base_set]: [None] and the empty text are
    false. *)
Definition truthy (o : option string) : bool :=
  match o with
  | Some (String _ _) => true
  | _ => false
  end.

Definition row : Type := list value.

(** [get] is the [get] method of the first argument. *)
Definition build_report_row (get : string -> option value)
    (delta : option string) : row :=
  let row := map (fun attr => default (VStr "") (get attr)) report_attrs in
  if truthy delta
  then row ++ map (fun attr => default (VStr "") (get attr)) delta_attrs
  else row.

(** The order of tuples: the first component that differs decides. Texts
    are compared character by character; on the bytes of UTF-8 this is the
    order of the code points, which is the order of [str]. *)
Definition lex {A B} (ca : A -> A -> comparison) (cb : B -> B -> comparison)
    (p q : A * B) : comparison :=
  match ca p.1 q.1 with
  | Eq => cb p.2 q.2
  | c => c
  end.

Definition key_compare : key -> key -> comparison :=
  lex (lex String.compare String.compare) String.compare.

Definition key_lt (k1 k2 : key) : Prop := key_compare k1 k2 = Lt.

Definition key_le (k1 k2 : key) : Prop := key_compare k1 k2 <> Gt.

(** The order of the items of [data]: the keys of a dict differ, so the
    comparison of two items never gets to the builds. *)
Definition item_le (x y : key * build) : Prop := key_le x.1 y.1.

#[global] Instance comparison_eq_dec : EqDecision comparison.
Proof. solve_decision. Defined.

#[global] Instance item_le_dec : RelDecision item_le.
Proof. intros x y. unfold item_le, key_le. apply _. Defined.

(** [sorted(data.items())] *)
Definition sorted (data : dict) : dict := merge_sort item_le data.

(** The lines [opts.base_set = 'base'] of [report] and their condition:
    the base set the report goes on with. *)
Definition choose_base_set (buildsets : gset string)
    (base_set : option string) : option string :=
  if bool_decide (1 < size buildsets)%nat && negb (truthy base_set)
     && bool_decide ("base" ∈ buildsets)
  then Some "base"
  else base_set.

(** The rows written to [data.csv]. *)
Definition report_rows (data : dict) (base_set : option string) : list row :=
  build_report_row headers_get base_set ::
  map (fun kb : key * build => build_report_row (build_get kb.2) base_set)
      (sorted data).

Section Command.

Variable json_load : string -> option marker.
Variable avr_size : path -> tool_result.
Variable sha1_hexdigest : string -> string.

(** The command [report]: the rows of [data.csv] and what is written to
    [sys.stderr]. *)
Definition report (results_dir : dir) (base_set : option string)
  : result (list row * list string) :=
  '(data, buildsets) ←
    create_report_data json_load avr_size sha1_hexdigest results_dir;
  let base_set := choose_base_set buildsets base_set in
  '(data, stderr) ←
    match base_set with
    | Some base =>
        if truthy base_set then add_delta_info data base else Ok (data, [])
    | None => Ok (data, [])
    end;
  Ok (report_rows data base_set, stderr).

End Command.

(** * The command [build]

    The half of the program that fills the results directory. The file
    system is the tree below [opts.results_dir]; [do_compile] creates that
    directory with the rest of a path when it is missing, so a results
    directory that does not exist yet is the empty tree. A path is the list
    of its components below the results directory, and a sketch is the
    list of the parts of its path. The components are names: [pathlib]
    drops an empty component and [.], and the system resolves [..], which a
    list of names does not do, so the model covers buildsets, boards and
    sketch directories that are made of plain names. The compiler is a
    variable of the section; it is taken to write below its [build.path]
    and to its output, and nowhere else. *)

(** ** The file system *)

(** The list with [name] bound to [a]: in the place of its first binding,
    or at the end. *)
Fixpoint set_assoc {A} (name : string) (a : A) (l : list (string * A))
  : list (string * A) :=
  match l with
  | [] => [(name, a)]
  | (n, b) :: l' =>
      if decide (n = name) then (name, a) :: l'
      else (n, b) :: set_assoc name a l'
  end.

Definition del_assoc {A} (name : string) (l : list (string * A))
  : list (string * A) :=
  filter (fun nb => nb.1 <> name) l.

(** The directory at [p]. *)
Fixpoint lookup_dir (d : dir) (p : path) : option dir :=
  match p with
  | [] => Some d
  | name :: p' =>
      match assoc name (dir_subdirs d) with
      | Some d' => lookup_dir d' p'
      | None => None
      end
  end.

(** [Path.exists]: there is a directory or a file at [p]. *)
Definition exists_at (d : dir) (p : path) : bool :=
  bool_decide (is_Some (lookup_dir d p))
  || bool_decide (is_Some (read_file d p)).

(** The tree with [o] in the place of the directory at [p], and with no
    directory there for [None]. Nothing changes when the directory above
    [p] is missing. *)
Fixpoint put (d : dir) (p : path) (o : option dir) : dir :=
  match p with
  | [] => default d o
  | name :: p' =>
      match p' with
      | [] =>
          Dir (dir_files d)
              (match o with
               | Some d' => set_assoc name d' (dir_subdirs d)
               | None => del_assoc name (dir_subdirs d)
               end)
      | _ :: _ =>
          match assoc name (dir_subdirs d) with
          | Some d' =>
              Dir (dir_files d) (set_assoc name (put d' p' o) (dir_subdirs d))
          | None => d
          end
      end
  end.

(** [shutil.rmtree]: an [OSError] ([None]) unless [p] is a directory. *)
Definition rmtree_at (d : dir) (p : path) : option dir :=
  match p, lookup_dir d p with
  | _ :: _, Some _ => Some (put d p None)
  | _, _ => None
  end.

(** The empty directories [p] names, one in the other. *)
Fixpoint fresh (p : path) : dir :=
  match p with
  | [] => Dir [] []
  | name :: p' => Dir [] [(name, fresh p')]
  end.

(** [Path.mkdir(parents=True)]: the missing directories of [p] are made.
    An [OSError] ([None]) when [p] exists already, or when a file is in the
    way; nothing is made then. *)
Fixpoint mkdir_parents_at (d : dir) (p : path) : option dir :=
  match p with
  | [] => None
  | name :: p' =>
      match assoc name (dir_files d) with
      | Some _ => None
      | None =>
          match assoc name (dir_subdirs d) with
          | Some d' =>
              match mkdir_parents_at d' p' with
              | Some d'' =>
                  Some (Dir (dir_files d) (set_assoc name d'' (dir_subdirs d)))
              | None => None
              end
          | None => Some (Dir (dir_files d) (dir_subdirs d ++ [(name, fresh p')]))
          end
      end
  end.

Definition set_file (name content : string) (d : dir) : dir :=
  Dir (set_assoc name content (dir_files d)) (dir_subdirs d).

(** [Path.open('w')] and what is written until the file is closed: the
    file is made, or its content replaced. An [OSError] ([None]) when the
    directory of the file is missing or [p] is a directory. *)
Definition write_file_at (d : dir) (p : path) (content : string)
  : option dir :=
  let name := default "" (last p) in
  match p, lookup_dir d (removelast p) with
  | _ :: _, Some dp =>
      match assoc name (dir_subdirs dp) with
      | Some _ => None
      | None => Some (put d (removelast p) (Some (set_file name content dp)))
      end
  | _, _ => None
  end.

(** ** Paths *)

(** [str] of a relative path. *)
Definition path_str (p : path) : string :=
  match p with
  | [] => "."
  | _ :: _ => String.concat "/" p
  end.

(** [Path.parent] and [Path.name] of a relative path, by its parts. *)
Definition parent (p : path) : path := removelast p.

Definition name (p : path) : string := default "" (last p).

(** The text before the last dot and the text after it. *)
Fixpoint rsplit_dot (s : string) : option (string * string) :=
  match s with
  | EmptyString => None
  | String c s' =>
      match rsplit_dot s' with
      | Some (a, b) => Some (String c a, b)
      | None => if decide (c = "."%char) then Some (EmptyString, s') else None
      end
  end.

(** [Path.stem]: the name without its last suffix. A dot at the start or
    at the end of the name starts no suffix. *)
Definition stem (name : string) : string :=
  match rsplit_dot name with
  | Some (String c a, String _ _) => String c a
  | _ => name
  end.

(** ** The world *)

(** The results directory and what was written to [sys.stdout]. *)
Record world : Type := World {
  w_fs : dir;
  w_stdout : list string
}.

(** A computation that reads and writes the world and may raise. *)
Definition io (A : Type) : Type := world -> world * result A.

#[global] Instance io_ret : MRet io := fun _ a w => (w, Ok a).
#[global] Instance io_bind : MBind io := fun _ _ f m w =>
  match m w with
  | (w', Ok a) => f a w'
  | (w', Raise e) => (w', Raise e)
  end.

Definition stdout_write (text : string) : io unit := fun w =>
  ({| w_fs := w_fs w; w_stdout := w_stdout w ++ [text] |}, Ok tt).

Definition path_exists (p : path) : io bool := fun w =>
  (w, Ok (exists_at (w_fs w) p)).

(** A step on the file system that raises [OSError] or succeeds. *)
Definition fs_step (f : dir -> option dir) : io unit := fun w =>
  match f (w_fs w) with
  | Some d => ({| w_fs := d; w_stdout := w_stdout w |}, Ok tt)
  | None => (w, Raise OSError)
  end.

Definition rmtree (p : path) : io unit := fs_step (fun d => rmtree_at d p).

Definition mkdir_parents (p : path) : io unit :=
  fs_step (fun d => mkdir_parents_at d p).

Definition write_file (p : path) (content : string) : io unit :=
  fs_step (fun d => write_file_at d p content).

(** The options of the command: [opts.buildset], [opts.force] and
    [opts.main.verbose]. *)
Record options : Type := Options {
  opt_buildset : string;
  opt_force : bool;
  opt_verbose : Z
}.

(** The command line of the compiler by its parts: the build path below
    the results directory, the board and the sketch. *)
Record command : Type := Command {
  build_path : path;
  cmd_board : string;
  cmd_sketch : path
}.

Definition arduino_cmd : string := "arduino-git".

(** [str(n)] for an integer. *)
Definition str_int (n : Z) : string := NilZero.string_of_int (Z.to_int n).

Definition nl : string := String LF EmptyString.

Section Build.

(** [str(p.resolve())], for a path below the results directory and for a
    sketch. *)
Variable results_abs : path -> string.
Variable sketch_abs : path -> string.

(** The compiler, run on a command line in a state of the results
    directory: [None] when the program cannot be started, else the content
    of the build path when it ends, what it wrote to its output, and its
    exit status. *)
Variable arduino : command -> dir -> option (dir * string * Z).

(** [json.dump] of the dict of a build. *)
Variable json_dump : marker -> string.

(** The list [cmd] of [do_compile]. *)
Definition argv (cmd : command) : list string :=
  [arduino_cmd;
   "--pref"; "build.path=" +:+ results_abs (build_path cmd);
   "--board"; cmd_board cmd;
   "--verify"; sketch_abs (cmd_sketch cmd);
   "--verbose"].

(** [sys.stdout.write] under [if opts.main.verbose >= 1]. *)
Definition say (opts : options) (text : string) : io unit :=
  if decide (1 <= opt_verbose opts) then stdout_write text else mret tt.

(** [subprocess.call] with the output going to [output_file], which is
    open. *)
Definition call (cmd : command) (output_file : path) : io Z := fun w =>
  match arduino cmd (w_fs w) with
  | None => (w, Raise OSError)
  | Some (tree, out, res) =>
      let d := put (w_fs w) (build_path cmd) (Some tree) in
      let d := default d (write_file_at d output_file out) in
      ({| w_fs := d; w_stdout := w_stdout w |}, Ok res)
  end.

(** ** run_command *)

Definition run_command (opts : options) (cmd : command) (output_file : path)
  : io Z :=
  write_file output_file "";;
  say opts ("Running: " +:+ String.concat " " (argv cmd) +:+ nl);;
  res ← call cmd output_file;
  say opts ("Returned " +:+ str_int res +:+ nl);;
  mret res.

(** ** do_compile *)

(** The [if] at the start of [do_compile]: what is there is removed, or
    the build is skipped ([true]). *)
Definition clear_or_skip (opts : options) (sketch_result_dir json_file : path)
    (shown : string) : io bool :=
  there ← path_exists sketch_result_dir;
  if there : bool then
    marked ← path_exists json_file;
    if negb marked then
      say opts (shown +:+ " looks interrupted, removing" +:+ nl);;
      rmtree sketch_result_dir;;
      mret false
    else if opt_force opts then
      say opts (shown +:+ " already exists, removing" +:+ nl);;
      rmtree sketch_result_dir;;
      mret false
    else
      say opts (shown +:+ " already exists, skipping" +:+ nl);;
      mret true
  else mret false.

Definition do_compile (opts : options) (sketch : path) (board : string)
  : io unit :=
  let sketch_result_dir := opt_buildset opts :: parent sketch ++ [board] in
  let build_dir := sketch_result_dir ++ ["build"] in
  let json_file := sketch_result_dir ++ ["build.json"] in
  skip ← clear_or_skip opts sketch_result_dir json_file
                       (path_str (parent sketch ++ [board]));
  if skip : bool then mret tt
  else
    mkdir_parents build_dir;;
    let cmd := {| build_path := build_dir; cmd_board := board;
                  cmd_sketch := sketch |} in
    res ← run_command opts cmd (sketch_result_dir ++ ["build.log"]);
    let build := {| m_exit_code := res;
                    m_sketch_dir := path_str (parent sketch);
                    m_sketch_name := stem (name sketch);
                    m_board := board;
                    m_buildset := opt_buildset opts |} in
    write_file json_file (json_dump build).

(** ** The command build *)

(** How the command ends: normally, with the usage error of [ctx.fail], or
    with an exception. *)
Inductive build_result : Type :=
  | BuildDone
  | BuildUsageError
  | BuildIndexError
  | BuildRaise (e : exn).

(** [Path.is_absolute], by the parts: the first part of an absolute path
    is its root. *)
Definition is_absolute (sketch : path) : bool :=
  match sketch with
  | root :: _ => bool_decide (root = "/" \/ root = "//")
  | [] => false
  end.

(** The first loop of [build]. *)
Fixpoint check_sketches (sketches : list path) : build_result :=
  match sketches with
  | [] => BuildDone
  | sketch :: sketches' =>
      if is_absolute sketch then BuildUsageError
      else match sketch with
           | [] => BuildIndexError
           | part :: _ =>
               if decide (part = "..") then BuildUsageError
               else check_sketches sketches'
           end
  end.

(** A character of the class of the pattern of [build]: white space or a
    comma. For a text of ASCII characters. *)
Definition is_sep (c : ascii) : bool :=
  let n := N_of_ascii c in
  ((9 <=? n) && (n <=? 13) || (28 <=? n) && (n <=? 32) || (n =? 44))%N.

(** [re.split] on the runs of separators: the texts between the runs, with
    the text before the first run and the text after the last one, which
    may be empty. [cur] is the text being read, in reverse; [in_run] holds
    after a separator. *)
Fixpoint re_split_from (cur : list ascii) (in_run : bool) (s : string)
  : list string :=
  match s with
  | EmptyString => [string_of_list_ascii (rev cur)]
  | String c s' =>
      if is_sep c then
        if in_run then re_split_from [] true s'
        else string_of_list_ascii (rev cur) :: re_split_from [] true s'
      else re_split_from (c :: cur) false s'
  end.

Definition re_split (boards : string) : list string :=
  re_split_from [] false boards.

(** The loop over the boards and the loop over the sketches. *)
Fixpoint compile_boards (opts : options) (sketch : path)
    (boardlist : list string) : io unit :=
  match boardlist with
  | [] => mret tt
  | board :: boardlist' =>
      do_compile opts sketch board;;
      compile_boards opts sketch boardlist'
  end.

Fixpoint compile_sketches (opts : options) (sketches : list path)
    (boardlist : list string) : io unit :=
  match sketches with
  | [] => mret tt
  | sketch :: sketches' =>
      compile_boards opts sketch boardlist;;
      compile_sketches opts sketches' boardlist
  end.

(** The command [build]; the name [build] is that of the dict here. *)
Definition build_command (opts : options) (sketches : list path)
    (boards : string) (w : world) : world * build_result :=
  match check_sketches sketches with
  | BuildDone =>
      match compile_sketches opts sketches (re_split boards) w with
      | (w', Ok _) => (w', BuildDone)
      | (w', Raise e) => (w', BuildRaise e)
      end
  | failure => (w, failure)
  end.

End Build.

(** * Notions of the specification *)

(** The build carries the status [OK]. *)
Definition is_ok (b : build) : Prop := status b = Some "OK".

#[global] Instance is_ok_dec b : Decision (is_ok b).
Proof. unfold is_ok. apply _. Defined.

(** The two files of a build that [add_extra_info] looks at. *)
Definition elffile (location : path) (m : marker) : path :=
  location ++ ["build"; m_sketch_name m +:+ ".cpp.elf"].

Definition hexfile (location : path) (m : marker) : path :=
  location ++ ["build"; m_sketch_name m +:+ ".cpp.hex"].

(** A line of the output of the tool matches the pattern of [label]. *)
Definition pattern_found (label out : string) : Prop :=
  Exists (fun line => is_Some (re_match_size label line)) (splitlines out).

(** The ways a measurement can fail that the specification lists: the
    process of the tool fails, a file is missing, a pattern is not found in
    the output of the tool. *)
Definition measurement_fails (avr_size : path -> tool_result) (root : dir)
    (location : path) (m : marker) : Prop :=
  avr_size (elffile location m) = ToolFailed \/
  avr_size (elffile location m) = ToolNotRun \/
  read_file root (hexfile location m) = None \/
  exists out, avr_size (elffile location m) = ToolOutput out /\
    (~ pattern_found "Program:" out \/ ~ pattern_found "Data:" out).

(** What holds of every build [create_report_data] stores: it has a status
    and nothing of what [add_delta_info] adds, it has a hash exactly when
    its status is [OK], and it has no size unless its status is [OK]. *)
Record scanned_build (b : build) : Prop := {
  scanned_status : is_Some (status b);
  scanned_hash : is_Some (hash b) <-> is_ok b;
  scanned_program_size : is_Some (program_size b) -> is_ok b;
  scanned_data_size : is_Some (data_size b) -> is_ok b;
  scanned_is_base : is_base b = None;
  scanned_delta_status : delta_status b = None;
  scanned_delta_program_size : delta_program_size b = None;
  scanned_delta_data_size : delta_data_size b = None
}.

(** What holds of every dict [create_report_data] returns: the keys differ,
    and each is the key of its build. *)
Definition dataset (data : dict) : Prop :=
  NoDup data.*1 /\
  Forall (fun kb : key * build => kb.1 = key_of kb.2 /\ scanned_build kb.2) data.

(** The key under which the build of a marker is stored. *)
Definition key_of_marker (m : marker) : key :=
  (m_buildset m, m_sketch_dir m, m_board m).

(** [b] with other sizes. *)
Definition with_sizes (b : build) (p d : option Z) : build :=
  {| exit_code := exit_code b; sketch_dir := sketch_dir b;
     sketch_name := sketch_name b; board := board b; buildset := buildset b;
     status := status b; program_size := p; data_size := d;
     hash := hash b; is_base := is_base b;
     delta_status := delta_status b;
     delta_program_size := delta_program_size b;
     delta_data_size := delta_data_size b |}.

(** The directory has the marker of a completed build among its files. *)
Definition has_marker (d : dir) : Prop :=
  is_Some (assoc "build.json" (dir_files d)).

#[global] Instance has_marker_dec d : Decision (has_marker d).
Proof. unfold has_marker. apply _. Defined.

(** [dir_at d p d']: the path [p] leads from [d] down to [d']. *)
Inductive dir_at : dir -> path -> dir -> Prop :=
  | dir_at_here d : dir_at d [] d
  | dir_at_below files subdirs name d' p d'' :
      (name, d') ∈ subdirs ->
      dir_at d' p d'' ->
      dir_at (Dir files subdirs) (name :: p) d''.

(** [top_marker d p]: the path [p] leads from [d] down to a directory with
    the marker, through directories without it, [d] included. *)
Inductive top_marker : dir -> path -> Prop :=
  | top_marker_here d : has_marker d -> top_marker d []
  | top_marker_below files subdirs name d' p :
      ~ has_marker (Dir files subdirs) ->
      (name, d') ∈ subdirs ->
      top_marker d' p ->
      top_marker (Dir files subdirs) (name :: p).

(** The walk of a list of subdirectories, one after the other. *)
Definition walk_subdirs (json_load : string -> option marker)
    (subdirs : list (string * dir)) (dirname : path) : gen (path * marker) :=
  foldr (fun nd acc =>
           gen_app (walk_builds json_load nd.2 (dirname ++ [nd.1])) acc)
        ([], None) subdirs.

(** [b] with other annotations of [add_delta_info]. *)
Definition with_delta (b : build) (base_mark delta : option string)
    (p d : option Z) : build :=
  {| exit_code := exit_code b; sketch_dir := sketch_dir b;
     sketch_name := sketch_name b; board := board b; buildset := buildset b;
     status := status b; program_size := program_size b;
     data_size := data_size b; hash := hash b; is_base := base_mark;
     delta_status := delta;
     delta_program_size := p;
     delta_data_size := d |}.

(** The build without the annotations: what [create_report_data] stored. *)
Definition as_scanned (b : build) : build := with_delta b None None None None.

(** Two states of the dict during [add_delta_info]: the same keys in the
    same order, and builds that differ in the annotations only. *)
Definition same_scan (d1 d2 : dict) : Prop :=
  Forall2 (fun x y : key * build =>
             x.1 = y.1 /\ as_scanned x.2 = as_scanned y.2) d1 d2.

(** The first assignment of the loop of [add_delta_info]. *)
Definition mark (base : string) (b : build) : build :=
  if decide (buildset b = base)
  then set_is_base b "Yes" else set_is_base b "No".

(** The loop of [add_delta_info] with every build compared against the
    dict [data] as it was before the loop. *)
Fixpoint delta_map (data : dict) (base : string) (todo : dict)
  : result (dict * list string) :=
  match todo with
  | [] => Ok ([], [])
  | (k, b) :: todo' =>
      '(b', written) ← delta_body data base (mark base b);
      '(rest, stderr) ← delta_map data base todo';
      Ok ((k, b') :: rest, written ++ stderr)
  end.

(** The table of the specification: the delta status by the statuses of the
    build and of its counterpart in the base buildset. *)
Definition matrix_delta_status (b base_build : build) : string :=
  match bool_decide (is_ok b), bool_decide (is_ok base_build) with
  | true, true =>
      if decide (hash b = hash base_build) then "Identical" else "Modified"
  | true, false => "Fixed"
  | false, true => "Broken"
  | false, false => "Still broken"
  end.

(** Every build with the status [OK] has both sizes, as the data model of
    the specification has it. *)
Definition sizes_present (data : dict) : Prop :=
  Forall (fun kb : key * build =>
            is_ok kb.2 ->
            is_Some (program_size kb.2) /\ is_Some (data_size kb.2)) data.

#[global] Instance sizes_present_dec data : Decision (sizes_present data).
Proof. unfold sizes_present. apply _. Defined.

(** What holds of the dict before and after [add_delta_info]: the keys
    differ, and each is the key of its build. *)
Definition keyed (data : dict) : Prop :=
  NoDup data.*1 /\ Forall (fun kb : key * build => kb.1 = key_of kb.2) data.

(** The key a row of the report shows in its first three columns. *)
Definition row_key (r : row) : option key :=
  match r with
  | VStr buildset :: VStr sketch_dir :: VStr board :: _ =>
      Some (buildset, sketch_dir, board)
  | _ => None
  end.

(** The build is not of the base buildset and has no counterpart in it. *)
Definition lacks_base (data : dict) (base : string) (b : build) : Prop :=
  buildset b <> base /\ dict_get data (base, sketch_dir b, board b) = None.

#[global] Instance lacks_base_dec data base b : Decision (lacks_base data base b).
Proof. unfold lacks_base. apply _. Defined.

(** [top_marker_text d p text]: the path [p] leads from [d] down, through
    directories without the marker, to a directory whose marker holds
    [text]. *)
Inductive top_marker_text : dir -> path -> string -> Prop :=
  | top_marker_text_here files subdirs text :
      assoc "build.json" files = Some text ->
      top_marker_text (Dir files subdirs) [] text
  | top_marker_text_below files subdirs name d' p text :
      assoc "build.json" files = None ->
      (name, d') ∈ subdirs ->
      top_marker_text d' p text ->
      top_marker_text (Dir files subdirs) (name :: p) text.

(** A text of [n] spaces, and the texts made of decimal digits. *)
Definition spaces (n : nat) : string :=
  string_of_list_ascii (replicate n " "%char).

Definition all_chars (f : ascii -> bool) (s : string) : bool :=
  forallb f (list_ascii_of_string s).

(** The first character of the text satisfies [f]. *)
Definition starts_with (f : ascii -> bool) (s : string) : bool :=
  match s with
  | String c _ => f c
  | EmptyString => false
  end.

(** The sizes the build has are not negative. *)
Definition sizes_not_negative (b : build) : Prop :=
  (forall p, program_size b = Some p -> 0 <= p) /\
  (forall d, data_size b = Some d -> 0 <= d).

(** ** Notions for the command build *)

(** [q] is inside the directory [p]. *)
Definition inside (p q : path) : Prop := exists n r, q = p ++ n :: r.

(** From [d] to [d'] no file changes but inside [p]. *)
Definition frame (p : path) (d d' : dir) : Prop :=
  forall q, ~ inside p q -> read_file d' q = read_file d q.

(** [sketch_result_dir] of [do_compile]. *)
Definition sketch_result_dir (opts : options) (sketch : path) (board : string)
  : path :=
  opt_buildset opts :: parent sketch ++ [board].

(** The dict [do_compile] dumps when the compiler ends with [res]. *)
Definition marker_of (opts : options) (sketch : path) (board : string)
    (res : Z) : marker :=
  {| m_exit_code := res;
     m_sketch_dir := path_str (parent sketch);
     m_sketch_name := stem (name sketch);
     m_board := board;
     m_buildset := opt_buildset opts |}.

(** The sketch is refused by the first loop of [build]. *)
Definition refused (sketch : path) : Prop :=
  is_absolute sketch = true \/ head sketch = Some "..".

(** The character is no separator of boards. *)
Definition no_sep (c : ascii) : bool := negb (is_sep c).

(** The text is made of ASCII characters. *)
Definition ascii_text (s : string) : bool :=
  all_chars (fun c => (N_of_ascii c <? 128)%N) s.

(** The build is compared with its counterpart in the base buildset while
    a size is missing: it is not of the base buildset, both builds have the
    status [OK], and one of the four sizes is absent. *)
Definition size_missing (data : dict) (base : string) (b : build) : Prop :=
  buildset b <> base /\
  match dict_get data (base, sketch_dir b, board b) with
  | Some base_build =>
      is_ok b /\ is_ok base_build /\
      (program_size b = None \/ program_size base_build = None \/
       data_size b = None \/ data_size base_build = None)
  | None => False
  end.

#[global] Instance size_missing_dec data base b :
  Decision (size_missing data base b).
Proof. unfold size_missing. destruct (dict_get _ _); apply _. Defined.

(** A name that [pathlib] keeps as one component of a path and that the
    system takes as it stands: it is not empty, it is not [.] or [..], and
    it holds no [/] and no NUL character. *)
Definition plain_name (s : string) : Prop :=
  s <> "" /\ s <> "." /\ s <> ".." /\
  all_chars (fun c => negb (bool_decide (c = "/"%char \/ c = "000"%char))) s
  = true.

#[global] Instance plain_name_dec s : Decision (plain_name s).
Proof. unfold plain_name. apply _. Defined.

(** The names from which [do_compile] makes its paths are plain. On such
    names the list [sketch_result_dir] is the path that [pathlib] makes,
    and the directory it names is below the results directory. *)
Definition plain_names (opts : options) (sketch : path) (board : string)
  : Prop :=
  plain_name (opt_buildset opts) /\
  Forall plain_name (parent sketch) /\
  plain_name board.

(** ** A results directory to run the report on *)

Module Demo.

(** Stands for [json.load] on the texts of the markers below. *)
Definition json_load (text : string) : option marker :=
  assoc text
    [("base/blink/uno", Marker 0 "blink" "blink" "uno" "base");
     ("next/blink/uno", Marker 0 "blink" "blink" "uno" "next");
     ("next/blink/mega", Marker 0 "blink" "blink" "mega" "next");
     ("next/fade/uno", Marker 1 "fade" "fade" "uno" "next");
     ("next/tone/uno", Marker 0 "tone" "tone" "uno" "next")].

Definition usage (program data : string) : string :=
  "AVR Memory Usage" +:+ String LF
  ("Program:    " +:+ program +:+ " bytes" +:+ String LF
  ("Data:        " +:+ data +:+ " bytes" +:+ String LF EmptyString)).

Definition avr_size (elf : path) : tool_result :=
  if decide (elf = ["base"; "blink"; "uno"; "build"; "blink.cpp.elf"])
  then ToolOutput (usage "1000" "20")
  else if decide (elf = ["next"; "blink"; "uno"; "build"; "blink.cpp.elf"])
  then ToolOutput (usage "1200" "18")
  else if decide (elf = ["next"; "blink"; "mega"; "build"; "blink.cpp.elf"])
  then ToolOutput "no sizes here"
  else ToolFailed.

(** Stands for the SHA-1 digest: the content itself. *)
Definition sha1_hexdigest (bytes : string) : string := bytes.

Definition build_dir (text sketch hex : string) : dir :=
  Dir [("build.json", text); ("build.log", "")]
      [("build", Dir [(sketch +:+ ".cpp.hex", hex)] [])].

Definition results : dir :=
  Dir []
    [("next",
      Dir [] [("fade", Dir [] [("uno", build_dir "next/fade/uno" "fade" "")]);
              ("blink",
               Dir [] [("uno", build_dir "next/blink/uno" "blink" ":02");
                       ("mega", build_dir "next/blink/mega" "blink" ":03")]);
              ("tone", Dir [] [("uno", build_dir "next/tone/uno" "tone" ":04")])]);
     ("base",
      Dir [] [("blink", Dir [] [("uno", build_dir "base/blink/uno" "blink" ":01")])]);
     ("report", Dir [("data.csv", "")] [])].

(** The dataset of [results]. *)
Definition built : result (dict * gset string) :=
  create_report_data json_load avr_size sha1_hexdigest results.

Definition data : dict :=
  Eval vm_compute in match built with Ok r => r.1 | Raise _ => [] end.

Definition buildsets : gset string :=
  match built with Ok r => r.2 | Raise _ => ∅ end.

(** A completed build below a completed build. *)
Definition nested : dir :=
  Dir []
    [("uno",
      Dir [("build.json", "base/blink/uno")]
          [("build", Dir [] []);
           ("uno", Dir [("build.json", "next/blink/uno")] [])])].

(** The size tool when it prints the sizes of [next/blink/mega] too. *)
Definition avr_size_all (elf : path) : tool_result :=
  if decide (elf = ["next"; "blink"; "mega"; "build"; "blink.cpp.elf"])
  then ToolOutput (usage "3000" "40")
  else avr_size elf.

Definition built_all : result (dict * gset string) :=
  create_report_data json_load avr_size_all sha1_hexdigest results.

Definition data_all : dict :=
  Eval vm_compute in match built_all with Ok r => r.1 | Raise _ => [] end.


(** Two builds of [data_all] and the build of the base they compare to. *)
Definition next_uno : build :=
  Eval vm_compute in
    default (build_of_marker (Marker 0 "" "" "" ""))
            (dict_get data_all ("next", "blink", "uno")).

Definition base_uno : build :=
  Eval vm_compute in
    default (build_of_marker (Marker 0 "" "" "" ""))
            (dict_get data_all ("base", "blink", "uno")).

Definition next_fade : build :=
  Eval vm_compute in
    default (build_of_marker (Marker 0 "" "" "" ""))
            (dict_get data_all ("next", "fade", "uno")).

(** A results directory in which a build was copied with its marker. *)
Definition copied : dir :=
  Dir []
    [("base",
      Dir [] [("blink", Dir [] [("uno", build_dir "base/blink/uno" "blink" ":01")])]);
     ("backup",
      Dir [] [("blink", Dir [] [("uno", build_dir "base/blink/uno" "blink" ":01")])])].

Definition built_copied : result (dict * gset string) :=
  create_report_data json_load avr_size sha1_hexdigest copied.

Definition data_copied : dict :=
  Eval vm_compute in match built_copied with Ok r => r.1 | Raise _ => [] end.

Definition buildsets_copied : gset string :=
  match built_copied with Ok r => r.2 | Raise _ => ∅ end.

(** The command [build] in the example: the compiler succeeds for the
    board [uno], fails for [mega] and cannot be started for another board;
    the dump of a build is the text [json_load] reads. *)
Definition results_abs (p : path) : string :=
  "/work/result/" +:+ String.concat "/" p.

Definition sketch_abs (p : path) : string := "/work/" +:+ String.concat "/" p.

Definition arduino (cmd : command) (d : dir) : option (dir * string * Z) :=
  if decide (cmd_board cmd = "uno")
  then Some (Dir [(stem (name (cmd_sketch cmd)) +:+ ".cpp.hex", ":05")] [],
             "Sketch uses 1200 bytes", 0)
  else if decide (cmd_board cmd = "mega")
  then Some (Dir [] [], "error: no such board", 1)
  else None.

Definition json_dump (m : marker) : string :=
  m_buildset m +:+ "/" +:+ m_sketch_dir m +:+ "/" +:+ m_board m.

Definition opts : options :=
  {| opt_buildset := "next"; opt_force := false; opt_verbose := 1 |}.

Definition forced : options :=
  {| opt_buildset := "next"; opt_force := true; opt_verbose := 0 |}.

Definition start : world := {| w_fs := results; w_stdout := [] |}.





Definition tone : marker := Marker 0 "tone" "tone" "uno" "next".
Definition mega : marker := Marker 0 "blink" "blink" "mega" "next".

(** The build of [next/blink/mega]: the tool printed no size. *)
Definition mega_build : build :=
  set_status (set_hash (build_of_marker mega) ":03") "OK".

End Demo.

(** * Properties *)

(** ** The order of the keys *)

Lemma string_compare_eq a b : String.compare a b = Eq <-> a = b.
Proof. apply String_as_OT.cmp_eq. Qed.

Lemma string_compare_trans a b c :
  String.compare a b = Lt -> String.compare b c = Lt -> String.compare a c = Lt.
Proof.
  intros H1 H2. apply String_as_OT.cmp_lt.
  apply String_as_OT.cmp_lt in H1, H2.
  eapply String_as_OT.lt_trans; eauto.
Qed.

Section Lex.
Context {A B : Type} (ca : A -> A -> comparison) (cb : B -> B -> comparison).
Hypothesis ca_eq : forall x y, ca x y = Eq <-> x = y.
Hypothesis cb_eq : forall x y, cb x y = Eq <-> x = y.
Hypothesis ca_antisym : forall x y, ca x y = CompOpp (ca y x).
Hypothesis cb_antisym : forall x y, cb x y = CompOpp (cb y x).
Hypothesis ca_trans : forall x y z, ca x y = Lt -> ca y z = Lt -> ca x z = Lt.
Hypothesis cb_trans : forall x y z, cb x y = Lt -> cb y z = Lt -> cb x z = Lt.

Lemma lex_eq p q : lex ca cb p q = Eq <-> p = q.
Proof.
  destruct p as [a b], q as [a' b']; unfold lex; simpl.
  destruct (ca a a') eqn:E.
  - apply ca_eq in E as ->. rewrite cb_eq.
    split; [by intros ->|by intros [= ->]].
  - split; [done|]. intros [= -> ->].
    assert (ca a' a' = Eq) by (by apply ca_eq). congruence.
  - split; [done|]. intros [= -> ->].
    assert (ca a' a' = Eq) by (by apply ca_eq). congruence.
Qed.

Lemma lex_antisym p q : lex ca cb p q = CompOpp (lex ca cb q p).
Proof.
  destruct p as [a b], q as [a' b']; unfold lex; simpl.
  rewrite (ca_antisym a a'). destruct (ca a' a); simpl; auto.
Qed.

Lemma lex_trans p q r :
  lex ca cb p q = Lt -> lex ca cb q r = Lt -> lex ca cb p r = Lt.
Proof.
  destruct p as [a b], q as [a' b'], r as [a'' b'']; unfold lex; simpl.
  destruct (ca a a') eqn:E1; [apply ca_eq in E1 as ->| |done];
    (destruct (ca a' a'') eqn:E2; [apply ca_eq in E2 as ->| |done]).
  - apply cb_trans.
  - done.
  - by rewrite E1.
  - by rewrite (ca_trans _ _ _ E1 E2).
Qed.
End Lex.

Lemma key_compare_eq k1 k2 : key_compare k1 k2 = Eq <-> k1 = k2.
Proof.
  apply lex_eq; [apply lex_eq|]; apply string_compare_eq.
Qed.

Lemma key_compare_antisym k1 k2 :
  key_compare k1 k2 = CompOpp (key_compare k2 k1).
Proof.
  apply lex_antisym; [intros x y; apply lex_antisym|];
    apply String.compare_antisym.
Qed.

Lemma key_lt_trans k1 k2 k3 : key_lt k1 k2 -> key_lt k2 k3 -> key_lt k1 k3.
Proof.
  apply lex_trans.
  - apply lex_eq; apply string_compare_eq.
  - apply lex_trans; [apply string_compare_eq|apply string_compare_trans..].
  - apply string_compare_trans.
Qed.

Lemma key_le_lt_or_eq k1 k2 : key_le k1 k2 <-> key_lt k1 k2 \/ k1 = k2.
Proof.
  unfold key_le, key_lt. rewrite <- key_compare_eq.
  destruct (key_compare k1 k2); intuition congruence.
Qed.

#[global] Instance item_le_total : Total item_le.
Proof.
  intros [k1 b1] [k2 b2]. unfold item_le, key_le. simpl.
  rewrite (key_compare_antisym k2 k1).
  destruct (key_compare k1 k2); simpl; auto.
Qed.

#[global] Instance item_le_trans : Transitive item_le.
Proof.
  intros [k1 b1] [k2 b2] [k3 b3]. unfold item_le. simpl.
  rewrite !key_le_lt_or_eq. intros [H1 | ->] [H2 | ->]; auto.
  left. by eapply key_lt_trans.
Qed.

(** ** Dicts *)

Lemma dict_set_present (d : dict) k v :
  k ∈ d.*1 -> (dict_set d k v).*1 = d.*1.
Proof.
  induction d as [|[k' b] d IH]; simpl; [by intros ?%elem_of_nil|].
  intros Hk. destruct (decide (k' = k)) as [->|Hne]; simpl; [done|].
  f_equal. apply IH. apply elem_of_cons in Hk as [?|?]; [congruence|done].
Qed.

Lemma dict_set_absent (d : dict) k v :
  k ∉ d.*1 -> dict_set d k v = d ++ [(k, v)].
Proof.
  induction d as [|[k' b] d IH]; simpl; [done|].
  intros Hk. apply not_elem_of_cons in Hk as [Hne Hk].
  destruct (decide (k' = k)); [congruence|]. by rewrite IH.
Qed.

Lemma dict_set_keys (d : dict) k v k' :
  k' ∈ (dict_set d k v).*1 <-> k' = k \/ k' ∈ d.*1.
Proof.
  destruct (decide (k ∈ d.*1)) as [Hin|Hout].
  - rewrite dict_set_present by done. split; [by right|].
    by intros [->|?].
  - rewrite dict_set_absent by done. rewrite fmap_app, elem_of_app. simpl.
    rewrite list_elem_of_singleton. tauto.
Qed.

Lemma dict_set_NoDup (d : dict) k v :
  NoDup d.*1 -> NoDup (dict_set d k v).*1.
Proof.
  intros Hd. destruct (decide (k ∈ d.*1)) as [Hin|Hout].
  - by rewrite dict_set_present.
  - rewrite dict_set_absent by done. rewrite fmap_app. simpl.
    apply NoDup_app. split_and!; [done| |apply NoDup_singleton].
    intros x Hx ->%list_elem_of_singleton. done.
Qed.

Lemma dict_set_Forall (P : key * build -> Prop) (d : dict) k v :
  Forall P d -> P (k, v) -> Forall P (dict_set d k v).
Proof.
  intros Hd Hv. induction Hd as [|[k' b] d Hb Hd IH]; simpl.
  - by constructor.
  - destruct (decide (k' = k)) as [->|]; constructor; auto.
Qed.

Lemma dict_set_elem (d : dict) k v : (k, v) ∈ dict_set d k v.
Proof.
  induction d as [|[k' b] d IH]; simpl; [apply list_elem_of_singleton; done|].
  destruct (decide (k' = k)) as [->|]; [left|by right].
Qed.

Lemma dict_get_Some_elem (d : dict) k b : dict_get d k = Some b -> (k, b) ∈ d.
Proof.
  induction d as [|[k' b'] d IH]; simpl; [done|].
  destruct (decide (k' = k)) as [->|]; [intros [= ->]; left|right; auto].
Qed.

Lemma dict_get_None (d : dict) k : dict_get d k = None <-> k ∉ d.*1.
Proof.
  induction d as [|[k' b'] d IH]; simpl.
  - split; [intros _ ?%elem_of_nil; done|done].
  - rewrite not_elem_of_cons. destruct (decide (k' = k)) as [->|Hne].
    + split; [done|]. by intros [].
    + rewrite IH. split; [by split|by intros []].
Qed.

(** ** The measurement *)

Lemma scan_line_sizes b line b' :
  scan_line b line = Ok b' -> exists p d, b' = with_sizes b p d.
Proof.
  unfold scan_line.
  destruct (re_match_size "Program:" line) as [g|]; simpl.
  - destruct (int g) as [n|]; simpl; [|done].
    destruct (re_match_size "Data:" line) as [g'|]; simpl.
    + destruct (int g') as [n'|]; simpl; [|done].
      intros [= <-]. eexists _, _. reflexivity.
    + intros [= <-]. eexists _, _. reflexivity.
  - destruct (re_match_size "Data:" line) as [g'|]; simpl.
    + destruct (int g') as [n'|]; simpl; [|done].
      intros [= <-]. eexists _, _. reflexivity.
    + intros [= <-]. exists (program_size b), (data_size b). by destruct b.
Qed.

Lemma scan_lines_sizes lines b b' :
  scan_lines b lines = Ok b' -> exists p d, b' = with_sizes b p d.
Proof.
  revert b. induction lines as [|line lines IH]; simpl; intros b.
  - intros [= <-]. by exists (program_size b), (data_size b); destruct b.
  - destruct (scan_line b line) as [b1|] eqn:E; simpl; [|done].
    apply scan_line_sizes in E as (p & d & ->).
    intros (p' & d' & ->)%IH. eexists _, _. reflexivity.
Qed.

Lemma int_Raise text e : int text = Raise e -> e = ValueError.
Proof. destruct text; simpl; congruence. Qed.

Lemma scan_line_Raise b line e : scan_line b line = Raise e -> e = ValueError.
Proof.
  unfold scan_line.
  destruct (re_match_size "Program:" line) as [g|]; simpl.
  - destruct (int g) as [n|e'] eqn:E; simpl; [|intros [= <-]; eauto using int_Raise].
    destruct (re_match_size "Data:" line) as [g'|]; simpl; [|done].
    destruct (int g') as [n'|e'] eqn:E'; simpl; [done|].
    intros [= <-]; eauto using int_Raise.
  - destruct (re_match_size "Data:" line) as [g'|]; simpl; [|done].
    destruct (int g') as [n'|e'] eqn:E'; simpl; [done|].
    intros [= <-]; eauto using int_Raise.
Qed.

Lemma scan_lines_Raise lines b e :
  scan_lines b lines = Raise e -> e = ValueError.
Proof.
  revert b. induction lines as [|line lines IH]; simpl; intros b; [done|].
  destruct (scan_line b line) as [b1|e'] eqn:E; simpl; [apply IH|].
  intros [= <-]. eauto using scan_line_Raise.
Qed.

Lemma scan_line_present b line b' :
  scan_line b line = Ok b' ->
  (is_Some (program_size b') <->
   is_Some (program_size b) \/ is_Some (re_match_size "Program:" line)) /\
  (is_Some (data_size b') <->
   is_Some (data_size b) \/ is_Some (re_match_size "Data:" line)).
Proof.
  unfold scan_line.
  destruct (re_match_size "Program:" line) as [g|]; simpl.
  - destruct (int g) as [n|]; simpl; [|done].
    destruct (re_match_size "Data:" line) as [g'|]; simpl.
    + destruct (int g') as [n'|]; simpl; [|done].
      intros [= <-]. simpl. split; (split; [by right|by eexists]).
    + intros [= <-]. simpl. split; [split; [by right|by eexists]|].
      split; [by left|]. intros [?|[? [=]]]. done.
  - destruct (re_match_size "Data:" line) as [g'|]; simpl.
    + destruct (int g') as [n'|]; simpl; [|done].
      intros [= <-]. simpl. split; [|split; [by right|by eexists]].
      split; [by left|]. intros [?|[? [=]]]. done.
    + intros [= <-]. split; (split; [by left|]); intros [?|[? [=]]]; done.
Qed.

Lemma scan_lines_present lines b b' :
  scan_lines b lines = Ok b' ->
  (is_Some (program_size b') <->
   is_Some (program_size b) \/
   Exists (fun line => is_Some (re_match_size "Program:" line)) lines) /\
  (is_Some (data_size b') <->
   is_Some (data_size b) \/
   Exists (fun line => is_Some (re_match_size "Data:" line)) lines).
Proof.
  revert b. induction lines as [|line lines IH]; simpl; intros b.
  - intros [= <-]. rewrite !Exists_nil. tauto.
  - destruct (scan_line b line) as [b1|] eqn:E; simpl; [|done].
    apply scan_line_present in E as [Ep Ed].
    intros [Hp Hd]%IH. rewrite Hp, Hd, Ep, Ed, !Exists_cons. tauto.
Qed.

Section Builder.

Variable json_load : string -> option marker.
Variable avr_size : path -> tool_result.
Variable sha1_hexdigest : string -> string.


(** The three ways [measure] returns a build. *)
Lemma measure_Ok root location m b :
  measure avr_size sha1_hexdigest root location m = Ok b ->
  (m_exit_code m <> 0 /\
   b = set_status (build_of_marker m) "Failed to compile") \/
  (m_exit_code m = 0 /\ avr_size (elffile location m) = ToolFailed /\
   b = set_status (build_of_marker m) "Failed to get size") \/
  (m_exit_code m = 0 /\
   exists out bytes p d,
     avr_size (elffile location m) = ToolOutput out /\
     read_file root (hexfile location m) = Some bytes /\
     scan_lines (build_of_marker m) (splitlines out)
       = Ok (with_sizes (build_of_marker m) p d) /\
     b = set_status
           (set_hash (with_sizes (build_of_marker m) p d)
                     (sha1_hexdigest bytes)) "OK").
Proof.
  unfold measure. simpl.
  destruct (decide (m_exit_code m <> 0)) as [Hne|Heq]; simpl.
  { intros [= <-]. by left. }
  assert (m_exit_code m = 0) as H0 by lia.
  unfold add_extra_info. simpl. fold (elffile location m).
  fold (hexfile location m).
  destruct (avr_size (elffile location m)) as [out| |] eqn:Etool; simpl.
  - destruct (scan_lines (build_of_marker m) (splitlines out))
      as [b1|e] eqn:Escan; simpl;
      [|by rewrite (scan_lines_Raise _ _ _ Escan)].
    destruct (scan_lines_sizes _ _ _ Escan) as (p & d & ->).
    destruct (read_file root (hexfile location m)) as [bytes|] eqn:Ehex;
      simpl; [|done].
    intros [= <-]. right; right. split; [done|]. by exists out, bytes, p, d.
  - intros [= <-]. right; left. done.
  - done.
Qed.

Lemma measure_key root location m b :
  measure avr_size sha1_hexdigest root location m = Ok b -> key_of b = key_of_marker m.
Proof.
  intros [(_ & ->)|[(_ & _ & ->)|(_ & out & bytes & p & d & _ & _ & _ & ->)]]
    %measure_Ok; done.
Qed.

Lemma measure_scanned root location m b :
  measure avr_size sha1_hexdigest root location m = Ok b -> scanned_build b.
Proof.
  intros [(_ & ->)|[(_ & _ & ->)|(_ & out & bytes & p & d & _ & _ & _ & ->)]]
    %measure_Ok; unfold is_ok;
    (split; simpl; unfold is_ok; simpl;
       [by eexists|try (split; [by intros [? [=]]|done])
       |try (by intros [? [=]])..]); try done.
Qed.

Lemma collect_inv (P : dict -> gset string -> Prop) root builds :
  (forall location m b data bs,
     (location, m) ∈ builds ->
     measure avr_size sha1_hexdigest root location m = Ok b ->
     P data bs -> P (dict_set data (key_of b) b) ({[buildset b]} ∪ bs)) ->
  forall data bs data' bs',
    collect avr_size sha1_hexdigest root builds data bs = Ok (data', bs') ->
    P data bs -> P data' bs'.
Proof.
  induction builds as [|[location m] builds IH]; simpl; intros Hstep data bs.
  - by intros ?? [= <- <-].
  - intros data' bs'.
    destruct (measure avr_size sha1_hexdigest root location m) as [b|]
      eqn:E; simpl; [|done].
    intros Hc HP. eapply IH; [|exact Hc|].
    + intros ????? Hin. apply Hstep. by right.
    + eapply Hstep; [left|done..].
Qed.

Lemma collect_dataset root builds data bs data' bs' :
  collect avr_size sha1_hexdigest root builds data bs = Ok (data', bs') ->
  dataset data -> dataset data'.
Proof.
  apply (collect_inv (fun d _ => dataset d)).
  intros location m b d ? _ Hm [Hnd Hall]. split.
  - by apply dict_set_NoDup.
  - apply dict_set_Forall; [done|]. split; [done|by eapply measure_scanned].
Qed.

Lemma collect_buildsets root builds data bs data' bs' :
  collect avr_size sha1_hexdigest root builds data bs = Ok (data', bs') ->
  (forall s, s ∈ bs <-> exists k, k ∈ data.*1 /\ k.1.1 = s) ->
  (forall s, s ∈ bs' <-> exists k, k ∈ data'.*1 /\ k.1.1 = s).
Proof.
  apply (collect_inv
    (fun d bs => forall s, s ∈ bs <-> exists k, k ∈ d.*1 /\ k.1.1 = s)).
  intros location m b d bs0 _ Hm H s.
  rewrite elem_of_union, elem_of_singleton, H. split.
  - intros [->|(k & Hk & <-)].
    + exists (key_of b). rewrite dict_set_keys. auto.
    + exists k. rewrite dict_set_keys. auto.
  - intros (k & [->|Hk]%dict_set_keys & <-); [by left|right; eauto].
Qed.

Lemma collect_keys root builds data bs data' bs' :
  collect avr_size sha1_hexdigest root builds data bs = Ok (data', bs') ->
  forall k, k ∈ data'.*1 <-> k ∈ data.*1 \/ k ∈ key_of_marker <$> builds.*2.
Proof.
  revert data bs. induction builds as [|[location m] builds IH]; simpl;
    intros data bs.
  - intros [= <- <-] k. rewrite elem_of_nil. tauto.
  - destruct (measure avr_size sha1_hexdigest root location m) as [b|]
      eqn:E; simpl; [|done].
    intros Hc k. rewrite (IH _ _ Hc k), dict_set_keys, elem_of_cons.
    rewrite (measure_key _ _ _ _ E). tauto.
Qed.

Lemma collect_length root builds data bs data' bs' :
  collect avr_size sha1_hexdigest root builds data bs = Ok (data', bs') ->
  NoDup (data.*1 ++ (key_of_marker <$> builds.*2)) ->
  length data' = (length data + length builds)%nat.
Proof.
  revert data bs. induction builds as [|[location m] builds IH]; simpl;
    intros data bs.
  - intros [= <- <-] _. lia.
  - destruct (measure avr_size sha1_hexdigest root location m) as [b|]
      eqn:E; simpl; [|done].
    intros Hc Hnd. rewrite (measure_key _ _ _ _ E) in Hc.
    apply NoDup_app in Hnd as (Hd & Hdisj & [Hm Hb]%NoDup_cons).
    rewrite dict_set_absent in Hc.
    2:{ intros Hin. apply (Hdisj _ Hin). left. }
    apply IH in Hc.
    + rewrite Hc, length_app. simpl. lia.
    + rewrite fmap_app. simpl. rewrite <- assoc_L by apply _.
      apply NoDup_app. split_and!; [done|exact Hdisj|by constructor].
Qed.

Lemma create_report_data_Ok root data bs :
  create_report_data json_load avr_size sha1_hexdigest root = Ok (data, bs) ->
  (find_builds json_load root).2 = None /\
  collect avr_size sha1_hexdigest root (find_builds json_load root).1 [] ∅
    = Ok (data, bs).
Proof.
  unfold create_report_data.
  destruct (find_builds json_load root) as [builds stop]; simpl.
  destruct (collect _ _ _ _ _ _) as [[d s]|]; simpl; [|done].
  destruct stop; [done|]. by intros [= <- <-].
Qed.

Lemma create_report_data_dataset root data bs :
  create_report_data json_load avr_size sha1_hexdigest root = Ok (data, bs) ->
  dataset data.
Proof.
  intros [_ Hc]%create_report_data_Ok.
  eapply collect_dataset; [done|]. split; [constructor|constructor].
Qed.

Lemma create_report_data_buildsets root data bs :
  create_report_data json_load avr_size sha1_hexdigest root = Ok (data, bs) ->
  forall s, s ∈ bs <-> exists k, k ∈ data.*1 /\ k.1.1 = s.
Proof.
  intros [_ Hc]%create_report_data_Ok.
  eapply collect_buildsets; [done|]. intros s. split.
  - by intros ?%not_elem_of_empty.
  - by intros (k & ?%elem_of_nil & _).
Qed.

End Builder.

(** ** The measurement of a build that compiled *)

(** C1 (as amended). For a scanned build with exit code 0: when the process
    of the size tool fails (a non-zero exit status, which is also how the
    tool reports a missing ELF file), the build is stored with the status
    [Failed to get size] and with no size and no hash, and the loop of
    [create_report_data] goes on with the builds that remain. When the tool
    succeeds, a pattern that its output does not have is no failure: the
    build that is stored has the status [OK] and a hash, and it has a size
    exactly when a line of the output matches the pattern of that size. *)
Theorem only_tool_failure_is_recovered
    (avr_size : path -> tool_result) (sha1_hexdigest : string -> string)
    (root : dir) (location : path) (m : marker) :
  m_exit_code m = 0 ->
  (avr_size (elffile location m) = ToolFailed ->
   exists b,
     measure avr_size sha1_hexdigest root location m = Ok b /\
     status b = Some "Failed to get size" /\
     program_size b = None /\ data_size b = None /\ hash b = None /\
     forall builds data buildsets,
       collect avr_size sha1_hexdigest root ((location, m) :: builds)
               data buildsets
       = collect avr_size sha1_hexdigest root builds
                 (dict_set data (key_of b) b) ({[buildset b]} ∪ buildsets)) /\
  (forall out b,
     avr_size (elffile location m) = ToolOutput out ->
     measure avr_size sha1_hexdigest root location m = Ok b ->
     status b = Some "OK" /\ is_Some (hash b) /\
     (is_Some (program_size b) <-> pattern_found "Program:" out) /\
     (is_Some (data_size b) <-> pattern_found "Data:" out)).
Proof.
  intros Hexit. split.
  - intros Htool.
    assert (measure avr_size sha1_hexdigest root location m
            = Ok (set_status (build_of_marker m) "Failed to get size")) as Hm.
    { unfold measure, add_extra_info. simpl.
      destruct (decide (m_exit_code m <> 0)); [done|]. simpl.
      fold (elffile location m). by rewrite Htool. }
    eexists. split; [exact Hm|]. split_and!; try done.
    intros builds data buildsets. simpl. by rewrite Hm.
  - intros out b Htool
      [(? & _)|[(_ & Hfail & _)|(_ & out' & bytes & p & d & Hout & _ & Hscan & ->)]]
      %measure_Ok; [done|congruence|].
    rewrite Htool in Hout. injection Hout as <-.
    apply scan_lines_present in Hscan as [Hp Hd]. simpl in *.
    unfold pattern_found. rewrite Hp, Hd.
    split_and!; [done|by eexists|..];
      (split; [by intros [[? [=]]|?]|by right]).
Qed.

Lemma only_tool_failure_is_recovered_witness :
  m_exit_code Demo.tone = 0 /\
  Demo.avr_size (elffile ["next"; "tone"; "uno"] Demo.tone) = ToolFailed /\
  exists b,
    measure Demo.avr_size Demo.sha1_hexdigest Demo.results
            ["next"; "tone"; "uno"] Demo.tone = Ok b /\
    status b = Some "Failed to get size".
Proof.
  split; [reflexivity|]. split; [reflexivity|].
  destruct (proj1 (only_tool_failure_is_recovered
                     Demo.avr_size Demo.sha1_hexdigest
                     Demo.results ["next"; "tone"; "uno"] Demo.tone eq_refl)
              eq_refl) as (b & Hm & Hs & _).
  exists b. split; assumption.
Defined.

(** C1 as it is stated fails: a pattern that is not found in the output of
    the tool is not a failure for the code. The build of [next/blink/mega],
    for which the tool prints no size, gets the status [OK]. *)
Lemma pattern_not_found_is_not_recovered :
  ~ (forall (avr_size : path -> tool_result)
            (sha1_hexdigest : string -> string)
            (root : dir) (location : path) (m : marker),
       m_exit_code m = 0 ->
       measurement_fails avr_size root location m ->
       exists b,
         measure avr_size sha1_hexdigest root location m = Ok b /\
         status b = Some "Failed to get size").
Proof.
  intros H.
  destruct (H Demo.avr_size Demo.sha1_hexdigest Demo.results
              ["next"; "blink"; "mega"] Demo.mega eq_refl)
    as (b & Hm & Hs).
  - right; right; right. exists "no sizes here". split; [reflexivity|].
    left. unfold pattern_found. intros Hex. vm_compute in Hex.
    apply Exists_cons in Hex as [[? [=]]|Hex]. by apply Exists_nil in Hex.
  - vm_compute in Hm. injection Hm as <-. discriminate Hs.
Qed.

(** ** The builds of the dataset *)

Lemma dataset_scanned data k b : dataset data -> (k, b) ∈ data -> scanned_build b.
Proof.
  intros [_ Hall] Hin. rewrite Forall_forall in Hall.
  by destruct (Hall _ Hin).
Qed.

Lemma dataset_key data k b : dataset data -> (k, b) ∈ data -> k = key_of b.
Proof.
  intros [_ Hall] Hin. rewrite Forall_forall in Hall.
  by destruct (Hall _ Hin).
Qed.

Lemma demo_built : Demo.built = Ok (Demo.data, Demo.buildsets).
Proof. vm_compute. reflexivity. Qed.

Lemma demo_mega_in_data : (("next", "blink", "mega"), Demo.mega_build) ∈ Demo.data.
Proof. vm_compute. do 2 right. left. Qed.

(** C2 (as amended). Of every build of the dataset: the hash is there
    exactly when the status is [OK], and a size is there only when the
    status is [OK]. *)
Theorem hash_iff_ok_and_sizes_only_if_ok
    (json_load : string -> option marker) (avr_size : path -> tool_result)
    (sha1_hexdigest : string -> string) (results_dir : dir)
    (data : dict) (buildsets : gset string) :
  create_report_data json_load avr_size sha1_hexdigest results_dir
    = Ok (data, buildsets) ->
  forall k b, (k, b) ∈ data ->
    (is_Some (hash b) <-> status b = Some "OK") /\
    (is_Some (program_size b) -> status b = Some "OK") /\
    (is_Some (data_size b) -> status b = Some "OK").
Proof.
  intros Hd%create_report_data_dataset k b Hin.
  destruct (dataset_scanned _ _ _ Hd Hin). by split_and!.
Qed.

Lemma hash_iff_ok_and_sizes_only_if_ok_witness :
  Demo.built = Ok (Demo.data, Demo.buildsets) /\
  (("next", "blink", "mega"), Demo.mega_build) ∈ Demo.data /\
  (is_Some (hash Demo.mega_build) <-> status Demo.mega_build = Some "OK").
Proof.
  split; [exact demo_built|]. split; [exact demo_mega_in_data|].
  exact (proj1 (hash_iff_ok_and_sizes_only_if_ok
                  Demo.json_load Demo.avr_size Demo.sha1_hexdigest
                  Demo.results Demo.data Demo.buildsets demo_built
                  _ _ demo_mega_in_data)).
Defined.

(** C2 as it is stated fails: the build of [next/blink/mega] has the status
    [OK] and no program size. *)
Lemma ok_build_without_sizes :
  ~ (forall (json_load : string -> option marker)
            (avr_size : path -> tool_result)
            (sha1_hexdigest : string -> string) (results_dir : dir)
            (data : dict) (buildsets : gset string),
       create_report_data json_load avr_size sha1_hexdigest results_dir
         = Ok (data, buildsets) ->
       forall k b, (k, b) ∈ data ->
         (is_Some (program_size b) /\ is_Some (data_size b) /\
          is_Some (hash b)) <-> status b = Some "OK").
Proof.
  intros H.
  destruct (proj2 (H _ _ _ _ _ _ demo_built _ _ demo_mega_in_data) eq_refl)
    as [[p Hp] _].
  discriminate Hp.
Qed.

(** C9. Every build of the dataset with the status [OK] has a hash, the
    sizes being there or not. *)
Theorem ok_build_has_hash
    (json_load : string -> option marker) (avr_size : path -> tool_result)
    (sha1_hexdigest : string -> string) (results_dir : dir)
    (data : dict) (buildsets : gset string) :
  create_report_data json_load avr_size sha1_hexdigest results_dir
    = Ok (data, buildsets) ->
  forall k b, (k, b) ∈ data -> status b = Some "OK" -> is_Some (hash b).
Proof.
  intros Hd%create_report_data_dataset k b Hin Hok.
  by apply (scanned_hash _ (dataset_scanned _ _ _ Hd Hin)).
Qed.

Lemma ok_build_has_hash_witness :
  Demo.built = Ok (Demo.data, Demo.buildsets) /\
  (("next", "blink", "mega"), Demo.mega_build) ∈ Demo.data /\
  status Demo.mega_build = Some "OK" /\
  program_size Demo.mega_build = None /\
  is_Some (hash Demo.mega_build).
Proof.
  split; [exact demo_built|]. split; [exact demo_mega_in_data|].
  split; [reflexivity|]. split; [reflexivity|].
  exact (ok_build_has_hash Demo.json_load Demo.avr_size Demo.sha1_hexdigest
           Demo.results Demo.data Demo.buildsets demo_built
           _ _ demo_mega_in_data eq_refl).
Defined.

(** ** The scanner *)

Lemma dir_ind_nested (P : dir -> Prop) :
  (forall files subdirs,
     Forall (fun nd : string * dir => P nd.2) subdirs ->
     P (Dir files subdirs)) ->
  forall d, P d.
Proof.
  intros H. fix IH 1. intros [files subdirs]. apply H.
  induction subdirs as [|[name d] l IHl]; constructor; [apply IH|apply IHl].
Qed.

Lemma gen_app_fst {A} (g1 g2 : gen A) x :
  x ∈ (gen_app g1 g2).1 -> x ∈ g1.1 \/ x ∈ g2.1.
Proof.
  destruct g1 as [l1 [e|]]; simpl; [by left|].
  by intros ?%elem_of_app.
Qed.

Lemma gen_app_None {A} (g1 g2 : gen A) :
  (gen_app g1 g2).2 = None ->
  g1.2 = None /\ g2.2 = None /\ (gen_app g1 g2).1 = g1.1 ++ g2.1.
Proof. destruct g1 as [l1 [e|]]; simpl; [done|]. by intros ->. Qed.

Section Scanner.

Variable json_load : string -> option marker.

Lemma walk_builds_unfold files subdirs dirname :
  walk_builds json_load (Dir files subdirs) dirname =
  match assoc "build.json" files with
  | Some text =>
      match json_load text with
      | Some m => ([(dirname, m)], None)
      | None => ([], Some JSONDecodeError)
      end
  | None => walk_subdirs json_load subdirs dirname
  end.
Proof.
  simpl. destruct (assoc "build.json" files); [done|].
  induction subdirs as [|[name d] l IH]; simpl; [done|]. by rewrite IH.
Qed.

Lemma walk_subdirs_sound l dirname p m :
  Forall (fun nd : string * dir => forall dirname p m,
            (p, m) ∈ (walk_builds json_load nd.2 dirname).1 ->
            exists q, p = dirname ++ q /\ top_marker nd.2 q) l ->
  (p, m) ∈ (walk_subdirs json_load l dirname).1 ->
  exists name d' q,
    (name, d') ∈ l /\ p = dirname ++ name :: q /\ top_marker d' q.
Proof.
  induction 1 as [|[name d'] l Hd _ IHl]; simpl.
  - by intros ?%elem_of_nil.
  - intros [Hin|Hin]%gen_app_fst.
    + destruct (Hd _ _ _ Hin) as (q & -> & Hq).
      exists name, d', q. split; [left|]. by rewrite <- assoc_L by apply _.
    + destruct (IHl Hin) as (name' & d'' & q & ? & ? & ?).
      exists name', d'', q. split; [by right|done].
Qed.

Lemma walk_builds_sound d : forall dirname p m,
  (p, m) ∈ (walk_builds json_load d dirname).1 ->
  exists q, p = dirname ++ q /\ top_marker d q.
Proof.
  induction d as [files subdirs IH] using dir_ind_nested.
  intros dirname p m. rewrite walk_builds_unfold.
  destruct (assoc "build.json" files) as [text|] eqn:Efile.
  - destruct (json_load text); simpl; [|by intros ?%elem_of_nil].
    intros [= -> ->]%list_elem_of_singleton. exists [].
    split; [by rewrite app_nil_r|]. constructor. by exists text.
  - assert (~ has_marker (Dir files subdirs)) as Hno.
    { unfold has_marker. simpl. rewrite Efile. by intros [? [=]]. }
    intros (name & d' & q & Hin & -> & Hq)%walk_subdirs_sound; [|done].
    exists (name :: q). split; [done|]. by apply top_marker_below with d'.
Qed.

Lemma walk_subdirs_complete l dirname name d' q :
  Forall (fun nd : string * dir => forall dirname q,
            (walk_builds json_load nd.2 dirname).2 = None ->
            top_marker nd.2 q ->
            dirname ++ q ∈ (walk_builds json_load nd.2 dirname).1.*1) l ->
  (walk_subdirs json_load l dirname).2 = None ->
  (name, d') ∈ l -> top_marker d' q ->
  dirname ++ name :: q ∈ (walk_subdirs json_load l dirname).1.*1.
Proof.
  induction 1 as [|[name' d''] l Hd _ IHl]; simpl.
  - by intros _ ?%elem_of_nil.
  - intros (H1 & H2 & ->)%gen_app_None Hin Hq.
    rewrite fmap_app, elem_of_app.
    apply elem_of_cons in Hin as [[= <- <-]|Hin].
    + left.
      replace (dirname ++ name :: q) with ((dirname ++ [name]) ++ q)
        by (by rewrite <- assoc_L by apply _).
      by apply Hd.
    + right. by apply IHl.
Qed.

Lemma walk_builds_complete d : forall dirname q,
  (walk_builds json_load d dirname).2 = None ->
  top_marker d q ->
  dirname ++ q ∈ (walk_builds json_load d dirname).1.*1.
Proof.
  induction d as [files subdirs IH] using dir_ind_nested.
  intros dirname q. rewrite walk_builds_unfold.
  destruct (assoc "build.json" files) as [text|] eqn:Efile.
  - destruct (json_load text); simpl; [|done].
    intros _ Htop. inversion Htop as [|????? Hno]; subst.
    + rewrite app_nil_r. by left.
    + destruct Hno. unfold has_marker. simpl. by rewrite Efile.
  - intros Hnone Htop. inversion Htop as [? [text Hm]|]; subst.
    + simpl in Hm. congruence.
    + by eapply walk_subdirs_complete.
Qed.

End Scanner.

(** C8 (as amended). The scanner yields only directories that have the
    marker and are reached through directories that do not have it; when no
    marker is malformed it yields all of them. Of a directory that has the
    marker it yields nothing but the directory itself, whatever is below. A
    directory with no marker and no subdirectory yields nothing and raises
    nothing. *)
Theorem find_builds_yields_top_markers
    (json_load : string -> option marker) (root : dir) :
  (forall p, p ∈ (find_builds json_load root).1.*1 -> top_marker root p) /\
  ((find_builds json_load root).2 = None ->
   forall p, top_marker root p -> p ∈ (find_builds json_load root).1.*1) /\
  (forall d dirname p,
     has_marker d ->
     p ∈ (walk_builds json_load d dirname).1.*1 -> p = dirname) /\
  (forall files,
     ~ has_marker (Dir files []) ->
     find_builds json_load (Dir files []) = ([], None)).
Proof.
  unfold find_builds. split_and!.
  - intros p ([p' m] & -> & Hin)%list_elem_of_fmap.
    by apply walk_builds_sound in Hin as (q & -> & Hq).
  - intros Hnone p Hp. by apply (walk_builds_complete json_load root []).
  - intros [files subdirs] dirname p [text Htext]. simpl in Htext.
    rewrite walk_builds_unfold, Htext.
    destruct (json_load text); simpl; [|by intros ?%elem_of_nil].
    by intros ->%list_elem_of_singleton.
  - intros files Hno. rewrite walk_builds_unfold.
    destruct (assoc "build.json" files) as [text|] eqn:E; [|done].
    destruct Hno. unfold has_marker. simpl. by rewrite E.
Qed.

Lemma find_builds_yields_top_markers_witness :
  (find_builds Demo.json_load Demo.results).2 = None /\
  top_marker Demo.results ["base"; "blink"; "uno"] /\
  ["base"; "blink"; "uno"] ∈ (find_builds Demo.json_load Demo.results).1.*1.
Proof.
  assert (top_marker Demo.results ["base"; "blink"; "uno"]) as Htop.
  { eapply top_marker_below;
      [by intros [? [=]]|right; left|].
    eapply top_marker_below; [by intros [? [=]]|left|].
    eapply top_marker_below; [by intros [? [=]]|left|].
    constructor. by eexists. }
  split; [reflexivity|]. split; [exact Htop|].
  exact (proj1 (proj2 (find_builds_yields_top_markers
                         Demo.json_load Demo.results))
               eq_refl _ Htop).
Defined.

(** C8 as it is stated fails: a directory that has the marker and lies
    below a directory that has it is not yielded. *)
Lemma nested_marker_is_not_yielded :
  ~ (forall (json_load : string -> option marker) (root : dir),
       (find_builds json_load root).2 = None ->
       forall p,
         p ∈ (find_builds json_load root).1.*1 <->
         exists d, dir_at root p d /\ has_marker d).
Proof.
  intros H.
  assert (["uno"; "uno"] ∈ (find_builds Demo.json_load Demo.nested).1.*1)
    as Hin.
  { apply (H Demo.json_load Demo.nested eq_refl).
    eexists. split.
    - eapply dir_at_below; [left|].
      eapply dir_at_below; [right; left|]. constructor.
    - by eexists. }
  vm_compute in Hin. apply list_elem_of_singleton in Hin. discriminate Hin.
Qed.

(** ** The delta engine *)

Lemma as_scanned_fields a b :
  as_scanned a = as_scanned b ->
  status a = status b /\ hash a = hash b /\
  program_size a = program_size b /\ data_size a = data_size b /\
  key_of a = key_of b.
Proof.
  unfold key_of. intros [= _ Hd _ Hb Hs Hst Hp Hds Hh].
  by rewrite Hd, Hb, Hs, Hst, Hp, Hds, Hh.
Qed.

Lemma as_scanned_mark base b : as_scanned (mark base b) = as_scanned b.
Proof. unfold mark. by destruct (decide (buildset b = base)). Qed.

Lemma buildset_mark base b : buildset (mark base b) = buildset b.
Proof. unfold mark. by destruct (decide (buildset b = base)). Qed.

Lemma same_scan_refl d : same_scan d d.
Proof. induction d; constructor; auto. Qed.

Lemma same_scan_replace done k b b' todo data0 :
  same_scan (done ++ (k, b) :: todo) data0 ->
  as_scanned b' = as_scanned b ->
  same_scan (done ++ (k, b') :: todo) data0.
Proof.
  intros (l1 & l2 & H1 & H2 & ->)%Forall2_app_inv_l Hb.
  inversion H2 as [|? [k0 b0] ? l3 [Hk Hb0] H3]; subst.
  apply Forall2_app; [done|]. constructor; [|done].
  split; [done|]. simpl in *. congruence.
Qed.

Lemma dict_get_same_scan d1 d2 k :
  same_scan d1 d2 ->
  option_Forall2 (fun a b => as_scanned a = as_scanned b)
                 (dict_get d1 k) (dict_get d2 k).
Proof.
  induction 1 as [|[k1 b1] [k2 b2] d1 d2 [Hk Hb] _ IH]; simpl in *.
  - constructor.
  - subst. destruct (decide (k2 = k)); [by constructor|done].
Qed.

(** The body of the loop reads nothing but what was scanned. *)
Lemma delta_body_same_scan d1 d2 base b :
  same_scan d1 d2 -> delta_body d1 base b = delta_body d2 base b.
Proof.
  intros H. unfold delta_body.
  destruct (decide (buildset b = base)); [done|].
  destruct (dict_get_same_scan d1 d2 (base, sketch_dir b, board b) H)
    as [bb1 bb2 Heq|]; [|done].
  apply as_scanned_fields in Heq as (Hs & Hh & Hp & Hd & _).
  unfold status_ok. by rewrite Hs, Hh, Hp, Hd.
Qed.

Lemma delta_body_scanned data base b b' w :
  delta_body data base b = Ok (b', w) ->
  as_scanned b' = as_scanned b /\ is_base b' = is_base b.
Proof.
  unfold delta_body, status_ok, and_then, item.
  repeat (case_match; simpl; try done); by intros [= <- <-].
Qed.

(** The loop in place and the loop against the dict as it was do the
    same. *)
Lemma add_delta_loop_map data0 base todo : forall done stderr,
  same_scan (done ++ todo) data0 ->
  add_delta_loop done todo base stderr =
  ('(l, written) ← delta_map data0 base todo;
   Ok (done ++ l, stderr ++ written)).
Proof.
  induction todo as [|[k b] todo IH]; intros done stderr Hsame; simpl.
  - by rewrite !app_nil_r.
  - fold (mark base b).
    rewrite (delta_body_same_scan _ data0).
    2:{ eapply same_scan_replace; [done|apply as_scanned_mark]. }
    destruct (delta_body data0 base (mark base b)) as [[b' w]|e] eqn:E;
      simpl; [|done].
    rewrite IH.
    2:{ rewrite <- assoc_L by apply _. simpl.
        eapply same_scan_replace; [done|].
        apply delta_body_scanned in E as [-> _]. apply as_scanned_mark. }
    destruct (delta_map data0 base todo) as [[l ws]|]; simpl; [|done].
    by rewrite <- !assoc_L by apply _.
Qed.

Lemma add_delta_info_map data base :
  add_delta_info data base = delta_map data base data.
Proof.
  unfold add_delta_info.
  rewrite (add_delta_loop_map data) by apply same_scan_refl.
  by destruct (delta_map data base data) as [[l ws]|].
Qed.

Lemma delta_map_Forall2 data base todo l stderr :
  delta_map data base todo = Ok (l, stderr) ->
  Forall2 (fun x y : key * build =>
             y.1 = x.1 /\
             exists w, delta_body data base (mark base x.2) = Ok (y.2, w) /\
                       w ⊆ stderr) todo l.
Proof.
  revert l stderr. induction todo as [|[k b] todo IH]; simpl; intros l stderr.
  - intros [= <- <-]. constructor.
  - destruct (delta_body data base (mark base b)) as [[b' w]|] eqn:E;
      simpl; [|done].
    destruct (delta_map data base todo) as [[l' ws]|]; simpl; [|done].
    intros [= <- <-]. constructor.
    + split; [done|]. exists w. split; [done|]. set_solver.
    + eapply Forall2_impl; [by apply IH|].
      intros x y (? & w' & ? & ?). split; [done|]. exists w'.
      split; [done|]. set_solver.
Qed.

Lemma delta_map_total data base todo :
  Forall (fun x : key * build =>
            exists r, delta_body data base (mark base x.2) = Ok r) todo ->
  exists l stderr, delta_map data base todo = Ok (l, stderr).
Proof.
  induction 1 as [|[k b] todo [[b' w] Hb] _ (l & ws & IH)]; simpl.
  - by eexists _, _.
  - simpl in Hb. rewrite Hb, IH. simpl. by eexists _, _.
Qed.

(** What [add_delta_info] returns, item by item. *)
Lemma add_delta_info_Forall2 data base data' stderr :
  add_delta_info data base = Ok (data', stderr) ->
  Forall2 (fun x y : key * build =>
             y.1 = x.1 /\
             exists w, delta_body data base (mark base x.2) = Ok (y.2, w) /\
                       w ⊆ stderr) data data'.
Proof. rewrite add_delta_info_map. apply delta_map_Forall2. Qed.

Lemma add_delta_info_keys data base data' stderr :
  add_delta_info data base = Ok (data', stderr) -> data'.*1 = data.*1.
Proof.
  intros H%add_delta_info_Forall2.
  induction H as [|[??] [??] ?? [? _] _ IH]; simpl in *; [done|].
  by f_equal.
Qed.

(** The three branches of the body of the loop. *)
Lemma delta_body_no_base data base b :
  buildset b <> base ->
  dict_get data (base, sketch_dir b, board b) = None ->
  delta_body data base (mark base b)
  = Ok (set_delta_status (set_is_base b "No") "No base", [no_base_warning b]).
Proof.
  intros Hne Hget. unfold mark.
  destruct (decide (buildset b = base)); [done|].
  unfold delta_body. simpl.
  destruct (decide (buildset b = base)); [done|]. by rewrite Hget.
Qed.

Lemma delta_body_is_base data base b :
  buildset b = base -> is_Some (status b) ->
  exists b',
    delta_body data base (mark base b) = Ok (b', []) /\
    is_base b' = Some "Yes" /\ delta_status b' = Some "Is base".
Proof.
  intros Hb [s Hs]. unfold mark.
  destruct (decide (buildset b = base)); [|done].
  unfold delta_body, status_ok. simpl.
  destruct (decide (buildset b = base)); [|done]. rewrite Hs. simpl.
  destruct (bool_decide (s = "OK")); simpl; by eexists.
Qed.

Lemma delta_body_compare data base b bb :
  buildset b <> base ->
  dict_get data (base, sketch_dir b, board b) = Some bb ->
  is_Some (status b) -> is_Some (status bb) ->
  (is_ok b -> is_ok bb ->
   is_Some (hash b) /\ is_Some (hash bb) /\
   is_Some (program_size b) /\ is_Some (program_size bb) /\
   is_Some (data_size b) /\ is_Some (data_size bb)) ->
  exists b',
    delta_body data base (mark base b) = Ok (b', []) /\
    is_base b' = Some "No" /\
    delta_status b' = Some (matrix_delta_status b bb) /\
    (is_ok b /\ is_ok bb ->
     exists p bp d bd,
       program_size b = Some p /\ program_size bb = Some bp /\
       data_size b = Some d /\ data_size bb = Some bd /\
       delta_program_size b' = Some (p - bp) /\
       delta_data_size b' = Some (d - bd)) /\
    (~ (is_ok b /\ is_ok bb) ->
     delta_program_size b' = delta_program_size b /\
     delta_data_size b' = delta_data_size b).
Proof.
  intros Hne Hget [s Hs] [sb Hsb] Hfull. unfold mark.
  destruct (decide (buildset b = base)); [done|].
  assert (is_ok b <-> s = "OK") as Hok.
  { unfold is_ok. rewrite Hs. split; [by intros [= ->]|by intros ->]. }
  assert (is_ok bb <-> sb = "OK") as Hbok.
  { unfold is_ok. rewrite Hsb. split; [by intros [= ->]|by intros ->]. }
  unfold delta_body, status_ok, and_then, matrix_delta_status.
  simpl. destruct (decide (buildset b = base)); [done|].
  rewrite Hget, Hs, Hsb. simpl.
  destruct (decide (s = "OK")) as [->|Hno];
    destruct (decide (sb = "OK")) as [->|Hnob].
  - destruct Hfull
      as ([h Hh] & [bh Hbh] & [p Hp] & [bp Hbp] & [d Hd] & [bd Hbd]);
      [by apply Hok|by apply Hbok|].
    rewrite Hh, Hbh, Hp, Hbp, Hd, Hbd. simpl.
    rewrite (bool_decide_eq_true_2 (is_ok b)) by (by apply Hok).
    rewrite (bool_decide_eq_true_2 (is_ok bb)) by (by apply Hbok).
    destruct (decide (h = bh)) as [->|Hdiff]; simpl; rewrite Hs, Hp, Hd; simpl.
    + eexists. split; [done|]. simpl. rewrite decide_True by done.
      split_and!; try done; [by exists p, bp, d, bd|].
      intros []. split; [by apply Hok|by apply Hbok].
    + eexists. split; [done|]. simpl. rewrite decide_False by congruence.
      split_and!; try done; [by exists p, bp, d, bd|].
      intros []. split; [by apply Hok|by apply Hbok].
  - rewrite (bool_decide_eq_true_2 (is_ok b)) by (by apply Hok).
    rewrite (bool_decide_eq_false_2 (is_ok bb)) by (by rewrite Hbok).
    repeat (progress (simpl;
      rewrite ?Hs, ?Hsb, ?(bool_decide_eq_false_2 (sb = "OK")) by done)).
    eexists. split; [done|]. simpl.
    split_and!; try done. intros [_ ?%Hbok]. done.
  - rewrite (bool_decide_eq_false_2 (is_ok b)) by (by rewrite Hok).
    rewrite (bool_decide_eq_true_2 (is_ok bb)) by (by apply Hbok).
    repeat (progress (simpl;
      rewrite ?Hs, ?Hsb, ?(bool_decide_eq_false_2 (s = "OK")) by done)).
    eexists. split; [done|]. simpl.
    split_and!; try done. intros [?%Hok _]. done.
  - rewrite (bool_decide_eq_false_2 (is_ok b)) by (by rewrite Hok).
    rewrite (bool_decide_eq_false_2 (is_ok bb)) by (by rewrite Hbok).
    repeat (progress (simpl;
      rewrite ?Hs, ?Hsb, ?(bool_decide_eq_false_2 (s = "OK")),
              ?(bool_decide_eq_false_2 (sb = "OK")) by done)).
    eexists. split; [done|]. simpl.
    split_and!; try done. intros [?%Hok _]. done.
Qed.

Lemma dict_get_keys (d1 d2 : dict) k :
  d1.*1 = d2.*1 -> dict_get d1 k = None -> dict_get d2 k = None.
Proof. rewrite !dict_get_None. by intros ->. Qed.



Lemma demo_dataset : dataset Demo.data.
Proof. exact (create_report_data_dataset _ _ _ _ _ _ demo_built). Qed.

(** C5. A build that is not of the base buildset and has no counterpart in
    it gets the delta status [No base] and no size delta, and a warning is
    written to the diagnostic stream: the line made of its buildset, its
    sketch and its board, with [" / "] between them, and of the text of
    the message. The loop goes on with the builds that remain: nothing is
    raised at such a build. [data] is a dataset of [create_report_data]. *)
Theorem build_without_base_counterpart (data : dict) (base : string) :
  dataset data ->
  (forall done k b todo stderr,
     buildset b <> base ->
     dict_get (done ++ (k, b) :: todo) (base, sketch_dir b, board b) = None ->
     add_delta_loop done ((k, b) :: todo) base stderr =
     add_delta_loop
       (done ++ [(k, set_delta_status (set_is_base b "No") "No base")])
       todo base
       (stderr ++
        [buildset b +:+ " / " +:+ sketch_dir b +:+ " / " +:+ board b +:+
         ": No corresponding build in base buildset found, cannot compare"
         +:+ String LF EmptyString])) /\
  (forall data' stderr,
     add_delta_info data base = Ok (data', stderr) ->
     forall i k b,
       data !! i = Some (k, b) ->
       buildset b <> base ->
       dict_get data (base, sketch_dir b, board b) = None ->
       exists b',
         data' !! i = Some (k, b') /\
         is_base b' = Some "No" /\
         delta_status b' = Some "No base" /\
         delta_program_size b' = None /\
         delta_data_size b' = None /\
         (buildset b +:+ " / " +:+ sketch_dir b +:+ " / " +:+ board b +:+
          ": No corresponding build in base buildset found, cannot compare"
          +:+ String LF EmptyString) ∈ stderr).
Proof.
  intros Hdata. split.
  - intros done k b todo stderr Hne Hget. simpl. fold (mark base b).
    rewrite delta_body_no_base; [done..|].
    eapply dict_get_keys; [|exact Hget]. by rewrite !fmap_app.
  - intros data' stderr Hrun i k b Hi Hne Hget.
    destruct (Forall2_lookup_l _ _ _ _ _
                (add_delta_info_Forall2 _ _ _ _ Hrun) Hi)
      as ([k' b'] & Hi' & Hk & w & Hbody & Hw). simpl in *. subst k'.
    rewrite delta_body_no_base in Hbody by done.
    injection Hbody as <- <-.
    destruct (dataset_scanned data k b Hdata) as [_ _ _ _ _ _ Hp Hd].
    { by eapply list_elem_of_lookup_2. }
    exists (set_delta_status (set_is_base b "No") "No base").
    split_and!; try done. apply Hw. left.
Qed.

Lemma build_without_base_counterpart_witness :
  dataset Demo.data /\
  exists data' stderr b',
    add_delta_info Demo.data "base" = Ok (data', stderr) /\
    data' !! 2%nat = Some (("next", "blink", "mega"), b') /\
    delta_status b' = Some "No base" /\
    ("next / blink / mega" +:+
     ": No corresponding build in base buildset found, cannot compare" +:+
     String LF EmptyString) ∈ stderr.
Proof.
  split; [exact demo_dataset|].
  destruct (add_delta_info Demo.data "base") as [[data' stderr]|] eqn:Hrun;
    [|by vm_compute in Hrun].
  destruct (proj2 (build_without_base_counterpart Demo.data "base"
                     demo_dataset)
              data' stderr Hrun 2%nat ("next", "blink", "mega")
              Demo.mega_build eq_refl ltac:(discriminate) eq_refl)
    as (b' & Hi & _ & Hs & _ & _ & Hw).
  exists data', stderr, b'. split; [reflexivity|]. split; [exact Hi|].
  split; [exact Hs|exact Hw].
Defined.



(** Under the invariant of the data model nothing is raised at any build. *)
Lemma delta_body_total data base k b :
  dataset data -> sizes_present data -> (k, b) ∈ data ->
  exists r, delta_body data base (mark base b) = Ok r.
Proof.
  intros Hdata Hsizes Hin.
  pose proof (dataset_scanned _ _ _ Hdata Hin) as Hb.
  destruct (decide (buildset b = base)) as [Heq|Hne].
  - destruct (delta_body_is_base data base b Heq (scanned_status _ Hb))
      as (b' & -> & _). by eexists.
  - destruct (dict_get data (base, sketch_dir b, board b)) as [bb|] eqn:Hget.
    + pose proof (dict_get_Some_elem _ _ _ Hget) as Hinb.
      pose proof (dataset_scanned _ _ _ Hdata Hinb) as Hbb.
      unfold sizes_present in Hsizes. rewrite Forall_forall in Hsizes.
      destruct (delta_body_compare data base b bb Hne Hget
                  (scanned_status _ Hb) (scanned_status _ Hbb))
        as (b' & -> & _); [|by eexists].
      intros Hok Hbok.
      destruct (Hsizes _ Hin Hok), (Hsizes _ Hinb Hbok).
      split_and!; try done; by apply scanned_hash.
    + rewrite delta_body_no_base by done. by eexists.
Qed.







(** ** The base buildset *)

Lemma truthy_Some base : base <> "" -> truthy (Some base) = true.
Proof. by destruct base. Qed.

Lemma choose_base_set_designated buildsets base :
  base <> "" -> choose_base_set buildsets (Some base) = Some base.
Proof.
  intros Hne. unfold choose_base_set. rewrite truthy_Some by done.
  simpl. by rewrite andb_false_r.
Qed.

(** C10. A base buildset that is designated by a name that is not empty is
    the one the report compares against, whatever the buildsets found. The
    empty name counts for no designation: the report on it is the report
    with no base buildset designated, and [base] is chosen for it when it
    is among several buildsets. When no build of the dataset is of the
    designated buildset, [add_delta_info] returns and every build is marked
    as not of the base, with the delta status [No base]. Whenever
    [add_delta_info] returns, every build has its [is_base] mark. *)
Theorem designated_base_set_is_used
    (json_load : string -> option marker) (avr_size : path -> tool_result)
    (sha1_hexdigest : string -> string) :
  (forall buildsets base,
     base <> "" -> choose_base_set buildsets (Some base) = Some base) /\
  (forall results_dir base,
     base <> "" ->
     report json_load avr_size sha1_hexdigest results_dir (Some base) =
     ('(data, buildsets) ←
        create_report_data json_load avr_size sha1_hexdigest results_dir;
      '(data', stderr) ← add_delta_info data base;
      Ok (report_rows data' (Some base), stderr))) /\
  (forall data base,
     dataset data ->
     (forall k b, (k, b) ∈ data -> buildset b <> base) ->
     exists data' stderr,
       add_delta_info data base = Ok (data', stderr) /\
       data'.*1 = data.*1 /\
       forall k b', (k, b') ∈ data' ->
         is_base b' = Some "No" /\ delta_status b' = Some "No base") /\
  (forall data base data' stderr,
     add_delta_info data base = Ok (data', stderr) ->
     data'.*1 = data.*1 /\
     forall k b', (k, b') ∈ data' ->
       is_base b' = Some (if decide (buildset b' = base) then "Yes" else "No")) /\
  (forall results_dir,
     report json_load avr_size sha1_hexdigest results_dir (Some "")
     = report json_load avr_size sha1_hexdigest results_dir None) /\
  (forall buildsets : gset string,
     (1 < size buildsets)%nat -> "base" ∈ buildsets ->
     choose_base_set buildsets (Some "") = Some "base").
Proof.
  split_and!.
  2:{ intros results_dir base Hne. unfold report.
      destruct (create_report_data _ _ _ _) as [[data buildsets]|]; simpl;
        [|done].
      rewrite choose_base_set_designated by done.
      by rewrite truthy_Some by done. }
  4:{ intros results_dir. unfold report.
      destruct (create_report_data _ _ _ _) as [[data buildsets]|]; simpl;
        [|done].
      unfold choose_base_set. simpl.
      by destruct (bool_decide (1 < size buildsets)%nat && true
                   && bool_decide ("base" ∈ buildsets)). }
  4:{ intros buildsets Hsize Hbase. unfold choose_base_set.
      by rewrite (bool_decide_eq_true_2 _ Hsize),
                 (bool_decide_eq_true_2 _ Hbase). }
  - apply choose_base_set_designated.
  - intros data base Hdata Hnone.
    assert (forall k b, (k, b) ∈ data ->
              delta_body data base (mark base b)
              = Ok (set_delta_status (set_is_base b "No") "No base",
                    [no_base_warning b])) as Hstep.
    { intros k b Hin. apply delta_body_no_base; [by eapply Hnone|].
      apply dict_get_None. intros ([k' b'] & Hk & Hin')%list_elem_of_fmap.
      simpl in Hk. subst k'.
      pose proof (dataset_key _ _ _ Hdata Hin') as [= Hbs _ _].
      by eapply Hnone. }
    destruct (delta_map_total data base data) as (data' & stderr & Hrun).
    { apply Forall_forall. intros [k b] Hin. simpl.
      rewrite (Hstep k b Hin). by eexists. }
    rewrite <- add_delta_info_map in Hrun.
    exists data', stderr. split; [done|].
    split; [by eapply add_delta_info_keys|].
    intros k b' [i Hi]%list_elem_of_lookup_1.
    destruct (Forall2_lookup_r _ _ _ _ _
                (add_delta_info_Forall2 _ _ _ _ Hrun) Hi)
      as ([k0 b] & Hin & Hk & w & Hbody & _).
    simpl in *. subst k0.
    rewrite (Hstep k b) in Hbody by (by eapply list_elem_of_lookup_2).
    by injection Hbody as <- _.
  - intros data base data' stderr Hrun.
    split; [by eapply add_delta_info_keys|].
    intros k b' Hin. apply list_elem_of_lookup_1 in Hin as [i Hi].
    destruct (Forall2_lookup_r _ _ _ _ _
                (add_delta_info_Forall2 _ _ _ _ Hrun) Hi)
      as ([k0 b] & _ & _ & w & Hbody & _). simpl in *.
    apply delta_body_scanned in Hbody as [Hsame ->].
    apply as_scanned_fields in Hsame as (_ & _ & _ & _ & [= -> _ _]).
    rewrite buildset_mark. unfold mark.
    by destruct (decide (buildset b = base)).
Qed.

Lemma designated_base_set_is_used_witness :
  "old" <> "" /\
  dataset Demo.data /\
  (forall k b, (k, b) ∈ Demo.data -> buildset b <> "old") /\
  choose_base_set Demo.buildsets (Some "old") = Some "old" /\
  exists data' stderr,
    add_delta_info Demo.data "old" = Ok (data', stderr) /\
    forall k b', (k, b') ∈ data' ->
      is_base b' = Some "No" /\ delta_status b' = Some "No base".
Proof.
  assert (forall k b, (k, b) ∈ Demo.data -> buildset b <> "old") as Hnone.
  { intros k b Hin. unfold Demo.data in Hin.
    repeat (apply elem_of_cons in Hin as [[= -> ->]|Hin]; [done|]).
    by apply elem_of_nil in Hin. }
  pose proof (designated_base_set_is_used
                Demo.json_load Demo.avr_size Demo.sha1_hexdigest)
    as (Hchoose & _ & Habsent & _ & _ & _).
  split; [done|]. split; [exact demo_dataset|]. split; [exact Hnone|].
  split; [by apply Hchoose|].
  destruct (Habsent Demo.data "old" demo_dataset Hnone)
    as (data' & stderr & Hrun & _ & Hall).
  by exists data', stderr.
Defined.

(** C10 as it is stated fails: the empty name is a designation that is
    not used; [base] takes its place. *)
Lemma empty_designation_is_replaced :
  ~ (forall (buildsets : gset string) (base : string),
       choose_base_set buildsets (Some base) = Some base).
Proof.
  intros H. specialize (H {["base"; "next"]} "").
  vm_compute in H. discriminate H.
Qed.

(** ** The rows of the report *)

Lemma NoDup_fst_eq (d : dict) k b1 b2 :
  NoDup d.*1 -> (k, b1) ∈ d -> (k, b2) ∈ d -> b1 = b2.
Proof.
  induction d as [|[k' b'] d IH]; simpl; [by intros _ ?%elem_of_nil|].
  intros [Hk Hd]%NoDup_cons [[= -> ->]|H1]%elem_of_cons
         [[= ->]|H2]%elem_of_cons; auto.
  - destruct Hk. apply list_elem_of_fmap. by exists (k', b2).
  - subst. destruct Hk. apply list_elem_of_fmap. by exists (k', b1).
Qed.

Lemma sorted_Permutation data : sorted data ≡ₚ data.
Proof. apply merge_sort_Permutation. Qed.

Lemma sorted_keys_NoDup data : NoDup data.*1 -> NoDup (sorted data).*1.
Proof. intros H. by rewrite sorted_Permutation. Qed.

Lemma StronglySorted_key_lt (d : dict) :
  NoDup d.*1 -> StronglySorted item_le d -> StronglySorted key_lt d.*1.
Proof.
  induction 2 as [|[k b] d Hd IH Hall]; simpl in *; [constructor|].
  apply NoDup_cons in H as [Hk Hnd]. constructor; [by apply IH|].
  apply Forall_fmap, Forall_forall. intros [k' b'] Hin.
  rewrite Forall_forall in Hall.
  pose proof (Hall _ Hin) as Hle. apply key_le_lt_or_eq in Hle.
  simpl in *. destruct Hle as [?| ->]; [done|].
  destruct Hk. apply list_elem_of_fmap. by exists (k', b').
Qed.

Lemma sorted_ascending data :
  NoDup data.*1 -> StronglySorted key_lt (sorted data).*1.
Proof.
  intros H. apply StronglySorted_key_lt; [by apply sorted_keys_NoDup|].
  apply StronglySorted_merge_sort; apply _.
Qed.

(** The order of the rows does not depend on the order of the dict. *)
Lemma sorted_order_independent data1 data2 :
  NoDup data1.*1 -> data1 ≡ₚ data2 -> sorted data1 = sorted data2.
Proof.
  intros Hnd Hperm.
  apply (StronglySorted_unique_strong item_le).
  - intros [k1 b1] [k2 b2] H1 H2 Hle Hge. unfold item_le in *. simpl in *.
    rewrite sorted_Permutation in H1. rewrite sorted_Permutation in H2.
    rewrite <- Hperm in H2.
    apply key_le_lt_or_eq in Hle as [Hlt| ->].
    + apply key_le_lt_or_eq in Hge as [Hgt| ->].
      * unfold key_lt in *. rewrite key_compare_antisym, Hgt in Hlt. done.
      * f_equal. by eapply NoDup_fst_eq.
    + f_equal. by eapply NoDup_fst_eq.
  - apply StronglySorted_merge_sort; apply _.
  - apply StronglySorted_merge_sort; apply _.
  - by rewrite !sorted_Permutation.
Qed.

Lemma row_key_build b base_set :
  row_key (build_report_row (build_get b) base_set) = Some (key_of b).
Proof. unfold build_report_row. by destruct (truthy base_set). Qed.

Lemma row_keys (data : dict) base_set :
  Forall (fun kb : key * build => kb.1 = key_of kb.2) data ->
  row_key <$> (map (fun kb : key * build =>
                      build_report_row (build_get kb.2) base_set) data)
  = Some <$> data.*1.
Proof.
  induction 1 as [|[k b] d Hk _ IH]; simpl in *; [done|].
  rewrite row_key_build. by f_equal; [rewrite Hk|].
Qed.

Lemma dataset_keyed data : dataset data -> keyed data.
Proof.
  intros [Hnd Hall]. split; [done|].
  eapply Forall_impl; [exact Hall|]. by intros ? [? _].
Qed.

Lemma add_delta_info_keyed data base data' stderr :
  add_delta_info data base = Ok (data', stderr) -> keyed data -> keyed data'.
Proof.
  intros Hrun [Hnd Hall]. split.
  - by rewrite (add_delta_info_keys _ _ _ _ Hrun).
  - apply add_delta_info_Forall2 in Hrun. clear Hnd. revert Hall.
    induction Hrun as [|[k b] [k' b'] d d' (Hk & w & Hbody & _) _ IH];
      [constructor|].
    intros [Hkb Hall]%Forall_cons. simpl in *. subst k'.
    constructor; [|by apply IH].
    simpl. apply delta_body_scanned in Hbody as [Hsame _].
    apply as_scanned_fields in Hsame as (_ & _ & _ & _ & ->).
    rewrite Hkb. unfold key_of, mark.
    by destruct (decide (buildset b = base)).
Qed.

Lemma report_Ok json_load avr_size sha1_hexdigest root base_set rows stderr :
  report json_load avr_size sha1_hexdigest root base_set = Ok (rows, stderr) ->
  exists data buildsets data',
    create_report_data json_load avr_size sha1_hexdigest root
      = Ok (data, buildsets) /\
    data'.*1 = data.*1 /\ keyed data' /\
    rows = report_rows data' (choose_base_set buildsets base_set).
Proof.
  unfold report.
  destruct (create_report_data _ _ _ _) as [[data buildsets]|] eqn:Hd;
    simpl; [|done].
  pose proof (dataset_keyed _ (create_report_data_dataset _ _ _ _ _ _ Hd))
    as Hkeyed.
  intros Hrows. exists data, buildsets.
  destruct (choose_base_set buildsets base_set) as [[|c base]|] eqn:Hc;
    simpl in Hrows.
  - injection Hrows as <- <-. by exists data.
  - destruct (add_delta_info data (String c base)) as [[data' err]|] eqn:Hrun;
      simpl in Hrows; [|done].
    injection Hrows as <- <-. exists data'.
    split_and!; [done|by eapply add_delta_info_keys
                |by eapply add_delta_info_keyed|done].
  - injection Hrows as <- <-. by exists data.
Qed.

(** C7. The report is the row of the headers followed by the rows of the
    builds, which are in strictly ascending order of the key they show
    (buildset, then sketch, then board); the rows are the same for every
    order in which the dict holds the same builds. *)
Theorem rows_ascend_by_key (data : dict) (base_set : option string) :
  keyed data ->
  exists keys,
    head (report_rows data base_set)
      = Some (build_report_row headers_get base_set) /\
    row_key <$> tail (report_rows data base_set) = Some <$> keys /\
    keys ≡ₚ data.*1 /\
    StronglySorted key_lt keys /\
    forall data2,
      data2 ≡ₚ data -> report_rows data2 base_set = report_rows data base_set.
Proof.
  intros [Hnd Hall]. exists (sorted data).*1. split_and!.
  - done.
  - simpl. apply row_keys. by rewrite sorted_Permutation.
  - by rewrite sorted_Permutation.
  - by apply sorted_ascending.
  - intros data2 Hperm. unfold report_rows.
    by rewrite (sorted_order_independent data data2).
Qed.

Lemma rows_ascend_by_key_witness :
  keyed Demo.data /\
  exists keys,
    row_key <$> tail (report_rows Demo.data None) = Some <$> keys /\
    StronglySorted key_lt keys.
Proof.
  pose proof (dataset_keyed _ demo_dataset) as Hkeyed.
  split; [exact Hkeyed|].
  destruct (rows_ascend_by_key Demo.data None Hkeyed)
    as (keys & _ & Hrows & _ & Hsorted & _).
  by exists keys.
Defined.

(** C4 (as amended). The report has one row for every key under which a
    build was scanned: the rows after the headers show keys that differ
    from one another, and these are the keys of the scanned builds. Builds
    scanned under one key count once (the last one stays in the dict);
    when the keys of the scanned builds differ, there is one row for each
    scanned build. *)
Theorem one_row_per_scanned_key
    (json_load : string -> option marker) (avr_size : path -> tool_result)
    (sha1_hexdigest : string -> string) (results_dir : dir)
    (base_set : option string) (rows : list row) (stderr : list string) :
  report json_load avr_size sha1_hexdigest results_dir base_set
    = Ok (rows, stderr) ->
  let scanned := key_of_marker <$> (find_builds json_load results_dir).1.*2 in
  exists header body keys,
    rows = header :: body /\
    row_key <$> body = Some <$> keys /\
    NoDup keys /\
    (forall k, k ∈ keys <-> k ∈ scanned) /\
    (NoDup scanned -> keys ≡ₚ scanned).
Proof.
  intros (data & buildsets & data' & Hd & Hkeys & [Hnd Hall] & ->)%report_Ok
         scanned.
  apply create_report_data_Ok in Hd as [_ Hc].
  assert (forall k, k ∈ (sorted data').*1 <-> k ∈ scanned) as Hiff.
  { intros k. rewrite sorted_Permutation, Hkeys.
    rewrite (collect_keys _ _ _ _ _ _ _ _ Hc k). simpl.
    rewrite elem_of_nil. unfold scanned. tauto. }
  eexists _, _, (sorted data').*1. split_and!.
  - reflexivity.
  - apply row_keys. by rewrite sorted_Permutation.
  - by apply sorted_keys_NoDup.
  - done.
  - intros Hscanned. apply NoDup_Permutation; [|done..].
    by apply sorted_keys_NoDup.
Qed.

Lemma one_row_per_scanned_key_witness :
  exists rows stderr body,
    report Demo.json_load Demo.avr_size Demo.sha1_hexdigest Demo.results None
      = Ok (rows, stderr) /\
    tail rows = body /\
    length body = length (find_builds Demo.json_load Demo.results).1.
Proof.
  destruct (report Demo.json_load Demo.avr_size Demo.sha1_hexdigest
              Demo.results None) as [[rows stderr]|] eqn:Hrun;
    [|by vm_compute in Hrun].
  destruct (one_row_per_scanned_key _ _ _ _ _ _ _ Hrun)
    as (header & body & keys & -> & Hrows & _ & _ & Hperm).
  exists (header :: body), stderr, body. split_and!; [done..|].
  apply (f_equal length) in Hrows. rewrite !length_fmap in Hrows.
  rewrite Hrows, Hperm; [by rewrite !length_fmap|].
  apply (bool_decide_unpack _). vm_compute. exact I.
Defined.

(** C4 as it is stated fails: two scanned builds with the same key give one
    row. *)
Lemma copied_build_has_no_row :
  ~ (forall (json_load : string -> option marker)
            (avr_size : path -> tool_result)
            (sha1_hexdigest : string -> string) (results_dir : dir)
            (base_set : option string) rows stderr,
       report json_load avr_size sha1_hexdigest results_dir base_set
         = Ok (rows, stderr) ->
       length (tail rows) = length (find_builds json_load results_dir).1).
Proof.
  intros H.
  specialize (H Demo.json_load Demo.avr_size Demo.sha1_hexdigest
                Demo.copied None _ _ eq_refl).
  vm_compute in H. discriminate H.
Qed.


Lemma demo_built_copied :
  Demo.built_copied = Ok (Demo.data_copied, Demo.buildsets_copied).
Proof. vm_compute. reflexivity. Qed.



(** * Further properties *)

(** ** The delta engine *)

Lemma delta_body_base_sizes data base b :
  buildset b = base -> is_Some (status b) ->
  exists b',
    delta_body data base (mark base b) = Ok (b', []) /\
    is_base b' = Some "Yes" /\ delta_status b' = Some "Is base" /\
    (is_ok b ->
     delta_program_size b' = Some 0 /\ delta_data_size b' = Some 0) /\
    (~ is_ok b ->
     delta_program_size b' = delta_program_size b /\
     delta_data_size b' = delta_data_size b).
Proof.
  intros Hb [s Hs]. unfold mark.
  destruct (decide (buildset b = base)); [|done].
  unfold delta_body, status_ok, is_ok. simpl.
  destruct (decide (buildset b = base)); [|done]. rewrite Hs. simpl.
  destruct (decide (s = "OK")) as [->|Hno].
  - eexists. split; [done|]. by split_and!.
  - rewrite bool_decide_eq_false_2 by done.
    eexists. split; [done|]. split_and!; try done. by intros [= ?].
Qed.

(** X1. On a dataset of [create_report_data], whenever [add_delta_info]
    returns: every build of the base buildset is marked [is_base = Yes] with
    the delta status [Is base]; its two size deltas are 0 when its status is
    [OK], and it has no size delta otherwise. *)
Theorem base_builds_are_their_own_base (data : dict) (base : string)
    (data' : dict) (stderr : list string) :
  dataset data ->
  add_delta_info data base = Ok (data', stderr) ->
  forall i k b,
    data !! i = Some (k, b) ->
    buildset b = base ->
    exists b',
      data' !! i = Some (k, b') /\
      is_base b' = Some "Yes" /\
      delta_status b' = Some "Is base" /\
      (is_ok b ->
       delta_program_size b' = Some 0 /\ delta_data_size b' = Some 0) /\
      (~ is_ok b ->
       delta_program_size b' = None /\ delta_data_size b' = None).
Proof.
  intros Hdata Hrun i k b Hi Hbase.
  destruct (Forall2_lookup_l _ _ _ _ _
              (add_delta_info_Forall2 _ _ _ _ Hrun) Hi)
    as ([k' b'] & Hi' & Hk & w & Hbody & _). simpl in *. subst k'.
  assert ((k, b) ∈ data) as Hin by (by eapply list_elem_of_lookup_2).
  pose proof (dataset_scanned _ _ _ Hdata Hin) as Hb.
  destruct (delta_body_base_sizes data base b Hbase (scanned_status _ Hb))
    as (b'' & Hbody' & Hyes & Hst & Hok & Hno).
  rewrite Hbody' in Hbody. injection Hbody as <- <-.
  exists b''. split_and!; try done.
  intros Hnot. destruct (Hno Hnot) as [-> ->].
  split; [apply (scanned_delta_program_size _ Hb)
         |apply (scanned_delta_data_size _ Hb)].
Qed.

Lemma base_builds_are_their_own_base_witness :
  dataset Demo.data /\
  exists data' stderr b',
    add_delta_info Demo.data "base" = Ok (data', stderr) /\
    data' !! 4%nat = Some (("base", "blink", "uno"), b') /\
    delta_status b' = Some "Is base" /\
    delta_program_size b' = Some 0.
Proof.
  split; [exact demo_dataset|].
  destruct (add_delta_info Demo.data "base") as [[data' stderr]|] eqn:Hrun;
    [|by vm_compute in Hrun].
  destruct (base_builds_are_their_own_base Demo.data "base" data' stderr
              demo_dataset Hrun 4%nat ("base", "blink", "uno")
              Demo.base_uno eq_refl eq_refl)
    as (b' & Hi & _ & Hst & Hok & _).
  destruct (Hok eq_refl) as [Hp _].
  by exists data', stderr, b'.
Defined.

(** X2. [add_delta_info] keeps the dict and what was scanned: the keys stay
    in their order, and each build keeps its exit code, sketch, board,
    buildset, status, sizes and hash. *)
Theorem add_delta_info_keeps_scanned_fields (data : dict) (base : string)
    (data' : dict) (stderr : list string) :
  add_delta_info data base = Ok (data', stderr) ->
  data'.*1 = data.*1 /\
  forall i k b',
    data' !! i = Some (k, b') ->
    exists b,
      data !! i = Some (k, b) /\
      exit_code b' = exit_code b /\ sketch_dir b' = sketch_dir b /\
      sketch_name b' = sketch_name b /\ board b' = board b /\
      buildset b' = buildset b /\ status b' = status b /\
      program_size b' = program_size b /\ data_size b' = data_size b /\
      hash b' = hash b.
Proof.
  intros Hrun. split; [by eapply add_delta_info_keys|].
  intros i k b' Hi.
  destruct (Forall2_lookup_r _ _ _ _ _
              (add_delta_info_Forall2 _ _ _ _ Hrun) Hi)
    as ([k0 b] & Hi0 & Hk & w & Hbody & _). simpl in *. subst k0.
  exists b. split; [done|].
  apply delta_body_scanned in Hbody as [Hsame _].
  rewrite as_scanned_mark in Hsame.
  by injection Hsame as -> -> -> -> -> -> -> -> ->.
Qed.

Lemma add_delta_info_keeps_scanned_fields_witness :
  exists data' stderr,
    add_delta_info Demo.data "base" = Ok (data', stderr) /\
    data'.*1 = Demo.data.*1.
Proof.
  destruct (add_delta_info Demo.data "base") as [[data' stderr]|] eqn:Hrun;
    [|by vm_compute in Hrun].
  exists data', stderr. split; [reflexivity|].
  exact (proj1 (add_delta_info_keeps_scanned_fields
                  Demo.data "base" data' stderr Hrun)).
Defined.

Lemma delta_body_written data base b b' w :
  delta_body data base (mark base b) = Ok (b', w) ->
  w = if decide (lacks_base data base b) then [no_base_warning b] else [].
Proof.
  destruct (decide (lacks_base data base b)) as [[Hne Hget]|Hhas].
  - rewrite delta_body_no_base by done. by intros [= _ <-].
  - unfold mark, delta_body, status_ok, and_then, item.
    destruct (decide (buildset b = base)) as [Heq|Hne]; simpl.
    + destruct (decide (buildset b = base)); [|done].
      repeat (case_match; simpl; try done); by intros [= _ <-].
    + destruct (decide (buildset b = base)); [done|].
      destruct (dict_get data (base, sketch_dir b, board b)) as [bb|] eqn:Hget;
        [|by destruct Hhas].
      repeat (case_match; simpl; try done); by intros [= _ <-].
Qed.

Lemma delta_map_stderr data base todo l stderr :
  delta_map data base todo = Ok (l, stderr) ->
  stderr = no_base_warning <$> (filter (lacks_base data base) todo.*2).
Proof.
  revert l stderr. induction todo as [|[k b] todo IH]; simpl; intros l stderr.
  - by intros [= _ <-].
  - destruct (delta_body data base (mark base b)) as [[b' w]|] eqn:E;
      simpl; [|done].
    destruct (delta_map data base todo) as [[l' ws]|]; simpl; [|done].
    intros [= _ <-]. rewrite (IH _ _ eq_refl).
    rewrite (delta_body_written _ _ _ _ _ E), filter_cons.
    by destruct (decide (lacks_base data base b)).
Qed.

(** X3. What [add_delta_info] writes to the diagnostic stream is one warning
    for each build that is not of the base buildset and has no counterpart
    in it, in the order of the dict, and nothing else. *)
Theorem stderr_is_the_missing_base_warnings (data : dict) (base : string)
    (data' : dict) (stderr : list string) :
  add_delta_info data base = Ok (data', stderr) ->
  stderr = no_base_warning <$> filter (lacks_base data base) data.*2.
Proof. rewrite add_delta_info_map. apply delta_map_stderr. Qed.

Lemma stderr_is_the_missing_base_warnings_witness :
  exists data' stderr,
    add_delta_info Demo.data "base" = Ok (data', stderr) /\
    length stderr = 3%nat.
Proof.
  destruct (add_delta_info Demo.data "base") as [[data' stderr]|] eqn:Hrun;
    [|by vm_compute in Hrun].
  exists data', stderr. split; [reflexivity|].
  by rewrite (stderr_is_the_missing_base_warnings
                Demo.data "base" data' stderr Hrun).
Defined.

(** ** The dataset builder *)

Lemma dict_get_set_eq (d : dict) k v : dict_get (dict_set d k v) k = Some v.
Proof.
  induction d as [|[k' b] d IH]; simpl.
  - by rewrite decide_True.
  - destruct (decide (k' = k)) as [->|Hne]; simpl.
    + by rewrite decide_True.
    + by rewrite decide_False.
Qed.

Lemma dict_get_set_ne (d : dict) k v k' :
  k <> k' -> dict_get (dict_set d k v) k' = dict_get d k'.
Proof.
  intros Hne. induction d as [|[k0 b] d IH]; simpl.
  - by rewrite decide_False.
  - destruct (decide (k0 = k)) as [->|Hne0]; simpl.
    + by rewrite !decide_False.
    + destruct (decide (k0 = k')); [done|apply IH].
Qed.

Section Dataset.

Variable json_load : string -> option marker.
Variable avr_size : path -> tool_result.
Variable sha1_hexdigest : string -> string.

Lemma collect_Raise root builds location m e : forall data bs,
  (location, m) ∈ builds ->
  measure avr_size sha1_hexdigest root location m = Raise e ->
  exists e', collect avr_size sha1_hexdigest root builds data bs = Raise e'.
Proof.
  induction builds as [|[location' m'] builds IH]; intros data bs.
  - by intros ?%elem_of_nil.
  - intros [[= <- <-]|Hin]%elem_of_cons Hm; simpl.
    + rewrite Hm. by eexists.
    + destruct (measure _ _ _ location' m') as [b|e0]; simpl; [|by eexists].
      by apply IH.
Qed.

Lemma collect_get_other root builds k : forall data bs data' bs',
  collect avr_size sha1_hexdigest root builds data bs = Ok (data', bs') ->
  k ∉ key_of_marker <$> builds.*2 ->
  dict_get data' k = dict_get data k.
Proof.
  induction builds as [|[location m] builds IH]; simpl; intros data bs data' bs'.
  - by intros [= <- <-].
  - destruct (measure _ _ _ location m) as [b|] eqn:E; simpl; [|done].
    intros Hc [Hne Hk]%not_elem_of_cons.
    rewrite (IH _ _ _ _ Hc Hk). apply dict_get_set_ne.
    by rewrite (measure_key _ _ _ _ _ _ E).
Qed.

Lemma collect_last root pre location m post : forall data bs data' bs',
  collect avr_size sha1_hexdigest root (pre ++ (location, m) :: post) data bs
    = Ok (data', bs') ->
  key_of_marker m ∉ key_of_marker <$> post.*2 ->
  exists b,
    measure avr_size sha1_hexdigest root location m = Ok b /\
    dict_get data' (key_of_marker m) = Some b.
Proof.
  induction pre as [|[location' m'] pre IH]; simpl; intros data bs data' bs'.
  - destruct (measure _ _ _ location m) as [b|] eqn:E; simpl; [|done].
    intros Hc Hk. exists b. split; [done|].
    rewrite (collect_get_other _ _ _ _ _ _ _ Hc Hk).
    rewrite <- (measure_key _ _ _ _ _ _ E). apply dict_get_set_eq.
  - destruct (measure _ _ _ location' m') as [b'|]; simpl; [|done].
    apply IH.
Qed.

End Dataset.

Lemma create_report_data_status
    (json_load : string -> option marker) (avr_size : path -> tool_result)
    (sha1_hexdigest : string -> string) (results_dir : dir)
    (data : dict) (buildsets : gset string) :
  create_report_data json_load avr_size sha1_hexdigest results_dir
    = Ok (data, buildsets) ->
  forall k b, (k, b) ∈ data ->
    (status b = Some "OK" \/ status b = Some "Failed to compile" \/
     status b = Some "Failed to get size") /\
    (status b = Some "Failed to compile" <-> exit_code b <> 0) /\
    (exit_code b <> 0 ->
     program_size b = None /\ data_size b = None /\ hash b = None).
Proof.
  intros [_ Hc]%create_report_data_Ok.
  set (good := fun b : build =>
    (status b = Some "OK" \/ status b = Some "Failed to compile" \/
     status b = Some "Failed to get size") /\
    (status b = Some "Failed to compile" <-> exit_code b <> 0) /\
    (exit_code b <> 0 ->
     program_size b = None /\ data_size b = None /\ hash b = None)).
  assert (Forall (fun kb : key * build => good kb.2) data) as Hall.
  { apply (collect_inv avr_size sha1_hexdigest
             (fun d _ => Forall (fun kb : key * build => good kb.2) d)
             _ _) with (2:=Hc); [|constructor].
    intros location m b d bs _ Hm Hd. apply dict_set_Forall; [done|].
    unfold good. simpl.
    apply measure_Ok in Hm
      as [(Hne & ->)|[(H0 & _ & ->)|(H0 & out & bytes & p & ds & _ & _ & _ & ->)]];
      simpl; (split_and!; [auto|split; [try done|try done]|try done]);
      try (intros; congruence). }
  intros k b Hin. rewrite Forall_forall in Hall. apply (Hall (k, b) Hin).
Qed.

(** X4. In the dataset the status of a build is one of [OK], [Failed to
    compile] and [Failed to get size]; it is [Failed to compile] exactly
    when the exit code of the build is not 0, and such a build has no size
    and no hash. *)
Theorem failed_to_compile_iff_exit_code
    (json_load : string -> option marker) (avr_size : path -> tool_result)
    (sha1_hexdigest : string -> string) (results_dir : dir)
    (data : dict) (buildsets : gset string) :
  create_report_data json_load avr_size sha1_hexdigest results_dir
    = Ok (data, buildsets) ->
  forall k b, (k, b) ∈ data ->
    (status b = Some "OK" \/ status b = Some "Failed to compile" \/
     status b = Some "Failed to get size") /\
    (status b = Some "Failed to compile" <-> exit_code b <> 0) /\
    (exit_code b <> 0 ->
     program_size b = None /\ data_size b = None /\ hash b = None).
Proof. apply create_report_data_status. Qed.

Lemma failed_to_compile_iff_exit_code_witness :
  Demo.built = Ok (Demo.data, Demo.buildsets) /\
  (("next", "fade", "uno"), Demo.next_fade) ∈ Demo.data /\
  exit_code Demo.next_fade <> 0 /\
  status Demo.next_fade = Some "Failed to compile".
Proof.
  assert ((("next", "fade", "uno"), Demo.next_fade) ∈ Demo.data) as Hin
    by (vm_compute; left).
  split; [exact demo_built|]. split; [exact Hin|]. split; [done|].
  apply (failed_to_compile_iff_exit_code
           Demo.json_load Demo.avr_size Demo.sha1_hexdigest Demo.results
           Demo.data Demo.buildsets demo_built _ _ Hin). done.
Defined.

(** X5. Builds scanned under one key overwrite one another: the dataset
    holds, under the key of a scanned build after which no build with that
    key is scanned, the build measured from that one. *)
Theorem last_scanned_build_wins
    (json_load : string -> option marker) (avr_size : path -> tool_result)
    (sha1_hexdigest : string -> string) (results_dir : dir)
    (data : dict) (buildsets : gset string)
    (pre post : list (path * marker)) (location : path) (m : marker) :
  create_report_data json_load avr_size sha1_hexdigest results_dir
    = Ok (data, buildsets) ->
  (find_builds json_load results_dir).1 = pre ++ (location, m) :: post ->
  key_of_marker m ∉ key_of_marker <$> post.*2 ->
  exists b,
    measure avr_size sha1_hexdigest results_dir location m = Ok b /\
    dict_get data (key_of_marker m) = Some b.
Proof.
  intros [_ Hc]%create_report_data_Ok Hscan Hlast.
  rewrite Hscan in Hc. by eapply collect_last.
Qed.

Lemma last_scanned_build_wins_witness :
  exists b,
    measure Demo.avr_size Demo.sha1_hexdigest Demo.copied
            ["backup"; "blink"; "uno"]
            (Marker 0 "blink" "blink" "uno" "base") = Ok b /\
    dict_get Demo.data_copied ("base", "blink", "uno") = Some b /\
    status b = Some "Failed to get size".
Proof.
  destruct (last_scanned_build_wins
              Demo.json_load Demo.avr_size Demo.sha1_hexdigest Demo.copied
              Demo.data_copied Demo.buildsets_copied
              [(["base"; "blink"; "uno"], Marker 0 "blink" "blink" "uno" "base")]
              [] ["backup"; "blink"; "uno"]
              (Marker 0 "blink" "blink" "uno" "base")
              demo_built_copied eq_refl)
    as (b & Hm & Hget).
  { by intros ?%elem_of_nil. }
  exists b. split; [exact Hm|]. split; [exact Hget|].
  vm_compute in Hm. by injection Hm as <-.
Defined.

(** X6. The set of buildsets [create_report_data] returns, on which the
    choice of the base buildset rests, is the set of the buildsets of the
    builds in the dataset. *)
Theorem buildsets_are_those_of_the_dataset
    (json_load : string -> option marker) (avr_size : path -> tool_result)
    (sha1_hexdigest : string -> string) (results_dir : dir)
    (data : dict) (buildsets : gset string) :
  create_report_data json_load avr_size sha1_hexdigest results_dir
    = Ok (data, buildsets) ->
  forall s, s ∈ buildsets <-> exists k b, (k, b) ∈ data /\ buildset b = s.
Proof.
  intros Hd s.
  pose proof (create_report_data_dataset _ _ _ _ _ _ Hd) as Hdata.
  rewrite (create_report_data_buildsets _ _ _ _ _ _ Hd s). split.
  - intros (k & ([k' b] & Hk & Hin)%list_elem_of_fmap & <-).
    simpl in Hk. subst k'. exists k, b. split; [done|].
    by rewrite (dataset_key _ _ _ Hdata Hin).
  - intros (k & b & Hin & <-). exists k. split.
    + apply list_elem_of_fmap. by exists (k, b).
    + by rewrite (dataset_key _ _ _ Hdata Hin).
Qed.

Lemma buildsets_are_those_of_the_dataset_witness :
  Demo.built = Ok (Demo.data, Demo.buildsets) /\ "next" ∈ Demo.buildsets.
Proof.
  split; [exact demo_built|].
  apply (buildsets_are_those_of_the_dataset
           Demo.json_load Demo.avr_size Demo.sha1_hexdigest Demo.results
           Demo.data Demo.buildsets demo_built).
  exists ("next", "fade", "uno"), Demo.next_fade.
  split; [vm_compute; left|reflexivity].
Defined.

(** ** Failures that end the report *)

Section Fatal.

Variable json_load : string -> option marker.
Variable avr_size : path -> tool_result.
Variable sha1_hexdigest : string -> string.

Lemma walk_subdirs_marker_sound l dirname p m :
  Forall (fun nd : string * dir => forall dirname p m,
            (p, m) ∈ (walk_builds json_load nd.2 dirname).1 ->
            exists q text, p = dirname ++ q /\ top_marker_text nd.2 q text /\
                           json_load text = Some m) l ->
  (p, m) ∈ (walk_subdirs json_load l dirname).1 ->
  exists name d' q text,
    (name, d') ∈ l /\ p = dirname ++ name :: q /\
    top_marker_text d' q text /\ json_load text = Some m.
Proof.
  induction 1 as [|[name d'] l Hd _ IHl]; simpl.
  - by intros ?%elem_of_nil.
  - intros [Hin|Hin]%gen_app_fst.
    + destruct (Hd _ _ _ Hin) as (q & text & -> & Hq & Hm).
      exists name, d', q, text. split; [left|].
      by rewrite <- assoc_L by apply _.
    + destruct (IHl Hin) as (name' & d'' & q & text & ? & ? & ? & ?).
      exists name', d'', q, text. split; [by right|done].
Qed.

Lemma walk_builds_marker_sound d : forall dirname p m,
  (p, m) ∈ (walk_builds json_load d dirname).1 ->
  exists q text, p = dirname ++ q /\ top_marker_text d q text /\
                 json_load text = Some m.
Proof.
  induction d as [files subdirs IH] using dir_ind_nested.
  intros dirname p m. rewrite walk_builds_unfold.
  destruct (assoc "build.json" files) as [text|] eqn:Efile.
  - destruct (json_load text) as [m'|] eqn:Ejson; simpl;
      [|by intros ?%elem_of_nil].
    intros [= -> ->]%list_elem_of_singleton. exists [], text.
    split; [by rewrite app_nil_r|]. split; [by constructor|done].
  - intros (name & d' & q & text & Hin & -> & Hq & Hm)
      %walk_subdirs_marker_sound; [|done].
    exists (name :: q), text. split; [done|].
    split; [by apply top_marker_text_below with d'|done].
Qed.

Lemma walk_subdirs_marker_complete l dirname name d' q text :
  Forall (fun nd : string * dir => forall dirname q text,
            (walk_builds json_load nd.2 dirname).2 = None ->
            top_marker_text nd.2 q text ->
            exists m, json_load text = Some m /\
                      (dirname ++ q, m) ∈ (walk_builds json_load nd.2 dirname).1)
         l ->
  (walk_subdirs json_load l dirname).2 = None ->
  (name, d') ∈ l -> top_marker_text d' q text ->
  exists m, json_load text = Some m /\
            (dirname ++ name :: q, m) ∈ (walk_subdirs json_load l dirname).1.
Proof.
  induction 1 as [|[name' d''] l Hd _ IHl]; simpl.
  - by intros _ ?%elem_of_nil.
  - intros (H1 & H2 & ->)%gen_app_None Hin Hq.
    apply elem_of_cons in Hin as [[= <- <-]|Hin].
    + destruct (Hd (dirname ++ [name]) q text H1 Hq) as (m & Hm & Hy).
      exists m. split; [done|]. apply elem_of_app. left.
      by rewrite <- assoc_L in Hy by apply _.
    + destruct (IHl H2 Hin Hq) as (m & Hm & Hy).
      exists m. split; [done|]. apply elem_of_app. by right.
Qed.

Lemma walk_builds_marker_complete d : forall dirname q text,
  (walk_builds json_load d dirname).2 = None ->
  top_marker_text d q text ->
  exists m, json_load text = Some m /\
            (dirname ++ q, m) ∈ (walk_builds json_load d dirname).1.
Proof.
  induction d as [files subdirs IH] using dir_ind_nested.
  intros dirname q text. rewrite walk_builds_unfold.
  destruct (assoc "build.json" files) as [text'|] eqn:Efile.
  - intros Hnone Htop. inversion Htop; subst; [|congruence].
    assert (text' = text) as -> by congruence.
    destruct (json_load text) as [m|]; [|done].
    exists m. split; [done|]. rewrite app_nil_r. by left.
  - intros Hnone Htop. inversion Htop; subst; [congruence|].
    by eapply walk_subdirs_marker_complete.
Qed.

Lemma create_report_data_Raise_stop root e :
  (find_builds json_load root).2 = Some e ->
  exists e', create_report_data json_load avr_size sha1_hexdigest root
             = Raise e'.
Proof.
  unfold create_report_data.
  destruct (find_builds json_load root) as [builds stop]; simpl.
  intros ->. by destruct (collect _ _ _ _ _ _) as [[d s]|]; simpl; eexists.
Qed.

Lemma create_report_data_Raise_measure root location m e :
  (location, m) ∈ (find_builds json_load root).1 ->
  measure avr_size sha1_hexdigest root location m = Raise e ->
  exists e', create_report_data json_load avr_size sha1_hexdigest root
             = Raise e'.
Proof.
  unfold create_report_data.
  destruct (find_builds json_load root) as [builds stop]; simpl.
  intros Hin Hm.
  destruct (collect_Raise avr_size sha1_hexdigest root builds location m e
              [] ∅ Hin Hm) as [e' ->].
  by eexists.
Qed.

Lemma report_Raise root base_set e :
  create_report_data json_load avr_size sha1_hexdigest root = Raise e ->
  report json_load avr_size sha1_hexdigest root base_set = Raise e.
Proof. unfold report. by intros ->. Qed.

End Fatal.

(** X7. What the scanner yields for a directory is the content of the
    marker of that directory as [json.load] reads it; and when no marker is
    malformed, every marker that is reached through directories without a
    marker is yielded so. *)
Theorem find_builds_yields_parsed_markers
    (json_load : string -> option marker) (root : dir) :
  (forall p m,
     (p, m) ∈ (find_builds json_load root).1 ->
     exists text, top_marker_text root p text /\ json_load text = Some m) /\
  ((find_builds json_load root).2 = None ->
   forall p text,
     top_marker_text root p text ->
     exists m, json_load text = Some m /\
               (p, m) ∈ (find_builds json_load root).1).
Proof.
  unfold find_builds. split.
  - intros p m (q & text & -> & Hq & Hm)%walk_builds_marker_sound.
    by exists text.
  - intros Hnone p text Htop.
    by apply (walk_builds_marker_complete json_load root [] p text).
Qed.

Lemma find_builds_yields_parsed_markers_witness :
  (find_builds Demo.json_load Demo.results).2 = None /\
  top_marker_text Demo.results ["base"; "blink"; "uno"] "base/blink/uno" /\
  exists m,
    Demo.json_load "base/blink/uno" = Some m /\
    (["base"; "blink"; "uno"], m) ∈ (find_builds Demo.json_load Demo.results).1.
Proof.
  assert (top_marker_text Demo.results ["base"; "blink"; "uno"]
            "base/blink/uno") as Htop.
  { eapply top_marker_text_below; [done|right; left|].
    eapply top_marker_text_below; [done|left|].
    eapply top_marker_text_below; [done|left|].
    by constructor. }
  split; [reflexivity|]. split; [exact Htop|].
  exact (proj2 (find_builds_yields_parsed_markers Demo.json_load Demo.results)
               eq_refl _ _ Htop).
Defined.

(** X8. A marker that [json.load] rejects is fatal: when the walk can reach
    such a marker (through directories without a marker), the report ends
    with an exception and writes no row, whatever the other builds are. *)
Theorem malformed_marker_ends_the_report
    (json_load : string -> option marker) (avr_size : path -> tool_result)
    (sha1_hexdigest : string -> string) (results_dir : dir)
    (base_set : option string) (p : path) (text : string) :
  top_marker_text results_dir p text ->
  json_load text = None ->
  exists e,
    report json_load avr_size sha1_hexdigest results_dir base_set = Raise e.
Proof.
  intros Htop Hbad.
  destruct ((find_builds json_load results_dir).2) as [e|] eqn:Hstop.
  - destruct (create_report_data_Raise_stop json_load avr_size sha1_hexdigest
                results_dir e Hstop) as [e' He'].
    exists e'. by apply report_Raise.
  - destruct (walk_builds_marker_complete json_load results_dir [] p text
                Hstop Htop) as (m & Hm & _).
    congruence.
Qed.

Lemma malformed_marker_ends_the_report_witness :
  top_marker_text (Dir [] [("x", Dir [("build.json", "{")] [])]) ["x"] "{" /\
  Demo.json_load "{" = None /\
  exists e,
    report Demo.json_load Demo.avr_size Demo.sha1_hexdigest
           (Dir [] [("x", Dir [("build.json", "{")] [])]) None = Raise e.
Proof.
  assert (top_marker_text (Dir [] [("x", Dir [("build.json", "{")] [])])
            ["x"] "{") as Htop.
  { eapply top_marker_text_below; [done|left|]. by constructor. }
  split; [exact Htop|]. split; [reflexivity|].
  exact (malformed_marker_ends_the_report
           Demo.json_load Demo.avr_size Demo.sha1_hexdigest _ None
           ["x"] "{" Htop eq_refl).
Defined.

(** X9. Two failures of the measurement are not recovered: for a scanned
    build with exit code 0, when the size tool cannot be started, or when it
    succeeds and the hex file cannot be read, the report ends with an
    exception and writes no row. *)
Theorem unreadable_hex_ends_the_report
    (json_load : string -> option marker) (avr_size : path -> tool_result)
    (sha1_hexdigest : string -> string) (results_dir : dir)
    (base_set : option string) (location : path) (m : marker) :
  (location, m) ∈ (find_builds json_load results_dir).1 ->
  m_exit_code m = 0 ->
  avr_size (elffile location m) = ToolNotRun \/
  (exists out, avr_size (elffile location m) = ToolOutput out /\
               read_file results_dir (hexfile location m) = None) ->
  exists e,
    report json_load avr_size sha1_hexdigest results_dir base_set = Raise e.
Proof.
  intros Hin Hexit Hfail.
  assert (exists e, measure avr_size sha1_hexdigest results_dir location m
                    = Raise e) as [e He].
  { unfold measure, add_extra_info. simpl.
    destruct (decide (m_exit_code m <> 0)); [done|]. simpl.
    fold (elffile location m). fold (hexfile location m).
    destruct Hfail as [->|(out & -> & ->)]; simpl; [by eexists|].
    destruct (scan_lines _ _) as [b|e] eqn:Escan; simpl; [by eexists|].
    rewrite (scan_lines_Raise _ _ _ Escan). by eexists. }
  destruct (create_report_data_Raise_measure json_load avr_size sha1_hexdigest
              results_dir location m e Hin He) as [e' He'].
  exists e'. by apply report_Raise.
Qed.

Lemma unreadable_hex_ends_the_report_witness :
  exists e,
    report Demo.json_load (fun _ => ToolOutput "") Demo.sha1_hexdigest
           (Dir [] [("uno", Dir [("build.json", "next/blink/mega")] [])])
           None = Raise e.
Proof.
  apply (unreadable_hex_ends_the_report
           Demo.json_load (fun _ => ToolOutput "") Demo.sha1_hexdigest
           (Dir [] [("uno", Dir [("build.json", "next/blink/mega")] [])])
           None ["uno"] Demo.mega).
  - left.
  - reflexivity.
  - right. exists "". split; reflexivity.
Defined.

(** ** The patterns of the sizes *)

Section Patterns.

#[local] Arguments String.append : simpl nomatch.

Lemma append_assoc_s (a b c : string) : (a +:+ b) +:+ c = a +:+ b +:+ c.
Proof. induction a as [|x a IH]; simpl; [done|by f_equal]. Qed.

Lemma strip_prefix_Some p s r : strip_prefix p s = Some r <-> s = p +:+ r.
Proof.
  revert s. induction p as [|a p IH]; intros s; simpl.
  - split; [by intros [= ->]|by intros ->].
  - destruct s as [|b s]; [split; intros [=]|].
    destruct (decide (a = b)) as [->|Hne].
    + rewrite IH. split; [by intros ->|by intros [= ->]].
    + split; [done|]. intros [= ? _]. congruence.
Qed.

Lemma span_split f s :
  s = (span f s).1 +:+ (span f s).2 /\
  all_chars f (span f s).1 = true /\
  starts_with f (span f s).2 = false.
Proof.
  induction s as [|c s (IH1 & IH2 & IH3)]; simpl; [done|].
  destruct (f c) eqn:Hc; simpl; [|by rewrite Hc].
  destruct (span f s) as [run rest]; simpl in *.
  unfold all_chars in *. simpl. rewrite Hc, IH2. split; [by f_equal|done].
Qed.

Lemma span_app f a b :
  all_chars f a = true -> starts_with f b = false -> span f (a +:+ b) = (a, b).
Proof.
  unfold all_chars. induction a as [|c a IH]; simpl.
  - intros _. destruct b as [|c b]; simpl; [done|by intros ->].
  - intros [Hc Ha]%andb_true_iff Hb. by rewrite Hc, IH.
Qed.

Lemma all_spaces s : all_chars is_space s = true -> s = spaces (String.length s).
Proof.
  unfold all_chars, spaces. induction s as [|c s IH]; simpl; [done|].
  intros [Hc Hs]%andb_true_iff. apply bool_decide_eq_true in Hc as ->.
  by rewrite <- IH.
Qed.

Lemma spaces_all n : all_chars is_space (spaces n) = true.
Proof. unfold all_chars, spaces. by induction n as [|n IH]. Qed.

Lemma spaces_snoc n s : spaces n +:+ String " " s = spaces (S n) +:+ s.
Proof.
  unfold spaces. induction n as [|n IH]; simpl in *; [done|by rewrite IH].
Qed.

Lemma digit_not_space c : is_digit c = true -> is_space c = false.
Proof.
  intros Hd. apply bool_decide_eq_false. intros ->. by vm_compute in Hd.
Qed.

Lemma starts_with_digit_not_space s :
  starts_with is_digit s = true -> starts_with is_space s = false.
Proof. destruct s as [|c s]; simpl; [done|apply digit_not_space]. Qed.

Lemma re_match_size_iff (label line g : string) :
  re_match_size label line = Some g <->
  all_chars is_digit g = true /\
  exists n, line = label +:+ spaces n +:+ g +:+ " bytes".
Proof.
  unfold re_match_size. split.
  - destruct (strip_prefix label line) as [rest|] eqn:Hstrip; simpl; [|done].
    apply strip_prefix_Some in Hstrip as ->.
    destruct (span_split is_space rest) as (Hrest & Hsp & _).
    destruct (span is_space rest) as [sp r1]; simpl in *.
    destruct (span_split is_digit r1) as (Hr1 & Hdig & _).
    destruct (span is_digit r1) as [digits r2]; simpl in *.
    subst rest r1. rewrite (all_spaces sp Hsp).
    destruct digits as [|c digits].
    + destruct sp as [|c sp]; [done|].
      destruct (decide (r2 = "bytes")) as [->|]; [|done].
      intros [= <-]. split; [done|]. exists (String.length sp). simpl.
      by rewrite spaces_snoc.
    + destruct (decide (r2 = " bytes")) as [->|]; [|done].
      intros [= <-]. split; [done|]. by exists (String.length sp).
  - intros (Hg & n & ->).
    rewrite (proj2 (strip_prefix_Some label _ _) eq_refl). simpl.
    destruct g as [|c g].
    + simpl. rewrite spaces_snoc.
      rewrite (span_app is_space (spaces (S n)) "bytes")
        by (apply spaces_all || done).
      change (span is_digit "bytes") with (EmptyString, "bytes").
      change (spaces (S n)) with (String " " (spaces n)).
      cbv iota beta. by rewrite decide_True.
    + unfold all_chars in Hg. simpl in Hg.
      apply andb_true_iff in Hg as [Hc Hg].
      rewrite (span_app is_space (spaces n))
        by (apply spaces_all || (simpl; by apply digit_not_space)).
      cbv iota beta.
      rewrite (span_app is_digit (String c g) " bytes");
        [|unfold all_chars; simpl; by rewrite Hc, Hg|done].
      cbv iota beta. by rewrite decide_True.
Qed.

(** X10. [re_match_size] is the match of the pattern: a line matches with
    the group [g] exactly when [g] is made of digits and the line is the
    label, any number of spaces, [g] and the text [" bytes"]. *)
Theorem re_match_size_is_the_pattern (label line g : string) :
  re_match_size label line = Some g <->
  all_chars is_digit g = true /\
  exists n, line = label +:+ spaces n +:+ g +:+ " bytes".
Proof. apply re_match_size_iff. Qed.

Lemma re_match_size_is_the_pattern_witness :
  all_chars is_digit "1386" = true /\
  re_match_size "Program:" "Program:    1386 bytes" = Some "1386".
Proof.
  split; [reflexivity|].
  apply (re_match_size_is_the_pattern "Program:" "Program:    1386 bytes"
           "1386").
  split; [reflexivity|]. by exists 4%nat.
Defined.

Lemma int_Raise_iff text e : int text = Raise e <-> text = "" /\ e = ValueError.
Proof.
  destruct text; simpl; [split; [by intros [= <-]|by intros [_ ->]]|].
  split; [done|by intros [[=] _]].
Qed.

Lemma scan_line_Raise_iff b line e :
  scan_line b line = Raise e <->
  e = ValueError /\
  (re_match_size "Program:" line = Some "" \/
   re_match_size "Data:" line = Some "").
Proof.
  unfold scan_line.
  destruct (re_match_size "Program:" line) as [g|]; simpl.
  - destruct (int g) as [n|e'] eqn:E; simpl.
    + assert (g <> "") as Hg by (intros ->; done).
      destruct (re_match_size "Data:" line) as [g'|]; simpl.
      * destruct (int g') as [n'|e''] eqn:E'; simpl.
        -- assert (g' <> "") by (intros ->; done).
           split; [done|]. intros [_ [[= ?]|[= ?]]]; done.
        -- apply int_Raise_iff in E' as [-> ->].
           split; [intros [= <-]; auto|by intros [-> _]].
      * split; [done|]. intros [_ [[= ?]|[=]]]; done.
    + apply int_Raise_iff in E as [-> ->].
      split; [intros [= <-]; auto|by intros [-> _]].
  - destruct (re_match_size "Data:" line) as [g'|]; simpl.
    + destruct (int g') as [n'|e''] eqn:E'; simpl.
      * assert (g' <> "") by (intros ->; done).
        split; [done|]. intros [_ [[=]|[= ?]]]; done.
      * apply int_Raise_iff in E' as [-> ->].
        split; [intros [= <-]; auto|by intros [-> _]].
    + split; [done|]. intros [_ [[=]|[=]]].
Qed.

Lemma scan_lines_Raise_iff lines : forall b e,
  scan_lines b lines = Raise e <->
  e = ValueError /\
  Exists (fun line => re_match_size "Program:" line = Some "" \/
                      re_match_size "Data:" line = Some "") lines.
Proof.
  induction lines as [|line lines IH]; simpl; intros b e.
  - rewrite Exists_nil. split; [done|by intros []].
  - rewrite Exists_cons.
    destruct (scan_line b line) as [b1|e1] eqn:E; simpl.
    + rewrite IH. split; [intros [-> ?]; auto|].
      intros [-> [Hbad|?]]; [|done].
      assert (scan_line b line = Raise ValueError) as Hr
        by (by apply scan_line_Raise_iff).
      congruence.
    + apply scan_line_Raise_iff in E as [-> Hbad].
      split; [intros [= <-]; auto|by intros [-> _]].
Qed.

(** X11. A size line without digits is fatal. For a build with exit code 0
    on which the size tool succeeds with lines of 640 characters at most
    (so that no number in them is beyond the limit Python may put on the
    digits of a number), the measurement raises [ValueError] (which nothing
    catches) exactly when a line of the output is [Program:] or [Data:],
    spaces and [" bytes"] with no digit in between. *)
Theorem size_line_without_digits_raises
    (avr_size : path -> tool_result) (sha1_hexdigest : string -> string)
    (root : dir) (location : path) (m : marker) (out : string) :
  m_exit_code m = 0 ->
  avr_size (elffile location m) = ToolOutput out ->
  Forall (fun line => (String.length line <= 640)%nat) (splitlines out) ->
  (measure avr_size sha1_hexdigest root location m = Raise ValueError <->
   Exists (fun line =>
             exists n, line = "Program:" +:+ spaces n +:+ " bytes" \/
                       line = "Data:" +:+ spaces n +:+ " bytes")
          (splitlines out)).
Proof.
  intros Hexit Htool _.
  assert (measure avr_size sha1_hexdigest root location m = Raise ValueError
          <-> scan_lines (build_of_marker m) (splitlines out)
              = Raise ValueError) as ->.
  { unfold measure, add_extra_info. simpl.
    destruct (decide (m_exit_code m <> 0)); [done|]. simpl.
    fold (elffile location m). fold (hexfile location m). rewrite Htool.
    destruct (scan_lines _ _) as [b|e] eqn:Escan; simpl.
    - destruct (read_file root (hexfile location m)); simpl; by split.
    - rewrite (scan_lines_Raise _ _ _ Escan). by split. }
  rewrite scan_lines_Raise_iff. rewrite !Exists_exists. split.
  - intros (_ & line & Hin & [H|H]); exists line; (split; [done|]);
      apply re_match_size_iff in H as (_ & n & ->); exists n; auto.
  - intros (line & Hin & n & [->| ->]); (split; [done|]);
      eexists; (split; [done|]); [left|right];
      apply re_match_size_iff; (split; [done|]); by exists n.
Qed.

Lemma size_line_without_digits_raises_witness :
  measure (fun _ => ToolOutput "Program: bytes") Demo.sha1_hexdigest
          Demo.results ["next"; "blink"; "mega"] Demo.mega
  = Raise ValueError.
Proof.
  apply (size_line_without_digits_raises
           (fun _ => ToolOutput "Program: bytes") Demo.sha1_hexdigest
           Demo.results ["next"; "blink"; "mega"] Demo.mega
           "Program: bytes" eq_refl eq_refl).
  - apply (bool_decide_unpack _). vm_compute. exact I.
  - apply Exists_cons_hd. exists 0%nat. by left.
Defined.

End Patterns.

(** ** The sizes that are stored *)

Lemma int_Ok text n : int text = Ok n -> n = int_digits text.
Proof. destruct text; simpl; [done|by intros [= <-]]. Qed.

Lemma scan_line_values b line b' :
  scan_line b line = Ok b' ->
  program_size b' = match re_match_size "Program:" line with
                    | Some g => Some (int_digits g)
                    | None => program_size b
                    end /\
  data_size b' = match re_match_size "Data:" line with
                 | Some g => Some (int_digits g)
                 | None => data_size b
                 end.
Proof.
  unfold scan_line.
  destruct (re_match_size "Program:" line) as [g|]; simpl.
  - destruct (int g) as [n|] eqn:E; simpl; [|done].
    apply int_Ok in E as ->.
    destruct (re_match_size "Data:" line) as [g'|]; simpl.
    + destruct (int g') as [n'|] eqn:E'; simpl; [|done].
      apply int_Ok in E' as ->. by intros [= <-].
    + by intros [= <-].
  - destruct (re_match_size "Data:" line) as [g'|]; simpl.
    + destruct (int g') as [n'|] eqn:E'; simpl; [|done].
      apply int_Ok in E' as ->. by intros [= <-].
    + by intros [= <-].
Qed.

Lemma scan_lines_no_match lines : forall b b',
  scan_lines b lines = Ok b' ->
  (Forall (fun l => re_match_size "Program:" l = None) lines ->
   program_size b' = program_size b) /\
  (Forall (fun l => re_match_size "Data:" l = None) lines ->
   data_size b' = data_size b).
Proof.
  induction lines as [|line lines IH]; simpl; intros b b'.
  - by intros [= <-].
  - destruct (scan_line b line) as [b1|] eqn:E; simpl; [|done].
    apply scan_line_values in E as [Ep Ed].
    intros [Hp Hd]%IH. split.
    + intros [Hl Hrest]%Forall_cons. rewrite Hp, Ep by done. by rewrite Hl.
    + intros [Hl Hrest]%Forall_cons. rewrite Hd, Ed by done. by rewrite Hl.
Qed.

Lemma scan_lines_last label pre line post b b' g :
  scan_lines b (pre ++ line :: post) = Ok b' ->
  re_match_size label line = Some g ->
  Forall (fun l => re_match_size label l = None) post ->
  (label = "Program:" -> program_size b' = Some (int_digits g)) /\
  (label = "Data:" -> data_size b' = Some (int_digits g)).
Proof.
  revert b. induction pre as [|l pre IH]; simpl; intros b.
  - destruct (scan_line b line) as [b1|] eqn:E; simpl; [|done].
    apply scan_line_values in E as [Ep Ed].
    intros [Hp Hd]%scan_lines_no_match Hg Hpost.
    split; intros ->; [rewrite Hp, Ep by done|rewrite Hd, Ed by done];
      by rewrite Hg.
  - destruct (scan_line b l) as [b1|]; simpl; [|done]. apply IH.
Qed.

(** X12. When several lines of the output of the tool match the pattern of a
    size, the last one is the one that counts: for a build with exit code 0
    the size that is stored is the number in the group of the last matching
    line. *)
Theorem last_matching_line_gives_the_size
    (avr_size : path -> tool_result) (sha1_hexdigest : string -> string)
    (root : dir) (location : path) (m : marker) (b : build)
    (out : string) (pre post : list string) (line g : string) :
  m_exit_code m = 0 ->
  avr_size (elffile location m) = ToolOutput out ->
  measure avr_size sha1_hexdigest root location m = Ok b ->
  splitlines out = pre ++ line :: post ->
  (re_match_size "Program:" line = Some g ->
   Forall (fun l => re_match_size "Program:" l = None) post ->
   program_size b = Some (int_digits g)) /\
  (re_match_size "Data:" line = Some g ->
   Forall (fun l => re_match_size "Data:" l = None) post ->
   data_size b = Some (int_digits g)).
Proof.
  intros Hexit Htool
    [(? & _)|[(_ & Hfail & _)|(_ & out' & bytes & p & d & Hout & _ & Hscan & ->)]]
    %measure_Ok Hlines; [done|congruence|].
  rewrite Htool in Hout. injection Hout as <-. rewrite Hlines in Hscan.
  simpl. split; intros Hg Hpost.
  - by apply (scan_lines_last "Program:" _ _ _ _ _ _ Hscan Hg Hpost).
  - by apply (scan_lines_last "Data:" _ _ _ _ _ _ Hscan Hg Hpost).
Qed.

Lemma last_matching_line_gives_the_size_witness :
  exists b,
    measure (fun _ => ToolOutput
               ("Program: 10 bytes" +:+ String LF "Program: 20 bytes"))
            Demo.sha1_hexdigest Demo.results
            ["next"; "blink"; "mega"] Demo.mega = Ok b /\
    program_size b = Some 20.
Proof.
  destruct (measure (fun _ => ToolOutput
              ("Program: 10 bytes" +:+ String LF "Program: 20 bytes"))
              Demo.sha1_hexdigest Demo.results
              ["next"; "blink"; "mega"] Demo.mega) as [b|] eqn:Hm;
    [|by vm_compute in Hm].
  exists b. split; [reflexivity|].
  exact (proj1 (last_matching_line_gives_the_size
                  (fun _ => ToolOutput
                     ("Program: 10 bytes" +:+ String LF "Program: 20 bytes"))
                  Demo.sha1_hexdigest Demo.results
                  ["next"; "blink"; "mega"] Demo.mega b
                  ("Program: 10 bytes" +:+ String LF "Program: 20 bytes")
                  ["Program: 10 bytes"] []
                  "Program: 20 bytes" "20" eq_refl eq_refl Hm eq_refl)
               eq_refl (Forall_nil_2 _)).
Defined.

Lemma int_digits_nonneg g : all_chars is_digit g = true -> 0 <= int_digits g.
Proof.
  unfold all_chars, int_digits.
  assert (forall l acc, 0 <= acc -> forallb is_digit l = true ->
            0 <= fold_left (fun n c => 10 * n + (Z.of_N (N_of_ascii c) - 48))
                           l acc) as H.
  { induction l as [|c l IH]; simpl; intros acc Hacc; [done|].
    intros [Hc Hl]%andb_true_iff. apply IH; [|done].
    unfold is_digit in Hc. apply andb_true_iff in Hc as [Hlo _].
    apply N.leb_le in Hlo. lia. }
  by apply H.
Qed.

Lemma scan_line_not_negative b line b' :
  scan_line b line = Ok b' -> sizes_not_negative b -> sizes_not_negative b'.
Proof.
  intros [Hp Hd]%scan_line_values [Hbp Hbd]. split.
  - intros p. rewrite Hp.
    destruct (re_match_size "Program:" line) as [g|] eqn:E; [|apply Hbp].
    intros [= <-]. apply int_digits_nonneg.
    by apply re_match_size_iff in E as [? _].
  - intros d. rewrite Hd.
    destruct (re_match_size "Data:" line) as [g|] eqn:E; [|apply Hbd].
    intros [= <-]. apply int_digits_nonneg.
    by apply re_match_size_iff in E as [? _].
Qed.

Lemma scan_lines_not_negative lines : forall b b',
  scan_lines b lines = Ok b' -> sizes_not_negative b -> sizes_not_negative b'.
Proof.
  induction lines as [|line lines IH]; simpl; intros b b'.
  - by intros [= <-].
  - destruct (scan_line b line) as [b1|] eqn:E; simpl; [|done].
    intros Hs Hb. eapply IH; [done|]. by eapply scan_line_not_negative.
Qed.

(** X13. No size in the dataset is negative: a program size or data size
    that a build has is the number read from a group of decimal digits. *)
Theorem sizes_in_the_dataset_are_not_negative
    (json_load : string -> option marker) (avr_size : path -> tool_result)
    (sha1_hexdigest : string -> string) (results_dir : dir)
    (data : dict) (buildsets : gset string) :
  create_report_data json_load avr_size sha1_hexdigest results_dir
    = Ok (data, buildsets) ->
  forall k b, (k, b) ∈ data ->
    (forall p, program_size b = Some p -> 0 <= p) /\
    (forall d, data_size b = Some d -> 0 <= d).
Proof.
  intros [_ Hc]%create_report_data_Ok.
  assert (Forall (fun kb : key * build => sizes_not_negative kb.2) data)
    as Hall.
  { apply (collect_inv avr_size sha1_hexdigest
             (fun d _ => Forall (fun kb : key * build =>
                                   sizes_not_negative kb.2) d)
             _ _) with (2:=Hc); [|constructor].
    intros location m b d bs _ Hm Hd. apply dict_set_Forall; [done|].
    simpl.
    apply measure_Ok in Hm
      as [(_ & ->)|[(_ & _ & ->)|(_ & out & bytes & p & ds & _ & _ & Hscan & ->)]];
      [by split|by split|].
    apply scan_lines_not_negative in Hscan; [|by split].
    destruct Hscan as [Hp Hd']. split; simpl in *; auto. }
  intros k b Hin. rewrite Forall_forall in Hall. apply (Hall (k, b) Hin).
Qed.

Lemma sizes_in_the_dataset_are_not_negative_witness :
  Demo.built = Ok (Demo.data, Demo.buildsets) /\
  program_size Demo.next_uno = Some 1200 /\ 0 <= 1200.
Proof.
  assert ((("next", "blink", "uno"), Demo.next_uno) ∈ Demo.data) as Hin
    by (vm_compute; right; left).
  split; [exact demo_built|]. split; [reflexivity|].
  exact (proj1 (sizes_in_the_dataset_are_not_negative
                  Demo.json_load Demo.avr_size Demo.sha1_hexdigest
                  Demo.results Demo.data Demo.buildsets demo_built
                  _ _ Hin) 1200 eq_refl).
Defined.

(** ** The order of the dict *)

Lemma dict_get_elem_NoDup (d : dict) k b :
  NoDup d.*1 -> (k, b) ∈ d -> dict_get d k = Some b.
Proof.
  intros Hnd Hin. destruct (dict_get d k) as [b'|] eqn:Hget.
  - f_equal. apply dict_get_Some_elem in Hget. by eapply NoDup_fst_eq.
  - apply dict_get_None in Hget. destruct Hget.
    apply list_elem_of_fmap. by exists (k, b).
Qed.

Lemma dict_get_Permutation (d1 d2 : dict) k :
  NoDup d1.*1 -> d1 ≡ₚ d2 -> dict_get d1 k = dict_get d2 k.
Proof.
  intros Hnd Hperm.
  assert (NoDup d2.*1) as Hnd2 by (by rewrite <- Hperm).
  destruct (dict_get d1 k) as [b|] eqn:H1.
  - apply dict_get_Some_elem in H1. rewrite Hperm in H1.
    symmetry. by apply dict_get_elem_NoDup.
  - destruct (dict_get d2 k) as [b|] eqn:H2; [|done].
    apply dict_get_Some_elem in H2. rewrite <- Hperm in H2.
    apply (dict_get_elem_NoDup _ _ _ Hnd) in H2. congruence.
Qed.

Lemma delta_body_ext d1 d2 base b :
  (forall k, dict_get d1 k = dict_get d2 k) ->
  delta_body d1 base b = delta_body d2 base b.
Proof. intros H. unfold delta_body. by rewrite H. Qed.

Lemma delta_map_ext d1 d2 base todo :
  (forall k, dict_get d1 k = dict_get d2 k) ->
  delta_map d1 base todo = delta_map d2 base todo.
Proof.
  intros H. induction todo as [|[k b] todo IH]; simpl; [done|].
  by rewrite (delta_body_ext d1 d2), IH.
Qed.

Lemma delta_map_Permutation data base todo todo' :
  todo ≡ₚ todo' ->
  forall l w,
    delta_map data base todo = Ok (l, w) ->
    exists l' w',
      delta_map data base todo' = Ok (l', w') /\ l' ≡ₚ l /\ w' ≡ₚ w.
Proof.
  induction 1 as [|[k b] t t' _ IH|[k1 b1] [k2 b2] t|t t' t'' _ IH1 _ IH2];
    intros l w; simpl.
  - intros [= <- <-]. by exists [], [].
  - destruct (delta_body data base (mark base b)) as [[b' w0]|]; simpl;
      [|done].
    destruct (delta_map data base t) as [[l0 ws]|]; simpl; [|done].
    intros [= <- <-]. destruct (IH _ _ eq_refl) as (l' & w' & -> & Hl & Hw).
    simpl. eexists _, _. split; [done|]. by rewrite Hl, Hw.
  - destruct (delta_body data base (mark base b2)) as [[b2' w2]|]; simpl;
      [|done].
    destruct (delta_body data base (mark base b1)) as [[b1' w1]|]; simpl;
      [|done].
    destruct (delta_map data base t) as [[l0 ws]|]; simpl; [|done].
    intros [= <- <-]. eexists _, _. split; [done|]. split; [apply perm_swap|].
    rewrite !(assoc_L (++)). by rewrite (comm (++) w1 w2).
  - intros H. destruct (IH1 _ _ H) as (l1 & w1 & H1 & Hl1 & Hw1).
    destruct (IH2 _ _ H1) as (l2 & w2 & H2 & Hl2 & Hw2).
    exists l2, w2. split; [done|]. split; by etrans.
Qed.

(** X14. The order of the dict does not matter to [add_delta_info]: on a
    dict with the same items in another order it returns as well, with the
    same annotated builds and the same warnings up to their order, and the
    rows of the report are the same. *)
Theorem add_delta_info_order_independent (data1 data2 : dict) (base : string)
    (annotated1 : dict) (stderr1 : list string) :
  NoDup data1.*1 ->
  data2 ≡ₚ data1 ->
  add_delta_info data1 base = Ok (annotated1, stderr1) ->
  exists annotated2 stderr2,
    add_delta_info data2 base = Ok (annotated2, stderr2) /\
    annotated2 ≡ₚ annotated1 /\
    stderr2 ≡ₚ stderr1 /\
    forall base_set,
      report_rows annotated2 base_set = report_rows annotated1 base_set.
Proof.
  intros Hnd Hperm Hrun.
  pose proof (add_delta_info_keys _ _ _ _ Hrun) as Hkeys.
  rewrite add_delta_info_map in Hrun.
  destruct (delta_map_Permutation data1 base data1 data2 (symmetry Hperm)
              _ _ Hrun) as (l2 & w2 & Hrun2 & Hl & Hw).
  rewrite (delta_map_ext data1 data2) in Hrun2
    by (intros k; by apply dict_get_Permutation).
  exists l2, w2. rewrite add_delta_info_map. split_and!; try done.
  intros base_set. unfold report_rows.
  rewrite (sorted_order_independent annotated1 l2); [done| |done].
  by rewrite Hkeys.
Qed.

Lemma add_delta_info_order_independent_witness :
  NoDup Demo.data.*1 /\
  reverse Demo.data ≡ₚ Demo.data /\
  exists annotated1 stderr1 annotated2 stderr2,
    add_delta_info Demo.data "base" = Ok (annotated1, stderr1) /\
    add_delta_info (reverse Demo.data) "base" = Ok (annotated2, stderr2) /\
    report_rows annotated2 (Some "base") = report_rows annotated1 (Some "base").
Proof.
  assert (NoDup Demo.data.*1) as Hnd by apply demo_dataset.
  assert (reverse Demo.data ≡ₚ Demo.data) as Hperm by apply reverse_Permutation.
  split; [exact Hnd|]. split; [exact Hperm|].
  destruct (add_delta_info Demo.data "base") as [[a1 w1]|] eqn:Hrun;
    [|by vm_compute in Hrun].
  destruct (add_delta_info_order_independent
              Demo.data (reverse Demo.data) "base" a1 w1 Hnd Hperm Hrun)
    as (a2 & w2 & Hrun2 & _ & _ & Hrows).
  exists a1, w1, a2, w2. split; [reflexivity|]. split; [exact Hrun2|].
  apply Hrows.
Defined.

(** ** The report as a whole *)

Section Whole.

Variable json_load : string -> option marker.
Variable avr_size : path -> tool_result.
Variable sha1_hexdigest : string -> string.

Lemma walk_builds_nothing d : forall dirname,
  (forall q, ~ top_marker d q) ->
  walk_builds json_load d dirname = ([], None).
Proof.
  induction d as [files subdirs IH] using dir_ind_nested.
  intros dirname Hno. rewrite walk_builds_unfold.
  destruct (assoc "build.json" files) as [text|] eqn:Efile.
  - destruct (Hno []). constructor. unfold has_marker. simpl.
    rewrite Efile. by exists text.
  - assert (~ has_marker (Dir files subdirs)) as Hfree.
    { unfold has_marker. simpl. rewrite Efile. by intros [? [=]]. }
    assert (forall name d' q, (name, d') ∈ subdirs -> ~ top_marker d' q)
      as Hbelow.
    { intros name d' q Hin Hq. apply (Hno (name :: q)).
      by apply top_marker_below with d'. }
    clear Hno Efile Hfree.
    induction IH as [|[name d'] l Hd _ IHl]; simpl; [done|].
    rewrite Hd by (intros q; apply (Hbelow name); left).
    rewrite IHl by (intros name' d'' q Hin; apply (Hbelow name'); by right).
    done.
Qed.

Lemma collect_not_empty root builds data bs data' bs' :
  collect avr_size sha1_hexdigest root builds data bs = Ok (data', bs') ->
  builds <> [] -> data' <> [].
Proof.
  intros Hc Hne.
  destruct (exists_last Hne) as (pre & [location m] & ->).
  apply collect_last in Hc as (b & _ & Hget); [|by intros ?%elem_of_nil].
  intros ->. done.
Qed.

Lemma add_delta_info_same_scan data base data' stderr :
  add_delta_info data base = Ok (data', stderr) -> same_scan data data'.
Proof.
  intros H%add_delta_info_Forall2. unfold same_scan.
  eapply Forall2_impl; [exact H|].
  intros [k b] [k' b'] (Hk & w & Hbody & _). simpl in *. split; [done|].
  apply delta_body_scanned in Hbody as [-> _]. by rewrite as_scanned_mark.
Qed.

Lemma report_Ok_scan root base_set rows stderr :
  report json_load avr_size sha1_hexdigest root base_set = Ok (rows, stderr) ->
  exists data buildsets data',
    create_report_data json_load avr_size sha1_hexdigest root
      = Ok (data, buildsets) /\
    same_scan data data' /\
    rows = report_rows data' (choose_base_set buildsets base_set).
Proof.
  unfold report.
  destruct (create_report_data _ _ _ _) as [[data buildsets]|] eqn:Hd;
    simpl; [|done].
  intros Hrows. exists data, buildsets.
  destruct (choose_base_set buildsets base_set) as [[|c base]|] eqn:Hc;
    simpl in Hrows.
  - injection Hrows as <- <-. exists data. by split; [|split; [apply same_scan_refl|]].
  - destruct (add_delta_info data (String c base)) as [[data' err]|] eqn:Hrun;
      simpl in Hrows; [|done].
    injection Hrows as <- <-. exists data'.
    split_and!; [done|by eapply add_delta_info_same_scan|done].
  - injection Hrows as <- <-. exists data. by split; [|split; [apply same_scan_refl|]].
Qed.

Lemma build_report_row_cells b base_set :
  let r := build_report_row (build_get b) base_set in
  length r = length (build_report_row headers_get base_set) /\
  r !! 3%nat = Some (default (VStr "") (VStr <$> status b)) /\
  r !! 4%nat = Some (default (VStr "") (VInt <$> program_size b)) /\
  r !! 5%nat = Some (default (VStr "") (VInt <$> data_size b)).
Proof. unfold build_report_row. by destruct (truthy base_set). Qed.

(** X15. A results directory in which no directory with [build.json] can be
    reached gives a report of the header row alone, with nothing written to
    stderr; and when such a directory can be reached, a report that is
    written has a row below the header. *)
Theorem report_is_the_header_iff_no_build (root : dir)
    (base_set : option string) :
  ((forall p, ~ top_marker root p) ->
   report json_load avr_size sha1_hexdigest root base_set
   = Ok ([build_report_row headers_get base_set], [])) /\
  (forall rows stderr p,
     top_marker root p ->
     report json_load avr_size sha1_hexdigest root base_set
       = Ok (rows, stderr) ->
     (2 <= length rows)%nat).
Proof.
  split.
  - intros Hno. unfold report, create_report_data, find_builds.
    rewrite walk_builds_nothing by done. simpl.
    by destruct base_set as [[|? ?]|].
  - intros rows stderr p Hp (data & bs & data' & Hd & Hsame & ->)%report_Ok_scan.
    unfold report_rows. simpl. rewrite length_map, sorted_Permutation.
    rewrite <- (Forall2_length _ _ _ Hsame).
    unfold create_report_data, find_builds in Hd.
    destruct (walk_builds json_load root []) as [builds stop] eqn:Hwalk.
    destruct (collect _ _ _ _ _ _) as [[d0 b0]|] eqn:Hc; simpl in Hd; [|done].
    destruct stop; [done|]. injection Hd as -> ->.
    assert (builds <> []) as Hne.
    { pose proof (walk_builds_complete json_load root [] p) as Hin.
      rewrite Hwalk in Hin. specialize (Hin eq_refl Hp).
      intros ->. by apply elem_of_nil in Hin. }
    pose proof (collect_not_empty _ _ _ _ _ _ Hc Hne).
    destruct data; [done|simpl; lia].
Qed.

(** X16. In a report that is written, every row below the header has as
    many cells as the header (6, or 10 with the columns of the deltas); its
    fourth cell is one of the three statuses, and when that is not [OK] the
    cells of the program size and of the data size are empty. *)
Theorem report_rows_show_status_and_sizes (root : dir)
    (base_set : option string) (rows : list row) (stderr : list string) :
  report json_load avr_size sha1_hexdigest root base_set = Ok (rows, stderr) ->
  exists header body,
    rows = header :: body /\
    (length header = 6 \/ length header = 10)%nat /\
    forall r, r ∈ body ->
      length r = length header /\
      exists st,
        r !! 3%nat = Some (VStr st) /\
        (st = "OK" \/ st = "Failed to compile" \/
         st = "Failed to get size") /\
        (st <> "OK" ->
         r !! 4%nat = Some (VStr "") /\ r !! 5%nat = Some (VStr "")).
Proof.
  intros (data & bs & data' & Hd & Hsame & ->)%report_Ok_scan.
  eexists _, _. split; [reflexivity|]. split.
  { unfold build_report_row. destruct (truthy _); [by right|by left]. }
  intros r ([k b'] & -> & Hin)%list_elem_of_fmap. simpl.
  rewrite sorted_Permutation in Hin.
  apply list_elem_of_lookup in Hin as [i Hi].
  destruct (Forall2_lookup_r _ _ _ _ _ Hsame Hi)
    as ([k0 b] & Hi0 & _ & Hscan). simpl in Hscan.
  apply as_scanned_fields in Hscan as (Hst & _ & Hps & Hds & _).
  assert ((k0, b) ∈ data) as Hin0 by (by eapply list_elem_of_lookup_2).
  destruct (create_report_data_status _ _ _ _ _ _ Hd _ _ Hin0)
    as (Hcases & _ & _).
  pose proof (dataset_scanned _ _ _
                (create_report_data_dataset _ _ _ _ _ _ Hd) Hin0) as Hsc.
  destruct (build_report_row_cells b' (choose_base_set bs base_set))
    as (Hlen & H3 & H4 & H5).
  split; [done|].
  rewrite <- Hst in H3. rewrite <- Hps in H4. rewrite <- Hds in H5.
  assert (forall st, status b = Some st -> st <> "OK" ->
            program_size b = None /\ data_size b = None) as Hnone.
  { intros st Hs Hne.
    destruct (program_size b) as [n|] eqn:Ep.
    { destruct Hne. pose proof (scanned_program_size _ Hsc (ex_intro _ n Ep)) as Hok.
      unfold is_ok in Hok. congruence. }
    destruct (data_size b) as [n|] eqn:Ed; [|done].
    destruct Hne. pose proof (scanned_data_size _ Hsc (ex_intro _ n Ed)) as Hok.
    unfold is_ok in Hok. congruence. }
  destruct Hcases as [Hs|[Hs|Hs]]; rewrite Hs in H3; simpl in H3;
    eexists; (split; [exact H3|]); (split; [tauto|]); intros Hne;
    destruct (Hnone _ Hs Hne) as [Hp Hz]; rewrite Hp in H4; rewrite Hz in H5;
    done.
Qed.

End Whole.

Lemma report_is_the_header_iff_no_build_witness :
  report Demo.json_load Demo.avr_size Demo.sha1_hexdigest
         (Dir [("README", "")] [("next", Dir [] [])]) None
  = Ok ([build_report_row headers_get None], []) /\
  exists rows stderr,
    report Demo.json_load Demo.avr_size Demo.sha1_hexdigest Demo.results None
    = Ok (rows, stderr) /\
    (2 <= length rows)%nat.
Proof.
  split.
  - apply (proj1 (report_is_the_header_iff_no_build
                    Demo.json_load Demo.avr_size Demo.sha1_hexdigest
                    (Dir [("README", "")] [("next", Dir [] [])]) None)).
    intros p Hp. inversion Hp as [d Hm|files subdirs name d' q _ Hin Hq]; subst.
    + destruct Hm as [? Hm]. discriminate Hm.
    + apply list_elem_of_singleton in Hin. injection Hin as -> ->.
      inversion Hq as [d Hm|files subdirs name d' q' _ Hin' _]; subst.
      * destruct Hm as [? Hm]. discriminate Hm.
      * by apply elem_of_nil in Hin'.
  - destruct (report Demo.json_load Demo.avr_size Demo.sha1_hexdigest
                     Demo.results None) as [[rows stderr]|] eqn:Hrun;
      [|by vm_compute in Hrun].
    exists rows, stderr. split; [reflexivity|].
    apply (proj2 (report_is_the_header_iff_no_build
                    Demo.json_load Demo.avr_size Demo.sha1_hexdigest
                    Demo.results None)
             rows stderr ["base"; "blink"; "uno"]); [|exact Hrun].
    eapply top_marker_below; [by intros [? [=]]|right; left|].
    eapply top_marker_below; [by intros [? [=]]|left|].
    eapply top_marker_below; [by intros [? [=]]|left|].
    constructor. by eexists.
Defined.

Lemma report_rows_show_status_and_sizes_witness :
  exists rows stderr header body,
    report Demo.json_load Demo.avr_size Demo.sha1_hexdigest Demo.results None
    = Ok (rows, stderr) /\
    rows = header :: body /\
    forall r, r ∈ body -> length r = length header.
Proof.
  destruct (report Demo.json_load Demo.avr_size Demo.sha1_hexdigest
                   Demo.results None) as [[rows stderr]|] eqn:Hrun;
    [|by vm_compute in Hrun].
  destruct (report_rows_show_status_and_sizes
              Demo.json_load Demo.avr_size Demo.sha1_hexdigest
              Demo.results None rows stderr Hrun)
    as (header & body & Hrows & _ & Hbody).
  exists rows, stderr, header, body. split; [reflexivity|].
  split; [exact Hrows|]. intros r Hr. exact (proj1 (Hbody r Hr)).
Defined.

(** * The command build: properties *)

(** ** The file system *)

Lemma assoc_set_assoc_eq {A} n (a : A) l : assoc n (set_assoc n a l) = Some a.
Proof.
  induction l as [|[n' b] l IH]; simpl.
  - by rewrite decide_True.
  - destruct (decide (n' = n)) as [->|Hne]; simpl.
    + by rewrite decide_True.
    + by rewrite decide_False.
Qed.

Lemma assoc_set_assoc_ne {A} n n' (a : A) l :
  n' <> n -> assoc n' (set_assoc n a l) = assoc n' l.
Proof.
  intros Hne. induction l as [|[n0 b] l IH]; simpl.
  - by rewrite decide_False.
  - destruct (decide (n0 = n)) as [->|Hne0]; simpl.
    + by rewrite !decide_False.
    + by rewrite IH.
Qed.

Lemma assoc_del_assoc_eq {A} n (l : list (string * A)) :
  assoc n (del_assoc n l) = None.
Proof.
  unfold del_assoc. induction l as [|[n' b] l IH]; simpl; [done|].
  rewrite filter_cons. simpl. destruct (decide (n' <> n)) as [Hne|Heq]; simpl.
  - by rewrite decide_False.
  - done.
Qed.

Lemma assoc_del_assoc_ne {A} n n' (l : list (string * A)) :
  n' <> n -> assoc n' (del_assoc n l) = assoc n' l.
Proof.
  intros Hne. unfold del_assoc. induction l as [|[n0 b] l IH]; simpl; [done|].
  rewrite filter_cons. simpl. destruct (decide (n0 <> n)) as [Hne0|Heq]; simpl.
  - by rewrite IH.
  - apply dec_stable in Heq as ->. by rewrite decide_False.
Qed.

Lemma assoc_snoc_eq {A} n (a : A) l :
  assoc n l = None -> assoc n (l ++ [(n, a)]) = Some a.
Proof.
  induction l as [|[n' b] l IH]; simpl.
  - by rewrite decide_True.
  - destruct (decide (n' = n)); [done|auto].
Qed.

Lemma assoc_snoc_ne {A} n n' (a : A) l :
  n' <> n -> assoc n' (l ++ [(n, a)]) = assoc n' l.
Proof.
  intros Hne. induction l as [|[n0 b] l IH]; simpl.
  - by rewrite decide_False.
  - by rewrite IH.
Qed.

Lemma assoc_elem {A} n (a : A) l : assoc n l = Some a -> (n, a) ∈ l.
Proof.
  induction l as [|[n' b] l IH]; simpl; [done|].
  destruct (decide (n' = n)) as [->|Hne].
  - intros [= ->]. left.
  - intros H. right. auto.
Qed.

Lemma read_file_nil d : read_file d [] = None.
Proof. by destruct d. Qed.

Lemma read_file_one d n : read_file d [n] = assoc n (dir_files d).
Proof. by destruct d. Qed.

Lemma read_file_cons d n n' p :
  read_file d (n :: n' :: p) =
  match assoc n (dir_subdirs d) with
  | Some d' => read_file d' (n' :: p)
  | None => None
  end.
Proof.
  destruct d as [files subdirs]. simpl.
  induction subdirs as [|[n0 d0] l IH]; [done|].
  simpl. by destruct (decide (n0 = n)).
Qed.

Lemma read_file_app d p n :
  read_file d (p ++ [n]) =
  match lookup_dir d p with
  | Some dp => assoc n (dir_files dp)
  | None => None
  end.
Proof.
  revert d. induction p as [|n0 p IH]; intros d; [by destruct d|].
  change ((n0 :: p) ++ [n]) with (n0 :: (p ++ [n])).
  destruct (p ++ [n]) as [|n1 q] eqn:E; [by destruct p|].
  rewrite read_file_cons. simpl.
  destruct (assoc n0 (dir_subdirs d)) as [d'|]; [|done].
  apply IH.
Qed.

Lemma lookup_dir_app d p q :
  lookup_dir d (p ++ q) =
  match lookup_dir d p with
  | Some d' => lookup_dir d' q
  | None => None
  end.
Proof.
  revert d. induction p as [|n p IH]; intros d; simpl; [done|].
  by destruct (assoc n (dir_subdirs d)).
Qed.

Lemma exists_at_below d p n :
  exists_at d (p ++ [n]) = true -> is_Some (lookup_dir d p).
Proof.
  unfold exists_at. rewrite lookup_dir_app, read_file_app.
  destruct (lookup_dir d p); [by eexists|done].
Qed.

Lemma exists_at_file d p n dp text :
  lookup_dir d p = Some dp -> assoc n (dir_files dp) = Some text ->
  exists_at d (p ++ [n]) = true.
Proof.
  intros Hp Hn. unfold exists_at. rewrite read_file_app, Hp, Hn.
  rewrite (bool_decide_eq_true_2 (is_Some (Some text))) by by eexists.
  apply orb_true_r.
Qed.

Lemma put_cons d n n' p o :
  put d (n :: n' :: p) o =
  match assoc n (dir_subdirs d) with
  | Some d' => Dir (dir_files d) (set_assoc n (put d' (n' :: p) o) (dir_subdirs d))
  | None => d
  end.
Proof. done. Qed.

Lemma lookup_dir_put_Some d p x :
  is_Some (lookup_dir d p) -> lookup_dir (put d p (Some x)) p = Some x.
Proof.
  revert d. induction p as [|n p IH]; intros d; [done|].
  destruct p as [|n' p].
  - intros _. simpl. by rewrite assoc_set_assoc_eq.
  - rewrite put_cons. simpl lookup_dir at 1.
    destruct (assoc n (dir_subdirs d)) as [d'|] eqn:E; [|by intros [? [=]]].
    intros Hd'. change (lookup_dir (Dir ?f ?s) (n :: ?q))
      with (match assoc n s with Some d0 => lookup_dir d0 q | None => None end).
    rewrite assoc_set_assoc_eq. by apply IH.
Qed.

Lemma lookup_dir_put_None d p : p <> [] -> lookup_dir (put d p None) p = None.
Proof.
  revert d. induction p as [|n p IH]; intros d Hne; [done|].
  destruct p as [|n' p].
  - simpl. by rewrite assoc_del_assoc_eq.
  - rewrite put_cons.
    destruct (assoc n (dir_subdirs d)) as [d'|] eqn:E.
    + change (lookup_dir (Dir ?f ?s) (n :: ?q))
        with (match assoc n s with Some d0 => lookup_dir d0 q | None => None end).
      rewrite assoc_set_assoc_eq. by apply IH.
    + change (lookup_dir d (n :: ?q))
        with (match assoc n (dir_subdirs d) with
              | Some d0 => lookup_dir d0 q | None => None end).
      by rewrite E.
Qed.

(** What is not inside [p] is as it was. *)
Lemma read_file_put d p o : forall q,
  ~ inside p q -> read_file (put d p o) q = read_file d q.
Proof.
  revert d. induction p as [|n p IH]; intros d q Hq.
  { destruct q as [|m q]; [by rewrite !read_file_nil|].
    destruct Hq. by exists m, q. }
  destruct q as [|m q]; [by rewrite !read_file_nil|].
  destruct q as [|m' q].
  { rewrite !read_file_one. destruct p; [reflexivity|].
    rewrite put_cons. by destruct (assoc n (dir_subdirs d)). }
  rewrite !read_file_cons.
  destruct p as [|n' p].
  - assert (m <> n) as Hne.
    { intros ->. apply Hq. by exists m', q. }
    simpl put. simpl dir_subdirs.
    destruct o; by rewrite ?assoc_set_assoc_ne, ?assoc_del_assoc_ne.
  - rewrite put_cons.
    destruct (assoc n (dir_subdirs d)) as [d'|] eqn:E; [|done].
    simpl dir_subdirs.
    destruct (decide (m = n)) as [->|Hne].
    + rewrite assoc_set_assoc_eq, E. apply IH.
      intros (x & r & Hx). apply Hq. exists x, r. simpl. by rewrite Hx.
    + by rewrite assoc_set_assoc_ne.
Qed.

Lemma read_file_fresh p q : read_file (fresh p) q = None.
Proof.
  revert q. induction p as [|n p IH]; intros q.
  - destruct q as [|m [|m' q]];
      [by rewrite read_file_nil|by rewrite read_file_one|].
    by rewrite read_file_cons.
  - destruct q as [|m [|m' q]];
      [by rewrite read_file_nil|by rewrite read_file_one|].
    rewrite read_file_cons. simpl.
    destruct (decide (n = m)); [apply IH|done].
Qed.

Lemma lookup_dir_fresh p q : lookup_dir (fresh (p ++ q)) p = Some (fresh q).
Proof.
  induction p as [|n p IH]; [done|]. simpl. by rewrite decide_True.
Qed.

(** [mkdir] makes directories and touches no file. *)
Lemma read_file_mkdir_parents_at p : forall d d' q,
  mkdir_parents_at d p = Some d' -> read_file d' q = read_file d q.
Proof.
  induction p as [|n p IH]; intros d d' q; [done|]. simpl.
  destruct (assoc n (dir_files d)); [done|].
  destruct (assoc n (dir_subdirs d)) as [d0|] eqn:E.
  - destruct (mkdir_parents_at d0 p) as [d1|] eqn:E1; [|done].
    intros [= <-]. destruct q as [|m [|m' q]];
      [by rewrite !read_file_nil|by rewrite !read_file_one|].
    rewrite !read_file_cons. simpl dir_subdirs.
    destruct (decide (m = n)) as [->|Hne].
    + rewrite assoc_set_assoc_eq, E. by apply IH.
    + by rewrite assoc_set_assoc_ne.
  - intros [= <-]. destruct q as [|m [|m' q]];
      [by rewrite !read_file_nil|by rewrite !read_file_one|].
    rewrite !read_file_cons. simpl dir_subdirs.
    destruct (decide (m = n)) as [->|Hne].
    + rewrite assoc_snoc_eq, E by done. apply read_file_fresh.
    + by rewrite assoc_snoc_ne.
Qed.

Lemma lookup_dir_mkdir_parents_at p q : forall d d',
  mkdir_parents_at d (p ++ q) = Some d' ->
  lookup_dir d p = None ->
  lookup_dir d' p = Some (fresh q).
Proof.
  induction p as [|n p IH]; intros d d'; [done|]. simpl.
  destruct (assoc n (dir_files d)); [done|].
  destruct (assoc n (dir_subdirs d)) as [d0|] eqn:E.
  - destruct (mkdir_parents_at d0 (p ++ q)) as [d1|] eqn:E1; [|done].
    intros [= <-] Hnone. simpl. rewrite assoc_set_assoc_eq. by eapply IH.
  - intros [= <-] _. simpl. rewrite assoc_snoc_eq by done.
    apply lookup_dir_fresh.
Qed.

Lemma write_file_at_app d p n content :
  write_file_at d (p ++ [n]) content =
  match lookup_dir d p with
  | Some dp =>
      match assoc n (dir_subdirs dp) with
      | Some _ => None
      | None => Some (put d p (Some (set_file n content dp)))
      end
  | None => None
  end.
Proof.
  unfold write_file_at.
  pose proof (removelast_last p n) as H1. assert (last (p ++ [n]) = Some n) as H2 by apply last_snoc.
  destruct (p ++ [n]) as [|s l] eqn:E; [by destruct p|].
  by rewrite H1, H2.
Qed.

Lemma rmtree_at_Some d p d' :
  rmtree_at d p = Some d' -> p <> [] /\ d' = put d p None.
Proof.
  unfold rmtree_at. destruct p; [done|].
  destruct (lookup_dir d _); [|done]. by intros [= <-].
Qed.

Lemma set_assoc_same {A} n (a : A) l : assoc n l = Some a -> set_assoc n a l = l.
Proof.
  induction l as [|[n' b] l IH]; simpl; [done|].
  destruct (decide (n' = n)) as [->|Hne]; [by intros [= ->]|].
  intros H. by rewrite IH.
Qed.

Lemma put_app d p q o :
  q <> [] ->
  put d (p ++ q) o =
  match lookup_dir d p with
  | Some dp => put d p (Some (put dp q o))
  | None => d
  end.
Proof.
  intros Hq. revert d. induction p as [|n p IH]; intros d; [done|].
  change ((n :: p) ++ q) with (n :: (p ++ q)).
  destruct (p ++ q) as [|n' pq] eqn:E; [by destruct p, q|].
  rewrite put_cons. simpl lookup_dir.
  destruct (assoc n (dir_subdirs d)) as [d'|] eqn:En; [|done].
  rewrite IH.
  destruct (lookup_dir d' p) as [dp|] eqn:Ep.
  - destruct p as [|n1 p]; [done|]. by rewrite put_cons, En.
  - rewrite set_assoc_same by done. by destruct d.
Qed.

(** ** The steps of [do_compile] *)

Lemma lookup_dir_write_file_at d p n content d' :
  write_file_at d (p ++ [n]) content = Some d' ->
  exists dp,
    lookup_dir d p = Some dp /\ assoc n (dir_subdirs dp) = None /\
    d' = put d p (Some (set_file n content dp)) /\
    lookup_dir d' p = Some (set_file n content dp).
Proof.
  rewrite write_file_at_app.
  destruct (lookup_dir d p) as [dp|] eqn:Ep; [|done].
  destruct (assoc n (dir_subdirs dp)) eqn:En; [done|].
  intros [= <-]. exists dp. split_and!; [done..|].
  apply lookup_dir_put_Some. rewrite Ep. by eexists.
Qed.

Lemma lookup_dir_put_below d p n x dp :
  lookup_dir d p = Some dp ->
  lookup_dir (put d (p ++ [n]) (Some x)) p
  = Some (Dir (dir_files dp) (set_assoc n x (dir_subdirs dp))).
Proof.
  intros Hp. rewrite put_app, Hp by done.
  apply lookup_dir_put_Some. rewrite Hp. by eexists.
Qed.

Section Compile.

Variable results_abs : path -> string.
Variable sketch_abs : path -> string.
Variable arduino : command -> dir -> option (dir * string * Z).
Variable json_dump : marker -> string.

Lemma exists_at_false d p :
  exists_at d p = false -> lookup_dir d p = None /\ read_file d p = None.
Proof.
  unfold exists_at. intros [H1 H2]%orb_false_elim.
  apply bool_decide_eq_false in H1, H2.
  destruct (lookup_dir d p); [destruct H1; by eexists|].
  destruct (read_file d p); [destruct H2; by eexists|done].
Qed.

Lemma exists_at_unmarked d p n :
  lookup_dir d p = None -> exists_at d (p ++ [n]) = false.
Proof.
  intros Hp. destruct (exists_at d (p ++ [n])) eqn:E; [|done].
  apply exists_at_below in E as [? E]. congruence.
Qed.

Lemma say_fs opts text w : w_fs (say opts text w).1 = w_fs w.
Proof. unfold say. by destruct (decide _). Qed.

Lemma say_Ok opts text w : (say opts text w).2 = Ok tt.
Proof. unfold say. by destruct (decide _). Qed.

Lemma clear_or_skip_cases opts p shown w w1 r :
  p <> [] ->
  clear_or_skip opts p (p ++ ["build.json"]) shown w = (w1, r) ->
  (r = Ok true /\ w_fs w1 = w_fs w /\
   exists_at (w_fs w) (p ++ ["build.json"]) = true /\ opt_force opts = false)
  \/ (r = Ok false /\ lookup_dir (w_fs w1) p = None /\
      (exists_at (w_fs w) (p ++ ["build.json"]) = false \/
       opt_force opts = true) /\
      (w_fs w1 = w_fs w \/ w_fs w1 = put (w_fs w) p None))
  \/ (r = Raise OSError /\ w_fs w1 = w_fs w /\
      exists_at (w_fs w) (p ++ ["build.json"]) = false).
Proof.
  intros Hp. unfold clear_or_skip, path_exists, rmtree, fs_step.
  unfold mbind, io_bind, mret, io_ret. simpl.
  destruct (exists_at (w_fs w) p) eqn:Ethere.
  2:{ intros [= <- <-]. right. left.
      apply exists_at_false in Ethere as [Hd _].
      split_and!; [done|done| |by left].
      left. by apply exists_at_unmarked. }
  destruct (exists_at (w_fs w) (p ++ ["build.json"])) eqn:Emarked; simpl.
  - destruct (opt_force opts) eqn:Eforce.
    + pose proof (say_fs opts (shown +:+ " already exists, removing" +:+ nl) w) as Hfs.
      pose proof (say_Ok opts (shown +:+ " already exists, removing" +:+ nl) w) as Hok.
      destruct (say opts _ w) as [w0 r0]. simpl in *. subst r0.
      destruct (rmtree_at (w_fs w0) p) as [d'|] eqn:Erm.
      * intros [= <- <-]. right. left. simpl.
        apply rmtree_at_Some in Erm as [Hne ->].
        split_and!; [done|by apply lookup_dir_put_None|by right|].
        right. by rewrite Hfs.
      * apply exists_at_below in Emarked as [dp Hdp].
        unfold rmtree_at in Erm. destruct p; [done|].
        by rewrite Hfs, Hdp in Erm.
    + pose proof (say_fs opts (shown +:+ " already exists, skipping" +:+ nl) w) as Hfs.
      pose proof (say_Ok opts (shown +:+ " already exists, skipping" +:+ nl) w) as Hok.
      destruct (say opts _ w) as [w0 r0]. simpl in *. subst r0.
      intros [= <- <-]. by left.
  - pose proof (say_fs opts (shown +:+ " looks interrupted, removing" +:+ nl) w) as Hfs.
    pose proof (say_Ok opts (shown +:+ " looks interrupted, removing" +:+ nl) w) as Hok.
    destruct (say opts _ w) as [w0 r0]. simpl in *. subst r0.
    destruct (rmtree_at (w_fs w0) p) as [d'|] eqn:Erm.
    + intros [= <- <-]. right. left. simpl.
      apply rmtree_at_Some in Erm as [Hne ->].
      split_and!; [done|by apply lookup_dir_put_None|by left|].
      right. by rewrite Hfs.
    + intros [= <- <-]. right. right. by rewrite Hfs.
Qed.

Lemma frame_refl p d : frame p d d.
Proof. by intros q _. Qed.

Lemma frame_trans p d1 d2 d3 : frame p d1 d2 -> frame p d2 d3 -> frame p d1 d3.
Proof. intros H1 H2 q Hq. by rewrite H2, H1. Qed.

Lemma frame_put p d o : frame p d (put d p o).
Proof. intros q Hq. by apply read_file_put. Qed.

Lemma frame_put_below p q d o : q <> [] -> frame p d (put d (p ++ q) o).
Proof.
  intros Hne q' Hq. apply read_file_put. intros (n & r & ->). apply Hq.
  destruct q as [|m q]; [done|]. exists m, (q ++ n :: r).
  by rewrite <- !assoc_L by apply _.
Qed.

Lemma frame_mkdir_parents_at p q d d' :
  mkdir_parents_at d q = Some d' -> frame p d d'.
Proof. intros H q' _. by eapply read_file_mkdir_parents_at. Qed.

Lemma bind_say {A} opts text (k : io A) w :
  (say opts text;; k) w = k (say opts text w).1.
Proof.
  unfold mbind, io_bind. pose proof (say_Ok opts text w) as Hok.
  destruct (say opts text w) as [w0 r0]. simpl in *. by subst r0.
Qed.

Lemma bind_fs_step {A} f (k : io A) w :
  (fs_step f;; k) w =
  match f (w_fs w) with
  | Some d => k {| w_fs := d; w_stdout := w_stdout w |}
  | None => (w, Raise OSError)
  end.
Proof. unfold mbind, io_bind, fs_step. by destruct (f (w_fs w)). Qed.

Lemma fs_step_eq f w :
  fs_step f w =
  match f (w_fs w) with
  | Some d => ({| w_fs := d; w_stdout := w_stdout w |}, Ok tt)
  | None => (w, Raise OSError)
  end.
Proof. done. Qed.

Lemma unmarked_fresh d p files subdirs :
  lookup_dir d p = Some (Dir files subdirs) ->
  assoc "build.json" files = None -> assoc "build.json" subdirs = None ->
  exists_at d (p ++ ["build.json"]) = false.
Proof.
  intros Hp Hf Hs. unfold exists_at.
  rewrite lookup_dir_app, read_file_app, Hp. simpl. rewrite Hf, Hs.
  apply orb_false_intro; apply bool_decide_eq_false; by intros [? [=]].
Qed.

(** What follows the [if] of [do_compile], from a state in which nothing
    is at the directory [p] of the results. *)
Lemma compile_cases opts p cmd text w1 w' r :
  build_path cmd = p ++ ["build"] ->
  lookup_dir (w_fs w1) p = None ->
  (mkdir_parents (p ++ ["build"]);;
   res ← run_command results_abs sketch_abs arduino opts cmd
                     (p ++ ["build.log"]);
   write_file (p ++ ["build.json"]) (text res)) w1 = (w', r) ->
  frame p (w_fs w1) (w_fs w') /\
  ((r = Raise OSError /\ exists_at (w_fs w') (p ++ ["build.json"]) = false) \/
   (r = Ok tt /\
    exists d tree out res,
      arduino cmd d = Some (tree, out, res) /\
      lookup_dir d p = Some (Dir [("build.log", "")] [("build", Dir [] [])]) /\
      frame p (w_fs w1) d /\
      lookup_dir (w_fs w') p
      = Some (Dir [("build.log", out); ("build.json", text res)]
                  [("build", tree)]))).
Proof.
  intros Hcmd Hnone. unfold mkdir_parents. rewrite bind_fs_step.
  destruct (mkdir_parents_at (w_fs w1) (p ++ ["build"])) as [d2|] eqn:Emk.
  2:{ intros [= <- <-]. split; [apply frame_refl|]. left.
      split; [done|]. by apply exists_at_unmarked. }
  pose proof (frame_mkdir_parents_at p _ _ _ Emk) as Hf2.
  apply lookup_dir_mkdir_parents_at in Emk; [|done]. simpl in Emk.
  unfold run_command, write_file.
  unfold mbind at 1. unfold io_bind at 1. rewrite bind_fs_step. simpl w_fs.
  destruct (write_file_at d2 (p ++ ["build.log"]) "") as [d3|] eqn:Elog.
  2:{ intros [= <- <-]. split; [done|]. left. split; [done|].
      by eapply unmarked_fresh. }
  apply lookup_dir_write_file_at in Elog as (dp & Hdp & _ & Hd3 & Hlog).
  rewrite Emk in Hdp. injection Hdp as <-. unfold set_file in Hlog, Hd3.
  simpl in Hlog, Hd3.
  assert (frame p (w_fs w1) d3) as Hf3.
  { eapply frame_trans; [exact Hf2|]. rewrite Hd3. apply frame_put. }
  clear Hd3. rewrite bind_say.
  set (w3 := (say opts _ _).1).
  assert (w_fs w3 = d3) as Hw3 by apply say_fs.
  unfold mbind at 1. unfold io_bind at 1. unfold call at 1. rewrite Hw3.
  destruct (arduino cmd d3) as [[[tree out] res]|] eqn:Etool.
  2:{ intros [= <- <-]. rewrite Hw3. split; [done|]. left. split; [done|].
      by eapply unmarked_fresh. }
  rewrite Hcmd.
  pose proof (lookup_dir_put_below d3 p "build" tree _ Hlog) as H4.
  simpl in H4. set (d4 := put d3 (p ++ ["build"]) (Some tree)) in *.
  assert (frame p d3 d4) as Hf4 by by apply frame_put_below.
  destruct (write_file_at d4 (p ++ ["build.log"]) out) as [d5|] eqn:Eout.
  2:{ rewrite write_file_at_app, H4 in Eout. done. }
  apply lookup_dir_write_file_at in Eout as (dp & Hdp & _ & Hd5 & H5).
  rewrite H4 in Hdp. injection Hdp as <-. unfold set_file in H5, Hd5.
  simpl in H5, Hd5.
  assert (frame p d4 d5) as Hf5 by (rewrite Hd5; apply frame_put).
  clear Hd5. simpl default. rewrite bind_say.
  set (w5 := (say opts _ _).1).
  assert (w_fs w5 = d5) as Hw5 by apply say_fs.
  unfold mret, io_ret. rewrite fs_step_eq, Hw5.
  destruct (write_file_at d5 (p ++ ["build.json"]) (text res)) as [d6|] eqn:Ejson.
  2:{ rewrite write_file_at_app, H5 in Ejson. done. }
  apply lookup_dir_write_file_at in Ejson as (dp & Hdp & _ & Hd6 & H6).
  rewrite H5 in Hdp. injection Hdp as <-. unfold set_file in H6, Hd6.
  simpl in H6, Hd6.
  assert (frame p d5 d6) as Hf6 by (rewrite Hd6; apply frame_put).
  intros [= <- <-]. simpl. split.
  { repeat (eapply frame_trans; [|eassumption]). done. }
  right. split; [done|]. by exists d3, tree, out, res.
Qed.

Lemma do_compile_cases opts sketch board w w' r :
  let p := sketch_result_dir opts sketch board in
  let cmd := {| build_path := p ++ ["build"]; cmd_board := board;
                cmd_sketch := sketch |} in
  do_compile results_abs sketch_abs arduino json_dump opts sketch board w
    = (w', r) ->
  frame p (w_fs w) (w_fs w') /\
  ((r = Ok tt /\ w_fs w' = w_fs w /\
    exists_at (w_fs w) (p ++ ["build.json"]) = true /\
    opt_force opts = false) \/
   ((exists_at (w_fs w) (p ++ ["build.json"]) = false \/
     opt_force opts = true) /\
    ((r = Raise OSError /\
      exists_at (w_fs w') (p ++ ["build.json"]) = false) \/
     (r = Ok tt /\
      exists d tree out res,
        arduino cmd d = Some (tree, out, res) /\
        lookup_dir d p
        = Some (Dir [("build.log", "")] [("build", Dir [] [])]) /\
        frame p (w_fs w) d /\
        lookup_dir (w_fs w') p
        = Some (Dir [("build.log", out);
                     ("build.json",
                      json_dump (marker_of opts sketch board res))]
                    [("build", tree)]))))).
Proof.
  intros p cmd. unfold do_compile. fold (sketch_result_dir opts sketch board).
  fold p. unfold mbind at 1. unfold io_bind at 1.
  destruct (clear_or_skip opts p (p ++ ["build.json"]) _ w) as [w1 r1] eqn:E1.
  apply clear_or_skip_cases in E1; [|done].
  destruct E1 as [(-> & Hfs & Hm & Hf)|[(-> & Hnone & Hcond & Hfs)|(-> & Hfs & Hm)]].
  - intros [= <- <-]. rewrite Hfs. split; [apply frame_refl|]. by left.
  - intros Hrun.
    assert (frame p (w_fs w) (w_fs w1)) as Hf1.
    { destruct Hfs as [->| ->]; [apply frame_refl|apply frame_put]. }
    apply (compile_cases opts p cmd
             (fun res => json_dump (marker_of opts sketch board res)))
      in Hrun as (Hf & Hrun); [|done..].
    split; [by eapply frame_trans|]. right. split; [done|].
    destruct Hrun as [?|(-> & d & tree & out & res & ? & ? & ? & ?)];
      [by left|right].
    split; [done|]. exists d, tree, out, res.
    split_and!; [done..|by eapply frame_trans|done].
  - intros [= <- <-]. rewrite Hfs. split; [apply frame_refl|].
    right. split; [by left|]. by left.
Qed.

End Compile.

Section DoCompile.

Variable results_abs : path -> string.
Variable sketch_abs : path -> string.
Variable arduino : command -> dir -> option (dir * string * Z).
Variable json_dump : marker -> string.

Lemma top_marker_text_intro text : forall p d dp,
  lookup_dir d p = Some dp ->
  assoc "build.json" (dir_files dp) = Some text ->
  (forall q n r, p = q ++ n :: r -> read_file d (q ++ ["build.json"]) = None) ->
  top_marker_text d p text.
Proof.
  induction p as [|n p IH]; intros [files subdirs] dp.
  - intros [= <-] Htext _. by constructor.
  - intros Hp Htext Habove. simpl in Hp.
    destruct (assoc n subdirs) as [d'|] eqn:En; [|done].
    apply top_marker_text_below with d'.
    + apply (Habove [] n p eq_refl).
    + by apply assoc_elem.
    + apply (IH d' dp); [done..|].
      intros q m r ->. specialize (Habove (n :: q) m r eq_refl).
      rewrite read_file_app in Habove |- *. simpl in Habove.
      by rewrite En in Habove.
Qed.

(** X17. A build that is completed is not built again: when the directory
    of the results of the sketch for the board holds [build.json] and
    [--force] is not given, [do_compile] returns with the results directory
    as it was, and all it writes is its message when it is verbose. *)
Theorem completed_build_is_skipped (opts : options) (sketch : path)
    (board : string) (w : world) :
  exists_at (w_fs w) (sketch_result_dir opts sketch board ++ ["build.json"])
    = true ->
  opt_force opts = false ->
  do_compile results_abs sketch_abs arduino json_dump opts sketch board w
  = ({| w_fs := w_fs w;
        w_stdout :=
          w_stdout w ++
          (if decide (1 <= opt_verbose opts)
           then [path_str (parent sketch ++ [board])
                 +:+ " already exists, skipping" +:+ nl]
           else []) |},
     Ok tt).
Proof.
  intros Hmarked Hforce. unfold do_compile, clear_or_skip, path_exists.
  fold (sketch_result_dir opts sketch board).
  remember (sketch_result_dir opts sketch board) as p eqn:Ep. clear Ep.
  unfold mbind, io_bind, mret, io_ret. simpl.
  assert (exists_at (w_fs w) p = true) as ->.
  { apply exists_at_below in Hmarked. unfold exists_at.
    by rewrite (bool_decide_eq_true_2 _ Hmarked). }
  rewrite Hmarked, Hforce. simpl. unfold say, stdout_write.
  destruct (decide (1 <= opt_verbose opts)); simpl; [done|].
  rewrite app_nil_r. by destruct w.
Qed.

(** X18. What a build leaves, for a buildset, a sketch directory and a
    board of plain names: when [do_compile] returns and did not skip
    the build, the directory of the results holds exactly the log with the
    output of the compiler, [build.json] with the dump of the five keys
    (the exit status of the compiler among them) and the build directory
    as the compiler left it, whatever was there before; and the compiler
    was started on a directory with an empty log and an empty build
    directory. *)
Theorem do_compile_leaves_log_marker_and_build (opts : options)
    (sketch : path) (board : string) (w w' : world) :
  let p := sketch_result_dir opts sketch board in
  plain_names opts sketch board ->
  exists_at (w_fs w) (p ++ ["build.json"]) = false \/ opt_force opts = true ->
  do_compile results_abs sketch_abs arduino json_dump opts sketch board w
    = (w', Ok tt) ->
  exists d tree out res,
    arduino {| build_path := p ++ ["build"]; cmd_board := board;
               cmd_sketch := sketch |} d = Some (tree, out, res) /\
    lookup_dir d p = Some (Dir [("build.log", "")] [("build", Dir [] [])]) /\
    lookup_dir (w_fs w') p
    = Some (Dir [("build.log", out);
                 ("build.json", json_dump (marker_of opts sketch board res))]
                [("build", tree)]).
Proof.
  intros p _ Hcond Hrun. subst p.
  apply do_compile_cases in Hrun as (_ & [(_ & _ & Hm & Hf)|(_ & [(? & _)|Hb])]).
  - destruct Hcond; congruence.
  - done.
  - destruct Hb as (_ & d & tree & out & res & ? & ? & _ & ?).
    by exists d, tree, out, res.
Qed.

(** X19. For a buildset, a sketch directory and a board of plain names,
    [do_compile] changes nothing outside the directory of the results
    of the sketch for the board: however it ends, every file that is not
    inside that directory reads as before. *)
Theorem do_compile_writes_inside_its_directory (opts : options)
    (sketch : path) (board : string) (w w' : world) (r : result unit)
    (q : path) :
  plain_names opts sketch board ->
  do_compile results_abs sketch_abs arduino json_dump opts sketch board w
    = (w', r) ->
  ~ inside (sketch_result_dir opts sketch board) q ->
  read_file (w_fs w') q = read_file (w_fs w) q.
Proof. intros _ (Hframe & _)%do_compile_cases Hq. by apply Hframe. Qed.

(** X20. Without [--force] a second run builds nothing: after a run that
    returned, the same call returns again and leaves the results directory
    as the first run left it. *)
Theorem second_run_is_skipped (opts : options) (sketch : path)
    (board : string) (w w1 : world) :
  opt_force opts = false ->
  do_compile results_abs sketch_abs arduino json_dump opts sketch board w
    = (w1, Ok tt) ->
  exists w2,
    do_compile results_abs sketch_abs arduino json_dump opts sketch board w1
      = (w2, Ok tt) /\
    w_fs w2 = w_fs w1.
Proof.
  intros Hforce Hrun.
  assert (exists_at (w_fs w1)
            (sketch_result_dir opts sketch board ++ ["build.json"]) = true)
    as Hmarked.
  { apply do_compile_cases in Hrun
      as (_ & [(_ & -> & Hm & _)|(_ & [(? & _)|Hb])]); [done..|].
    destruct Hb as (_ & d & tree & out & res & _ & _ & _ & Hp).
    by eapply exists_at_file. }
  destruct (do_compile _ _ _ _ opts sketch board w1) as [w2 r2] eqn:Hagain.
  exists w2.
  apply do_compile_cases in Hagain
    as (_ & [(-> & Hfs & _)|([?|?] & _)]); [done|congruence..].
Qed.


(** X22. A build that [do_compile] has written is one the report finds,
    for a buildset, a sketch directory and a board of plain names:
    after a run that returned and did not skip the build, when no directory
    above that of the results held a [build.json], the walk of [find_builds]
    comes to that directory and finds the dump of the build in it; so when
    the walk ends normally and [json.load] reads the dump back, the
    directory is yielded with the build. *)
Theorem compiled_build_is_found (json_load : string -> option marker)
    (opts : options) (sketch : path) (board : string) (w w' : world) :
  let p := sketch_result_dir opts sketch board in
  plain_names opts sketch board ->
  exists_at (w_fs w) (p ++ ["build.json"]) = false \/ opt_force opts = true ->
  (forall q n r, p = q ++ n :: r ->
     read_file (w_fs w) (q ++ ["build.json"]) = None) ->
  do_compile results_abs sketch_abs arduino json_dump opts sketch board w
    = (w', Ok tt) ->
  exists d tree out res,
    let m := marker_of opts sketch board res in
    arduino {| build_path := p ++ ["build"]; cmd_board := board;
               cmd_sketch := sketch |} d = Some (tree, out, res) /\
    top_marker_text (w_fs w') p (json_dump m) /\
    ((find_builds json_load (w_fs w')).2 = None ->
     json_load (json_dump m) = Some m ->
     (p, m) ∈ (find_builds json_load (w_fs w')).1).
Proof.
  intros p _ Hcond Habove Hrun. subst p.
  apply do_compile_cases in Hrun as (Hframe & [(_ & _ & Hm & Hf)|(_ & [(? & _)|Hb])]).
  - destruct Hcond; congruence.
  - done.
  - destruct Hb as (_ & d & tree & out & res & Htool & _ & _ & Hp).
    exists d, tree, out, res. simpl. split; [exact Htool|].
    assert (top_marker_text (w_fs w') (sketch_result_dir opts sketch board)
              (json_dump (marker_of opts sketch board res))) as Htop.
    { eapply top_marker_text_intro; [exact Hp|done|].
      intros q n r Hq. rewrite Hframe; [by eapply Habove|].
      intros (n' & r' & Hin). rewrite Hq in Hin.
      apply (f_equal length) in Hin. rewrite !length_app in Hin.
      simpl in Hin. lia. }
    split; [done|]. intros Hstop Hload.
    destruct (walk_builds_marker_complete json_load _ [] _ _ Hstop Htop)
      as (m' & Hm' & Hin).
    rewrite Hload in Hm'. by injection Hm' as <-.
Qed.

End DoCompile.

Lemma completed_build_is_skipped_witness :
  do_compile Demo.results_abs Demo.sketch_abs Demo.arduino Demo.json_dump
             Demo.opts ["tone"; "tone.ino"] "uno" Demo.start
  = ({| w_fs := Demo.results;
        w_stdout := ["tone/uno already exists, skipping" +:+ nl] |}, Ok tt).
Proof.
  apply (completed_build_is_skipped
           Demo.results_abs Demo.sketch_abs Demo.arduino Demo.json_dump
           Demo.opts ["tone"; "tone.ino"] "uno" Demo.start);
    reflexivity.
Defined.

Lemma do_compile_leaves_log_marker_and_build_witness :
  exists d tree out res,
    Demo.arduino {| build_path := ["next"; "tone"; "uno"; "build"];
                    cmd_board := "uno";
                    cmd_sketch := ["tone"; "tone.ino"] |} d
    = Some (tree, out, res) /\
    lookup_dir d ["next"; "tone"; "uno"]
    = Some (Dir [("build.log", "")] [("build", Dir [] [])]) /\
    lookup_dir
      (w_fs (do_compile Demo.results_abs Demo.sketch_abs Demo.arduino
                        Demo.json_dump Demo.forced ["tone"; "tone.ino"] "uno"
                        Demo.start).1)
      ["next"; "tone"; "uno"]
    = Some (Dir [("build.log", out);
                 ("build.json",
                  Demo.json_dump
                    (marker_of Demo.forced ["tone"; "tone.ino"] "uno" res))]
                [("build", tree)]).
Proof.
  apply (do_compile_leaves_log_marker_and_build
           Demo.results_abs Demo.sketch_abs Demo.arduino Demo.json_dump
           Demo.forced ["tone"; "tone.ino"] "uno" Demo.start).
  - apply (bool_decide_unpack _). vm_compute. exact I.
  - right. reflexivity.
  - vm_compute. reflexivity.
Defined.

Lemma do_compile_writes_inside_its_directory_witness :
  read_file
    (w_fs (do_compile Demo.results_abs Demo.sketch_abs Demo.arduino
                      Demo.json_dump Demo.forced ["tone"; "tone.ino"] "uno"
                      Demo.start).1)
    ["next"; "blink"; "uno"; "build.json"]
  = read_file Demo.results ["next"; "blink"; "uno"; "build.json"].
Proof.
  apply (do_compile_writes_inside_its_directory
           Demo.results_abs Demo.sketch_abs Demo.arduino Demo.json_dump
           Demo.forced ["tone"; "tone.ino"] "uno" Demo.start _ (Ok tt)).
  - apply (bool_decide_unpack _). vm_compute. exact I.
  - vm_compute. reflexivity.
  - intros (n & r & H). discriminate H.
Defined.

Lemma second_run_is_skipped_witness :
  exists w1 w2,
    do_compile Demo.results_abs Demo.sketch_abs Demo.arduino Demo.json_dump
               Demo.opts ["servo"; "servo.ino"] "uno" Demo.start
    = (w1, Ok tt) /\
    w_fs w1 <> Demo.results /\
    do_compile Demo.results_abs Demo.sketch_abs Demo.arduino Demo.json_dump
               Demo.opts ["servo"; "servo.ino"] "uno" w1
    = (w2, Ok tt) /\
    w_fs w2 = w_fs w1.
Proof.
  set (w1 := (do_compile Demo.results_abs Demo.sketch_abs Demo.arduino
                         Demo.json_dump Demo.opts ["servo"; "servo.ino"] "uno"
                         Demo.start).1).
  assert (do_compile Demo.results_abs Demo.sketch_abs Demo.arduino
                     Demo.json_dump Demo.opts ["servo"; "servo.ino"] "uno"
                     Demo.start = (w1, Ok tt)) as Hrun
    by (vm_compute; reflexivity).
  destruct (second_run_is_skipped
              Demo.results_abs Demo.sketch_abs Demo.arduino Demo.json_dump
              Demo.opts ["servo"; "servo.ino"] "uno" Demo.start w1
              eq_refl Hrun) as (w2 & Hagain & Hfs).
  exists w1, w2. split; [exact Hrun|]. split; [|split; [exact Hagain|exact Hfs]].
  vm_compute. discriminate.
Defined.


Lemma compiled_build_is_found_witness :
  let d := w_fs (do_compile Demo.results_abs Demo.sketch_abs Demo.arduino
                            Demo.json_dump Demo.forced
                            ["tone"; "tone.ino"] "uno" Demo.start).1 in
  top_marker_text d ["next"; "tone"; "uno"] "next/tone/uno" /\
  (["next"; "tone"; "uno"], Demo.tone) ∈ (find_builds Demo.json_load d).1.
Proof.
  destruct (compiled_build_is_found
              Demo.results_abs Demo.sketch_abs Demo.arduino Demo.json_dump
              Demo.json_load Demo.forced ["tone"; "tone.ino"] "uno"
              Demo.start
              (do_compile Demo.results_abs Demo.sketch_abs Demo.arduino
                          Demo.json_dump Demo.forced
                          ["tone"; "tone.ino"] "uno" Demo.start).1)
    as (d0 & tree & out & res & Htool & Htop & Hfound).
  - apply (bool_decide_unpack _). vm_compute. exact I.
  - right. reflexivity.
  - intros [|a [|b [|c q]]] n r H.
    + reflexivity.
    + injection H as <- _ _. reflexivity.
    + injection H as <- <- _ _. reflexivity.
    + injection H as _ _ _ H. by destruct q.
  - vm_compute. reflexivity.
  - injection Htool as _ _ <-. split; [exact Htop|].
    apply Hfound; reflexivity.
Defined.

(** ** The command *)

Section BuildCommand.

Variable results_abs : path -> string.
Variable sketch_abs : path -> string.
Variable arduino : command -> dir -> option (dir * string * Z).
Variable json_dump : marker -> string.

Lemma check_sketches_cases sketches :
  Forall (fun sketch : path => sketch <> []) sketches ->
  (check_sketches sketches = BuildUsageError /\ Exists refused sketches) \/
  (check_sketches sketches = BuildDone /\ ~ Exists refused sketches).
Proof.
  unfold refused. induction 1 as [|sketch l Hne _ IH]; simpl.
  { right. split; [done|]. by intros ?%Exists_nil. }
  destruct (is_absolute sketch) eqn:Eabs.
  { left. split; [done|]. left. by left. }
  destruct sketch as [|part sketch]; [done|].
  destruct (decide (part = "..")) as [->|Hpart].
  { left. split; [done|]. left. by right. }
  destruct IH as [[-> Hex]|[-> Hno]]; [left|right]; (split; [done|]).
  - by right.
  - intros [[?|[= ?]]|?]%Exists_cons; [congruence|done..].
Qed.

(** X23. One sketch that is given by an absolute path, or by a path that
    starts with [..], stops the command before anything is compiled: the
    command ends with the usage error, the results directory is as it was
    and nothing is written, whatever the other sketches are. And the usage
    error has no other cause. *)
Theorem refused_sketch_stops_the_build (opts : options)
    (sketches : list path) (boards : string) (w : world) :
  Forall (fun sketch : path => sketch <> []) sketches ->
  (Exists refused sketches ->
   build_command results_abs sketch_abs arduino json_dump
                 opts sketches boards w = (w, BuildUsageError)) /\
  ((build_command results_abs sketch_abs arduino json_dump
                  opts sketches boards w).2 = BuildUsageError ->
   Exists refused sketches).
Proof.
  intros Hne. unfold build_command.
  destruct (check_sketches_cases sketches Hne) as [[-> Hex]|[-> Hno]].
  - done.
  - split; [done|].
    by destruct (compile_sketches _ _ _ _ _ _ _ _) as [w' [[]|e]].
Qed.





End BuildCommand.

(** ** The list of the boards *)

Section Boards.

#[local] Arguments String.append : simpl nomatch.

Lemma all_chars_rev f cur :
  forallb f cur = true ->
  all_chars f (string_of_list_ascii (rev cur)) = true.
Proof.
  unfold all_chars. rewrite list_ascii_of_string_of_list_ascii.
  rewrite !forallb_forall. intros H c Hc. apply H. by apply in_rev.
Qed.

Lemma string_of_rev_not_empty c cur :
  string_of_list_ascii (rev (c :: cur)) <> "".
Proof.
  intros H. apply (f_equal list_ascii_of_string) in H.
  rewrite list_ascii_of_string_of_list_ascii in H. simpl in H.
  by destruct (rev cur).
Qed.

Lemma string_of_snoc l c s :
  string_of_list_ascii (l ++ [c]) +:+ s = string_of_list_ascii l +:+ String c s.
Proof. induction l as [|a l IH]; simpl; [done|]. by rewrite IH. Qed.

Lemma re_split_from_clean s : forall cur in_run b,
  forallb no_sep cur = true ->
  b ∈ re_split_from cur in_run s -> all_chars no_sep b = true.
Proof.
  induction s as [|c s IH]; intros cur in_run b Hcur; simpl.
  - intros ->%list_elem_of_singleton. by apply all_chars_rev.
  - destruct (is_sep c) eqn:Ec.
    + destruct in_run.
      * by apply IH.
      * intros [->|Hin]%elem_of_cons; [by apply all_chars_rev|].
        by apply (IH [] true).
    + apply IH. simpl. unfold no_sep at 1. by rewrite Ec.
Qed.

Lemma re_split_from_shape s : forall cur in_run,
  exists first rest,
    re_split_from cur in_run s = first :: rest /\
    (forall b, b ∈ removelast rest -> b <> "") /\
    (in_run = true \/ cur <> [] -> rest <> [] -> first <> "").
Proof.
  induction s as [|c s IH]; intros cur in_run; simpl.
  - eexists _, []. split; [done|]. split; [by intros ? ?%elem_of_nil|done].
  - destruct (is_sep c) eqn:Ec.
    + destruct (IH [] true) as (first & rest & Hrun & Hmid & Hfirst).
      rewrite Hrun. destruct in_run.
      * exists first, rest. split; [done|]. split; [done|]. intros _. auto.
      * eexists _, (first :: rest). split; [done|]. split.
        -- intros b. destruct rest as [|x rest]; [by intros ?%elem_of_nil|].
           change (removelast (first :: x :: rest))
             with (first :: removelast (x :: rest)).
           intros [->|Hin]%elem_of_cons; [|by apply Hmid].
           apply Hfirst; [by left|done].
        -- intros [[=]|Hcur] _. destruct cur as [|a cur]; [done|].
           apply string_of_rev_not_empty.
    + destruct (IH (c :: cur) false) as (first & rest & Hrun & Hmid & Hfirst).
      exists first, rest. split; [done|]. split; [done|]. intros _.
      apply Hfirst. by right.
Qed.

Lemma re_split_from_whole s : forall cur in_run,
  all_chars no_sep s = true ->
  re_split_from cur in_run s = [string_of_list_ascii (rev cur) +:+ s].
Proof.
  unfold all_chars.
  induction s as [|c s IH]; intros cur in_run; simpl.
  - intros _. f_equal. induction (string_of_list_ascii (rev cur)) as [|? ? IHs];
      simpl; [done|]. by rewrite <- IHs.
  - unfold no_sep at 1. destruct (is_sep c); simpl; [done|].
    intros Hs. rewrite IH by done. simpl. by rewrite string_of_snoc.
Qed.

Lemma re_split_from_last s c : forall cur in_run,
  is_sep c = true ->
  last (re_split_from cur in_run (s +:+ String c "")) = Some "".
Proof.
  intros cur in_run Hc. revert cur in_run.
  induction s as [|a s IH]; intros cur in_run; simpl.
  - rewrite Hc. by destruct in_run.
  - destruct (is_sep a).
    + destruct in_run; [apply IH|].
      specialize (IH [] true).
      destruct (re_split_from [] true (s +:+ String c "")); [done|].
      by rewrite last_cons, IH.
    + apply IH.
Qed.

(** X24. The list of the boards, for a text of ASCII characters: no board
    holds white space or a comma; the boards between the first and the
    last are not empty; and a text without white space and comma is one
    board. *)
Theorem boards_are_split_at_separators (boards : string) :
  ascii_text boards = true ->
  (forall board, board ∈ re_split boards -> all_chars no_sep board = true) /\
  (exists first rest,
     re_split boards = first :: rest /\
     forall board, board ∈ removelast rest -> board <> "") /\
  (all_chars no_sep boards = true -> re_split boards = [boards]).
Proof.
  intros _. unfold re_split. split_and!.
  - intros board. by apply re_split_from_clean.
  - destruct (re_split_from_shape boards [] false)
      as (first & rest & Hrun & Hmid & _).
    by exists first, rest.
  - intros Hclean. by rewrite re_split_from_whole.
Qed.

(** X25. White space or a comma at the start of the text of the boards
    gives an empty first board, and at the end of the text an empty last
    board, in the list that [re.split] makes of a text of ASCII
    characters. *)
Theorem separator_at_an_end_gives_an_empty_board (boards : string)
    (c : ascii) :
  ascii_text boards = true ->
  is_sep c = true ->
  head (re_split (String c boards)) = Some "" /\
  last (re_split (boards +:+ String c "")) = Some "".
Proof.
  intros _ Hc. unfold re_split. split.
  - simpl. by rewrite Hc.
  - by apply re_split_from_last.
Qed.

End Boards.

Lemma refused_sketch_stops_the_build_witness :
  build_command Demo.results_abs Demo.sketch_abs Demo.arduino Demo.json_dump
                Demo.forced [["servo"; "servo.ino"]; [".."; "tone.ino"]]
                "uno" Demo.start
  = (Demo.start, BuildUsageError).
Proof.
  apply (proj1 (refused_sketch_stops_the_build
                  Demo.results_abs Demo.sketch_abs Demo.arduino
                  Demo.json_dump Demo.forced
                  [["servo"; "servo.ino"]; [".."; "tone.ino"]]
                  "uno" Demo.start
                  ltac:(repeat constructor; discriminate))).
  right. left. right. reflexivity.
Defined.


Lemma boards_are_split_at_separators_witness :
  re_split "arduino:avr:uno, arduino:avr:mega"
  = ["arduino:avr:uno"; "arduino:avr:mega"] /\
  (all_chars no_sep "arduino:avr:uno" = true ->
   re_split "arduino:avr:uno" = ["arduino:avr:uno"]).
Proof.
  split; [reflexivity|].
  exact (proj2 (proj2 (boards_are_split_at_separators
                         "arduino:avr:uno" eq_refl))).
Defined.

Lemma separator_at_an_end_gives_an_empty_board_witness :
  head (re_split ",uno") = Some "" /\ last (re_split "uno,") = Some "".
Proof.
  exact (separator_at_an_end_gives_an_empty_board
           "uno" ","%char eq_refl eq_refl).
Defined.
